(** * Panasonic KV-S3105C / KV-SS905C userspace scanner drivers

    A shallow embedding of the two drivers of this repository:

    - [kv-s3105c/kvs3105usb.c] tunnels SCSI commands over USB bulk
      endpoints (module [KVS3105]), driven by [kv-s3105c/kvscanner.c];
    - [kv-ss905c/kvss905c.c] issues them through the SCSI-generic ioctl
      (module [KVSS905C]), driven by [kv-ss905c/kvscanner.c].

    Machine integers are [Z] with the wrap-around of their C type written
    out ([u8], [u16], [u32]); memory is a [list Z] of bytes read with [rd]
    and written with [wr], [memcpy] and [memset]; the operating system and
    the device are an explicit state threaded through every call. *)

From Stdlib Require Import ZArith Lia.
From stdpp Require Import base numbers list strings pretty gmap.

Local Open Scope Z_scope.

(** ** Machine integers *)

Definition u8 (x : Z) : Z := x mod 256.
Definition u16 (x : Z) : Z := x mod 65536.
Definition u32 (x : Z) : Z := x mod 4294967296.

(** The byte order of the machine the driver runs on decides what
    [htons], [htonl], [ntohl] and a [memcpy] of an integer object do. *)
Inductive endianness : Type := LittleEndian | BigEndian.

Definition byte_n (x : Z) (n : Z) : Z := Z.land (Z.shiftr x (8 * n)) 255.

Definition bswap16 (x : Z) : Z :=
  Z.lor (Z.shiftl (byte_n x 0) 8) (byte_n x 1).

Definition bswap32 (x : Z) : Z :=
  Z.lor (Z.lor (Z.shiftl (byte_n x 0) 24) (Z.shiftl (byte_n x 1) 16))
        (Z.lor (Z.shiftl (byte_n x 2) 8) (byte_n x 3)).

Definition htons (host : endianness) (x : Z) : Z :=
  match host with LittleEndian => bswap16 (u16 x) | BigEndian => u16 x end.

Definition htonl (host : endianness) (x : Z) : Z :=
  match host with LittleEndian => bswap32 (u32 x) | BigEndian => u32 x end.

Definition ntohl (host : endianness) (x : Z) : Z := htonl host x.

(** Object representation of a [uint16_t] / [uint32_t] in memory. *)
Definition bytes_of_u16 (host : endianness) (x : Z) : list Z :=
  match host with
  | LittleEndian => [byte_n x 0; byte_n x 1]
  | BigEndian => [byte_n x 1; byte_n x 0]
  end.

Definition bytes_of_u32 (host : endianness) (x : Z) : list Z :=
  match host with
  | LittleEndian => [byte_n x 0; byte_n x 1; byte_n x 2; byte_n x 3]
  | BigEndian => [byte_n x 3; byte_n x 2; byte_n x 1; byte_n x 0]
  end.

(** ** Memory *)

(** [m[i]] read through a [uint8_t *]. *)
Definition rd (m : list Z) (i : nat) : Z := u8 (nth i m 0).

(** [m[i] = v] through a [uint8_t *]. *)
Definition wr (m : list Z) (i : nat) (v : Z) : list Z := <[i := u8 v]> m.

(** [memcpy(dst + off, src, n)]; the source holds at least [n] bytes and
    the destination at least [off + n] at every call of the drivers. *)
Definition memcpy (dst : list Z) (off : nat) (src : list Z) (n : nat) : list Z :=
  take off dst ++ take n src ++ drop (off + n) dst.

(** [memset(dst + off, v, n)]. *)
Definition memset (dst : list Z) (off : nat) (v : Z) (n : nat) : list Z :=
  take off dst ++ replicate n (u8 v) ++ drop (off + n) dst.

(** [memcmp(a, b, n)]: zero when the first [n] bytes agree, otherwise the
    difference of the first two bytes that differ (the C standard fixes
    its sign only). *)
Fixpoint memcmp (a b : list Z) (n : nat) : Z :=
  match n with
  | O => 0
  | S n =>
      let x := rd a 0 in
      let y := rd b 0 in
      if x =? y then memcmp (tail a) (tail b) n else x - y
  end.

(** A [uint32_t] load from [&m[i]], in host byte order. *)
Definition load_u32 (host : endianness) (m : list Z) (i : nat) : Z :=
  match host with
  | LittleEndian =>
      Z.lor (Z.lor (rd m i) (Z.shiftl (rd m (i + 1)) 8))
            (Z.lor (Z.shiftl (rd m (i + 2)) 16) (Z.shiftl (rd m (i + 3)) 24))
  | BigEndian =>
      Z.lor (Z.lor (Z.shiftl (rd m i) 24) (Z.shiftl (rd m (i + 1)) 16))
            (Z.lor (Z.shiftl (rd m (i + 2)) 8) (rd m (i + 3)))
  end.

(** The big-endian reading of four consecutive bytes. *)
Definition be32 (m : list Z) (i : nat) : Z :=
  rd m i * 16777216 + rd m (i + 1) * 65536 + rd m (i + 2) * 256 + rd m (i + 3).

(** A function that calls [abort()] does not return. *)
Inductive outcome (A : Type) : Type :=
  | Aborted : outcome A
  | Returned : A -> outcome A.
Arguments Aborted {A}.
Arguments Returned {A} _.

(** ** The window record, [struct kvs3105_window] / [struct kvss905c_window]
    (the two declarations have the same fields in the same order) *)

Record window : Type := Window {
  xres : Z; yres : Z;
  x1 : Z; y1 : Z; width : Z; length_ : Z;
  brighness : Z; threshold : Z; contrast : Z; composition : Z; bpp : Z;
  halftone_pattern : Z;
  reverse_image : Z;
  bit_ordering : Z;
  compression_type : Z; compression_argument : Z;
  flatbed : Z;
  stop_on_skew : Z;
  disable_buffering : Z;
  continue_on_double_feed : Z;
  mirror_image : Z;
  emphasis : Z;
  gamma_correction : Z;
  multi_colour_drop_out : Z;
  lamp : Z;
  double_feed_sensitivity : Z;
  remove_moire : Z;
  subsample : Z;
  colour_match : Z;
  document_size : Z;
  document_width : Z; document_length : Z;
  ahead_disable : Z;
  deskew : Z;
  double_feed_detector : Z;
  full_size_scan : Z;
  feed_slow : Z;
  remove_shadow : Z;
  number_of_pages_to_scan : Z;
  threshold_mode : Z;
  separation_mode : Z;
  standard_white_level : Z;
  blackwhite_noise_reduction : Z;
  noise_reduction : Z;
  manual_feed_mode : Z;
  additional_space_top : Z;
  additional_space_bottom : Z;
  detect_separation_sheet : Z;
  halt_at_separation_sheet : Z;
  detect_control_sheet : Z;
  stop_mode : Z;
  red_chroma : Z;
  blue_chroma : Z
}.

(** [window.number_of_pages_to_scan = n] on a window record; the field is
    a [uint8_t]. *)
Definition set_number_of_pages_to_scan (n : Z) (w : window) : window :=
  {|
     xres := xres w;
     yres := yres w;
     x1 := x1 w;
     y1 := y1 w;
     width := width w;
     length_ := length_ w;
     brighness := brighness w;
     threshold := threshold w;
     contrast := contrast w;
     composition := composition w;
     bpp := bpp w;
     halftone_pattern := halftone_pattern w;
     reverse_image := reverse_image w;
     bit_ordering := bit_ordering w;
     compression_type := compression_type w;
     compression_argument := compression_argument w;
     flatbed := flatbed w;
     stop_on_skew := stop_on_skew w;
     disable_buffering := disable_buffering w;
     continue_on_double_feed := continue_on_double_feed w;
     mirror_image := mirror_image w;
     emphasis := emphasis w;
     gamma_correction := gamma_correction w;
     multi_colour_drop_out := multi_colour_drop_out w;
     lamp := lamp w;
     double_feed_sensitivity := double_feed_sensitivity w;
     remove_moire := remove_moire w;
     subsample := subsample w;
     colour_match := colour_match w;
     document_size := document_size w;
     document_width := document_width w;
     document_length := document_length w;
     ahead_disable := ahead_disable w;
     deskew := deskew w;
     double_feed_detector := double_feed_detector w;
     full_size_scan := full_size_scan w;
     feed_slow := feed_slow w;
     remove_shadow := remove_shadow w;
     number_of_pages_to_scan := n;
     threshold_mode := threshold_mode w;
     separation_mode := separation_mode w;
     standard_white_level := standard_white_level w;
     blackwhite_noise_reduction := blackwhite_noise_reduction w;
     noise_reduction := noise_reduction w;
     manual_feed_mode := manual_feed_mode w;
     additional_space_top := additional_space_top w;
     additional_space_bottom := additional_space_bottom w;
     detect_separation_sheet := detect_separation_sheet w;
     halt_at_separation_sheet := halt_at_separation_sheet w;
     detect_control_sheet := detect_control_sheet w;
     stop_mode := stop_mode w;
     red_chroma := red_chroma w;
     blue_chroma := blue_chroma w |}.

(** ** Window serialisation

    The writer state is the memory holding the output array and the
    running index [j]; [output] is the offset of the array in that memory
    ([windowbytes + 8] in [set_windows]). *)

Definition writer : Type := list Z * nat.

(** [#define U8I(x) output[j++] = x;] *)
Definition U8I (output : nat) (x : Z) (s : writer) : writer :=
  (wr s.1 (output + s.2) x, S s.2).

(** [#define U8(x) output[j++] = window->x;] *)
Definition U8 (output : nat) (x : Z) (s : writer) : writer := U8I output x s.

(** [#define U16(x) do { uint16_t t = htons(window->x);
                         memcpy(output + j, &t, 2); j += 2; } while (0);] *)
Definition U16 (host : endianness) (output : nat) (x : Z) (s : writer) : writer :=
  let t := htons host x in
  (memcpy s.1 (output + s.2) (bytes_of_u16 host t) 2, (s.2 + 2)%nat).

(** [#define U32(x) do { uint32_t t = htonl(window->x);
                         memcpy(output + j, &t, 4); j += 4; } while (0);] *)
Definition U32 (host : endianness) (output : nat) (x : Z) (s : writer) : writer :=
  let t := htonl host x in
  (memcpy s.1 (output + s.2) (bytes_of_u32 host t) 4, (s.2 + 4)%nat).

(** [j += n;] *)
Definition SKIP (n : nat) (s : writer) : writer := (s.1, (s.2 + n)%nat).

(** The statements of [kvs3105_window_serialise] (kvs3105usb.c) and of
    [kvss905c_window_serialise] (kvss905c.c), in order; the two functions
    have the same body. *)
Definition window_serialise_body (host : endianness) (output : nat) (w : window)
  : list (writer -> writer) :=
  [ U8I output 0;
    U8I output 0;
    U16 host output (xres w);
    U16 host output (yres w);
    U32 host output (x1 w);
    U32 host output (y1 w);
    U32 host output (width w);
    U32 host output (length_ w);
    U8 output (brighness w);
    U8 output (threshold w);
    U8 output (contrast w);
    U8 output (composition w);
    U8 output (bpp w);
    U16 host output (halftone_pattern w);
    U8I output (if reverse_image w =? 0 then 0 else 0x80);
    U16 host output (bit_ordering w);
    U8 output (compression_type w);
    U8 output (compression_argument w);
    SKIP 6;
    U8I output 0;
    U8I output (Z.lor (Z.lor (Z.lor (Z.shiftl (flatbed w) 7)
                                    (Z.shiftl (stop_on_skew w) 4))
                             (Z.shiftl (disable_buffering w) 3))
                      (Z.shiftl (continue_on_double_feed w) 0));
    U8 output (mirror_image w);
    U8 output (emphasis w);
    U8 output (gamma_correction w);
    U8I output (Z.lor (Z.lor (Z.shiftl (multi_colour_drop_out w) 7)
                             (Z.shiftl (lamp w) 4))
                      (Z.shiftl (double_feed_sensitivity w) 0));
    U8I output (Z.lor (Z.lor (Z.shiftl (remove_moire w) 6)
                             (Z.shiftl (subsample w) 4))
                      (Z.shiftl (colour_match w) 0));
    U8 output (document_size w);
    U32 host output (document_width w);
    U32 host output (document_length w);
    U8I output (Z.lor (Z.lor (Z.lor (Z.lor (Z.lor (Z.shiftl (ahead_disable w) 7)
                                                  (Z.shiftl (deskew w) 5))
                                           (Z.shiftl (double_feed_detector w) 4))
                                    (Z.shiftl (full_size_scan w) 2))
                             (Z.shiftl (feed_slow w) 1))
                      (Z.shiftl (remove_shadow w) 0));
    U8 output (number_of_pages_to_scan w);
    U8 output (threshold_mode w);
    U8 output (separation_mode w);
    U8 output (standard_white_level w);
    U8I output (Z.lor (Z.shiftl (blackwhite_noise_reduction w) 7)
                      (Z.shiftl (noise_reduction w) 0));
    U8I output (Z.lor (Z.lor (Z.lor (Z.lor (Z.lor (Z.shiftl (manual_feed_mode w) 6)
                                                  (Z.shiftl (additional_space_top w) 5))
                                           (Z.shiftl (additional_space_bottom w) 4))
                                    (Z.shiftl (detect_separation_sheet w) 3))
                             (Z.shiftl (halt_at_separation_sheet w) 2))
                      (Z.shiftl (detect_control_sheet w) 1));
    U8 output (stop_mode w) ].

(** Runs the statements from [j = 0] and returns the memory and [j]. *)
Definition window_serialise (host : endianness) (mem : list Z) (output : nat)
    (w : window) : list Z * Z :=
  let s := foldl (fun s stmt => stmt s) (mem, 0%nat)
                 (window_serialise_body host output w) in
  (s.1, Z.of_nat s.2).

Definition WINDOW_SIZE : Z := 64.

(** ** The USB-bulk driver, kv-s3105c/kvs3105usb.c *)

(** <scsi/sg.h> *)
Definition SG_DXFER_TO_DEV : Z := -2.
Definition SG_DXFER_FROM_DEV : Z := -3.

Module KVS3105.

Definition kMaxBuffer : Z := 0x10000.
Definition KVS3105_REQUEST_SENSE_SIZE : Z := 20.
Definition KVS3105_BUFFER_SIZE : Z := 0x10000.

Definition COMMAND_BLOCK : Z := 1.
Definition DATA_BLOCK : Z := 2.
Definition RESPONSE_BLOCK : Z := 3.

Definition COMMAND_CODE : Z := 0x9000.
Definition DATA_CODE : Z := 0xb000.
Definition RESPONSE_CODE : Z := 0xa000.
Definition STATUS_SIZE : Z := 4.

(** [sizeof(struct bulk_header)]: the struct is packed, 4 + 2 + 2 + 4. *)
Definition sizeof_bulk_header : Z := 12.

Definition GOOD : Z := 0.
Definition CHECK_CONDITION : Z := 2.

Definition CMD_NONE : Z := 0.
Definition CMD_IN : Z := 0x81.
Definition CMD_OUT : Z := 0x02.

Definition RESPONSE_SIZE : Z := 0x12.
Definition MAX_CMD_SIZE : Z := 12.

(** [struct cmd]; [data] holds what the pointer points to, [None] is the
    null pointer. *)
Record cmd : Type := Cmd {
  cmd_bytes : list Z;
  cmd_size : Z;
  data : option (list Z);
  data_size : Z;
  dir : Z
}.

(** [struct response] *)
Record response : Type := Response {
  status : Z;
  response_data : list Z
}.

Definition REQUEST_SENSE : Z := 0x03.

(** What the driver calls and does not define: libusb and the C runtime.
    [libusb_bulk_transfer b endpoint bytes length timeout] gets the bytes
    offered (for an OUT endpoint) and answers the return code and the bytes
    the device delivered (for an IN endpoint); [usleep] lets time pass;
    [indeterminate n] is what an automatic array of [n] bytes holds before
    it is first written. *)
Class Libusb (bus : Type) : Type := {
  host : endianness;
  libusb_bulk_transfer : bus -> Z -> list Z -> Z -> Z -> Z * list Z * bus;
  usleep : bus -> Z -> bus;
  indeterminate : nat -> list Z
}.

Section Driver.
Context {bus : Type} `{Libusb bus}.

(** An automatic array of [n] bytes. *)
Definition alloca (n : Z) : list Z := resize (Z.to_nat n) 0 (indeterminate (Z.to_nat n)).

(** A bulk transfer to the device of the first [sz] bytes of [buf]. *)
Definition bulk_out (b : bus) (buf : list Z) (sz timeout : Z) : Z * bus :=
  let '(ret, _, b) := libusb_bulk_transfer b CMD_OUT (take (Z.to_nat sz) buf) sz timeout in
  (ret, b).

(** A bulk transfer from the device into [buf]: at most [sz] bytes are
    stored, from the start of [buf]; answers the return code, [transferred]
    and the buffer. *)
Definition bulk_in (b : bus) (buf : list Z) (sz timeout : Z) : Z * Z * list Z * bus :=
  let '(ret, delivered, b) := libusb_bulk_transfer b CMD_IN [] sz timeout in
  let received := take (Z.to_nat sz) (u8 <$> delivered) in
  (ret, Z.of_nat (length received), memcpy buf 0 received (length received), b).

(** [static int usb_send_command(usb_handle usbhandle, struct cmd *c,
                                 struct response *r, void *buf, int timeout)]
    Return codes: -3 failure to send the command, -2 failure to send or
    receive the associated data, -1 failure to get the SCSI status back,
    0 everything OK. *)
Definition usb_send_command (b : bus) (c : cmd) (r : response) (buf : list Z)
    (timeout : Z) : Z * cmd * response * list Z * bus :=
  let sz := sizeof_bulk_header + MAX_CMD_SIZE in
  let h := memset buf 0 0 (Z.to_nat sz) in
  let h := memcpy h 0 (bytes_of_u32 host (htonl host sz)) 4 in
  let h := memcpy h 4 (bytes_of_u16 host (htons host COMMAND_BLOCK)) 2 in
  let h := memcpy h 6 (bytes_of_u16 host (htons host COMMAND_CODE)) 2 in
  let h := memcpy h 12 (cmd_bytes c) (Z.to_nat (cmd_size c)) in
  let timeout := if timeout =? 0 then 10000 else timeout in
  (* Get the SCSI status packet. *)
  let get_status (b : bus) (c : cmd) (h : list Z) :=
    let resp := alloca (sizeof_bulk_header + STATUS_SIZE) in
    let sz := sizeof_bulk_header + STATUS_SIZE in
    let '(ret1, transferred, resp, b) := bulk_in b resp sz timeout in
    if negb (ret1 =? 0) then
      (-1, c, Response CHECK_CONDITION (response_data r), h, b)
    else
      (0, c, Response (ntohl host (load_u32 host resp 12)) (response_data r), h, b) in
  (* Transfer the command itself to the USB device. *)
  let '(ret1, b) := bulk_out b h sz timeout in
  if negb (ret1 =? 0) then (-3, c, r, h, b)
  else if dir c =? CMD_IN then
    (* If the direction of data transfer is IN, then get data from the device. *)
    let sz := sizeof_bulk_header + data_size c in
    let '(ret1, transferred, h, b) := bulk_in b h sz timeout in
    let c := Cmd (cmd_bytes c) (cmd_size c) (Some (drop 12 h)) (data_size c) (dir c) in
    if negb (ret1 =? 0) || (transferred <? sizeof_bulk_header) then
      (-2, Cmd (cmd_bytes c) (cmd_size c) (data c) 0 (dir c),
       Response CHECK_CONDITION (response_data r), h, b)
    else
      let c := Cmd (cmd_bytes c) (cmd_size c) (data c) (sz - sizeof_bulk_header) (dir c) in
      get_status b c h
  else if dir c =? CMD_OUT then
    (* If we're to send data out, then send it. *)
    let sz := sizeof_bulk_header + data_size c in
    let h := memset h 0 0 12 in
    let h := memcpy h 0 (bytes_of_u32 host (htonl host (sizeof_bulk_header + data_size c))) 4 in
    let h := memcpy h 4 (bytes_of_u16 host (htons host DATA_BLOCK)) 2 in
    let h := memcpy h 6 (bytes_of_u16 host (htons host DATA_CODE)) 2 in
    let h := memcpy h 12 (default [] (data c)) (Z.to_nat (data_size c)) in
    let '(ret1, b) := bulk_out b h sz timeout in
    if negb (ret1 =? 0) then (-2, c, r, h, b)
    else get_status b c h
  else get_status b c h.

(** [static int send_command(usb_handle usbhandle, int direction,
        const void *command, unsigned command_length,
        void *data, unsigned data_length, void *requestsense, int timeout)]
    Returns 0 on success, 1 in the case of an ioctl error, 2 in the case
    of a SCSI error, 3 if the data transfer failed.  The result carries
    the caller's data buffer and request-sense buffer as the call leaves
    them. *)
Definition send_command (b : bus) (direction : Z) (command : list Z)
    (command_length : Z) (data_ : option (list Z)) (data_length : Z)
    (requestsense : list Z) (timeout : Z)
  : Z * option (list Z) * list Z * bus :=
  let bb := alloca (sizeof_bulk_header +
                    (if data_length >? MAX_CMD_SIZE then data_length else MAX_CMD_SIZE)) in
  let r := Response 0 (replicate (Z.to_nat RESPONSE_SIZE) 0) in
  let c := Cmd command command_length data_ data_length
               (if (if data_ is None then true else false) || (data_length =? 0)
                then CMD_NONE
                else if direction =? SG_DXFER_TO_DEV then CMD_OUT else CMD_IN) in
  let requestsense := memset requestsense 0 0 (Z.to_nat RESPONSE_SIZE) in
  let '(st, c, r, bb, b) := usb_send_command b c r bb timeout in
  if st =? -2 then (3, data_, requestsense, b)
  else if st <? -1 then (1, data_, requestsense, b)
  else
    let data_ :=
      if dir c =? CMD_IN
      then Some (memcpy (default [] data_) 0 (default [] (data c)) (Z.to_nat (data_size c)))
      else data_ in
    if negb (status r =? 0) then
      let b_ := alloca (sizeof_bulk_header + RESPONSE_SIZE) in
      let cmd_ := [REQUEST_SENSE; 0; 0; 0; RESPONSE_SIZE; 0] in
      let c2 := Cmd cmd_ 6 None RESPONSE_SIZE CMD_IN in
      let '(st, c2, r, b_, b) := usb_send_command b c2 r b_ timeout in
      if (st <? -1) || (data_size c2 =? 0) then (1, data_, requestsense, b)
      else
        let requestsense :=
          memcpy requestsense 0 (drop (Z.to_nat sizeof_bulk_header) b_)
                 (Z.to_nat RESPONSE_SIZE) in
        (2, data_, requestsense, b)
    else (0, data_, requestsense, b).

(** [void kvs3105_window_init(struct kvs3105_window *window)] *)
Definition kvs3105_window_init : window :=
  {| xres := 300; yres := 300;
     x1 := 0; y1 := 0; width := 10200; length_ := 13200;
     brighness := 0; threshold := 0; contrast := 0; composition := 5; bpp := 24;
     halftone_pattern := 0;
     reverse_image := 0;
     bit_ordering := 0;
     compression_type := 0x81; compression_argument := 85;
     flatbed := 0;
     stop_on_skew := 0;
     disable_buffering := 0;
     continue_on_double_feed := 0;
     mirror_image := 0;
     emphasis := 0xf0;
     gamma_correction := 0;
     multi_colour_drop_out := 0;
     lamp := 0;
     double_feed_sensitivity := 0;
     remove_moire := 0;
     subsample := 3;
     colour_match := 0;
     document_size := 7;
     document_width := 10200; document_length := 13200;
     ahead_disable := 0;
     deskew := 0;
     double_feed_detector := 1;
     full_size_scan := 0;
     feed_slow := 0;
     remove_shadow := 0;
     number_of_pages_to_scan := 0xff;
     threshold_mode := 0;
     separation_mode := 0;
     standard_white_level := 0;
     blackwhite_noise_reduction := 0;
     noise_reduction := 0;
     manual_feed_mode := 0;
     additional_space_top := 0;
     additional_space_bottom := 0;
     detect_separation_sheet := 0;
     halt_at_separation_sheet := 0;
     detect_control_sheet := 0;
     stop_mode := 0;
     red_chroma := 0;
     blue_chroma := 0 |}.

(** [static int kvs3105_window_serialise(uint8_t *output,
                                         const struct kvs3105_window *window)];
    the output array lives at offset [output] of [mem]. *)
Definition kvs3105_window_serialise (mem : list Z) (output : nat) (w : window)
  : list Z * Z :=
  window_serialise host mem output w.

(** [int kvs3105_reset_windows(usb_handle usbhandle, uint8_t *requestsense)] *)
Definition kvs3105_reset_windows (b : bus) (requestsense : list Z)
  : Z * list Z * bus :=
  let command := [0x24; 0; 0; 0; 0; 0; 0; 0; 0; 0] in
  let '(r, _, requestsense, b) :=
    send_command b SG_DXFER_TO_DEV command 10 None 0 requestsense 0 in
  (r, requestsense, b).

(** The SET WINDOW command block of [kvs3105_set_windows]. *)
Definition set_windows_command (transfer_length : Z) : list Z :=
  [0x24; 0; 0; 0; 0; 0; u8 (Z.shiftr transfer_length 16);
   u8 (Z.shiftr transfer_length 8); u8 transfer_length; 0].

(** [int kvs3105_set_windows(usb_handle usbhandle,
        const struct kvs3105_window *window, char duplex,
        uint8_t *requestsense)] *)
Definition kvs3105_set_windows (b : bus) (w : window) (duplex : Z)
    (requestsense : list Z) : outcome (Z * list Z * bus) :=
  let windowbytes := memset (alloca (6 + 2 + WINDOW_SIZE)) 0 0
                            (Z.to_nat (6 + 2 + WINDOW_SIZE)) in
  let '(windowbytes, bytes_written) := kvs3105_window_serialise windowbytes 8 w in
  if negb (bytes_written =? WINDOW_SIZE) then Aborted
  else
    let length := htons host WINDOW_SIZE in
    let windowbytes := memcpy windowbytes 6 (bytes_of_u16 host length) 2 in
    let transfer_length := 6 + 2 + WINDOW_SIZE in
    let command := set_windows_command transfer_length in
    let '(r, _, requestsense, b) :=
      send_command b SG_DXFER_TO_DEV command 10 (Some windowbytes)
                   transfer_length requestsense 0 in
    if negb (r =? 0) then Returned (r, requestsense, b)
    else if negb (duplex =? 0) then
      let windowbytes := wr windowbytes 8 0x80 in
      let '(r, _, requestsense, b) :=
        send_command b SG_DXFER_TO_DEV command 10 (Some windowbytes)
                     transfer_length requestsense 0 in
      Returned (r, requestsense, b)
    else Returned (0, requestsense, b).

(** [int kvs3105_scan(usb_handle usbhandle, uint8_t *requestsense)] *)
Definition kvs3105_scan (b : bus) (requestsense : list Z) : Z * list Z * bus :=
  let command := [0x1b; 0; 0; 0; 0; 0] in
  let '(r, _, requestsense, b) :=
    send_command b SG_DXFER_TO_DEV command 6 None 0 requestsense 0 in
  (r, requestsense, b).

(** [static int get_data_buffer_status(usb_handle usbhandle,
        uint8_t *window_id, uint32_t *length, uint8_t *requestsense)];
    [*window_id] and [*length] are written on success only. *)
Definition get_data_buffer_status (b : bus) (requestsense : list Z)
  : Z * option (Z * Z) * list Z * bus :=
  let buffer := alloca 12 in
  let command := [0x34; 0; 0; 0; 0; 0; 0; 0; 12; 0] in
  let '(r, buffer, requestsense, b) :=
    send_command b SG_DXFER_FROM_DEV command 10 (Some buffer) 12 requestsense 0 in
  if negb (r =? 0) then (r, None, requestsense, b)
  else
    let buffer := default [] buffer in
    let window_id := rd buffer 4 in
    let length_be :=
      Z.lor (Z.lor (u32 (Z.shiftl (u32 (rd buffer 9)) 16))
                   (u32 (Z.shiftl (u32 (rd buffer 10)) 8)))
            (u32 (rd buffer 11)) in
    (0, Some (window_id, length_be), requestsense, b).

(** [int kvs3105_read(usb_handle usbhandle, uint8_t type, uint8_t q1,
        uint8_t q2, uint8_t *buffer, uint32_t length, uint8_t *requestsense)] *)
Definition kvs3105_read (b : bus) (type q1 q2 : Z) (buffer : list Z) (length : Z)
    (requestsense : list Z) : Z * list Z * list Z * bus :=
  let command := [0x28; 0; u8 type; 0; u8 q1; u8 q2; u8 (Z.shiftr length 16);
                  u8 (Z.shiftr length 8); u8 length; 0] in
  let '(r, buffer', requestsense, b) :=
    send_command b SG_DXFER_FROM_DEV command 10 (Some buffer) length requestsense 0 in
  (r, default buffer buffer', requestsense, b).

Definition KVS3105_READ_IMAGE : Z := 0.
Definition KVS3105_READ_PICTURE_ELEMENT_SIZE : Z := 0x80.
Definition KVS3105_READ_SUPPORT : Z := 0x93.

(** [int kvs3105_picture_size(usb_handle usbhandle, uint8_t page,
        uint8_t back, uint32_t *width, uint32_t *height,
        uint8_t *requestsense)] *)
Definition kvs3105_picture_size (b : bus) (page back : Z) (requestsense : list Z)
  : Z * option (Z * Z) * list Z * bus :=
  let page := u8 page in
  let back := u8 back in
  let buffer := memset (alloca 16) 0 0 16 in
  let '(r, buffer, requestsense, b) :=
    kvs3105_read b KVS3105_READ_PICTURE_ELEMENT_SIZE page
                 (if back =? 0 then 0 else 0x80) buffer 16 requestsense in
  if negb (r =? 0) then (r, None, requestsense, b)
  else
    let width := ntohl host (load_u32 host buffer 0) in
    let height := ntohl host (load_u32 host buffer 4) in
    (0, Some (width, height), requestsense, b).

(** [int kvs3105_data_buffer_wait(usb_handle usbhandle,
                                  uint8_t *requestsense)]:
    the loop [for (;;)] polls until an error or a non-zero length; [fuel]
    bounds the polls the model follows and [None] says the call is still
    polling when they are used up. *)
Fixpoint kvs3105_data_buffer_wait (fuel : nat) (b : bus) (requestsense : list Z)
  : option (Z * list Z * bus) :=
  match fuel with
  | O => None
  | S fuel =>
      let '(return_code, out, requestsense, b) :=
        get_data_buffer_status b requestsense in
      if negb (return_code =? 0) then Some (return_code, requestsense, b)
      else
        let length := default 0 (snd <$> out) in
        if negb (length =? 0) then Some (0, requestsense, b)
        else kvs3105_data_buffer_wait fuel (usleep b 50000) requestsense
  end.

(** [int kvs3105_read_data(usb_handle usbhandle, uint8_t page, uint8_t back,
        uint8_t *buffer, unsigned blen, unsigned *result,
        char *end_of_page, uint8_t *requestsense)];
    [*result] and [*end_of_page] are written when 0 is returned. *)
Definition kvs3105_read_data (b : bus) (page back : Z) (buffer : list Z) (blen : Z)
    (requestsense : list Z) : Z * option (Z * Z) * list Z * list Z * bus :=
  let page := u8 page in
  let back := u8 back in
  let length := if kMaxBuffer <? blen then kMaxBuffer else blen in
  let '(r, buffer, requestsense, b) :=
    kvs3105_read b KVS3105_READ_IMAGE page (if back =? 0 then 0 else 0x80)
                 buffer length requestsense in
  if negb (r =? 0) then
    let current_error := if rd requestsense 0 =? 0xf0 then 1 else 0 in
    let end_of_medium := Z.land (Z.shiftr (rd requestsense 2) 6) 1 in
    let incorrect_length_indicator := Z.land (Z.shiftr (rd requestsense 2) 5) 1 in
    if negb (current_error =? 0) && negb (incorrect_length_indicator =? 0) then
      let delta := ntohl host (load_u32 host requestsense 3) in
      (0, Some (u32 (length - delta), end_of_medium), buffer, requestsense, b)
    else (1, None, buffer, requestsense, b)
  else (0, Some (length, 0), buffer, requestsense, b).

(** *** The scanning loops of [main], kv-s3105c/kvscanner.c

    The calls the loops make are recorded as they are written at the call
    site; file output ([open], [write], [close] and the byte count [done],
    which is only printed) is left out. *)
Inductive call : Type :=
  | PictureSize (page side : Z)
  | DataBufferWait
  | ReadData (page side : Z).

(** The inner [for (;;)] of [main]: reads until [end_of_page].  Answers 0
    when the loop is left by [break] and 2 when [main] returns 2; [reads]
    collects [(written, end_of_page)] of every successful read. *)
Fixpoint main_drain (fuel : nat) (b : bus) (page side : Z)
    (buffer requestsense : list Z) (log : list call) (reads : list (Z * Z))
  : option (Z * list Z * list Z * list call * list (Z * Z) * bus) :=
  match fuel with
  | O => None
  | S fuel =>
      let '(r, out, buffer, requestsense, b) :=
        kvs3105_read_data b page side buffer KVS3105_BUFFER_SIZE requestsense in
      let log := log ++ [ReadData page side] in
      if negb (r =? 0) then Some (2, buffer, requestsense, log, reads, b)
      else
        let '(written, end_of_page) := default (0, 0) out in
        let reads := reads ++ [(written, end_of_page)] in
        if negb (end_of_page =? 0) then Some (0, buffer, requestsense, log, reads, b)
        else main_drain fuel b page side buffer requestsense log reads
  end.

(** The loop [for (unsigned page = 0; page < block_size;)] of [main], from
    the state [(page, side)].  Answers 0 when the block is finished and 2
    when [main] returns 2. *)
Fixpoint main_block (fuel : nat) (b : bus) (block_size duplex : Z) (page side : Z)
    (requestsense : list Z) (log : list call)
  : option (Z * list Z * list call * bus) :=
  match fuel with
  | O => None
  | S fuel =>
      if negb (page <? block_size) then Some (0, requestsense, log, b)
      else
        let '(r, _, requestsense, b) :=
          kvs3105_picture_size b page side requestsense in
        let log := log ++ [PictureSize page side] in
        if negb (r =? 0) then Some (2, requestsense, log, b)
        else
          match kvs3105_data_buffer_wait fuel b requestsense with
          | None => None
          | Some (waitstatus, requestsense, b) =>
              let log := log ++ [DataBufferWait] in
              if negb (waitstatus =? 0) then Some (2, requestsense, log, b)
              else
                let buffer := alloca KVS3105_BUFFER_SIZE in
                match main_drain fuel b page side buffer requestsense log [] with
                | None => None
                | Some (r, _, requestsense, log, _, b) =>
                    if negb (r =? 0) then Some (2, requestsense, log, b)
                    else if negb (duplex =? 0) then
                      if negb (side =? 0)
                      then main_block fuel b block_size duplex (u32 (page + 1)) 0
                                      requestsense log
                      else main_block fuel b block_size duplex page 1
                                      requestsense log
                    else main_block fuel b block_size duplex (u32 (page + 1)) side
                                    requestsense log
                end
          end
  end.

(** [int kvs3105_unit_not_ready(usb_handle usbhandle)] *)
Definition kvs3105_unit_not_ready (b : bus) : Z * bus :=
  let requestsense := alloca KVS3105_REQUEST_SENSE_SIZE in
  let command := [0; 0; 0; 0; 0; 0] in
  let '(retval, _, _, b) :=
    send_command b SG_DXFER_FROM_DEV command 6 None 0 requestsense 0 in
  (retval, b).

(** [int kvs3105_detect(usb_handle usbhandle)]; "KV-" is the bytes
    0x4b 0x56 0x2d. *)
Definition kvs3105_detect (b : bus) : Z * bus :=
  let requestsense := alloca KVS3105_REQUEST_SENSE_SIZE in
  let inquirydata := memset (alloca 96) 0 0 96 in
  let command := [0x12; 0; 0; 0; 0x60; 0] in
  let '(r, inquirydata, _, b) :=
    send_command b SG_DXFER_FROM_DEV command 6 (Some inquirydata) 96 requestsense 0 in
  if negb (r =? 0) then (r, b)
  else (memcmp (drop 16 (default [] inquirydata)) [0x4b; 0x56; 0x2d] 3, b).

(** [int kvs3105_stop(usb_handle usbhandle, uint8_t *requestsense)] *)
Definition kvs3105_stop (b : bus) (requestsense : list Z) : Z * list Z * bus :=
  let command := [0xe1; 0; 0x8b; 0; 0; 0; 0; 0; 0; 0] in
  let '(r, _, requestsense, b) :=
    send_command b SG_DXFER_TO_DEV command 10 None 0 requestsense 0 in
  (r, requestsense, b).

(** *** The scanning session of [main], kv-s3105c/kvscanner.c *)

(** The block size and the pages asked of the scanner,
    [if (block_size > 254) { ... } else { ... }] of [main]; [block_size] and
    [num_pages] are [unsigned]. *)
Definition main_pages (block_size num_pages : Z) (w : window) : Z * window :=
  if block_size >? 254 then
    let block_size := num_pages in
    if num_pages >? 254
    then (block_size, set_number_of_pages_to_scan 0xff w)
    else (block_size, set_number_of_pages_to_scan (u8 num_pages) w)
  else (block_size, set_number_of_pages_to_scan (u8 block_size) w).

(** The loop [for (unsigned pageno = first_page_number;
    pageno < first_page_number + num_pages;)] of [main], from the state
    [pageno].  Answers 0 when the loop is left and [main] runs off its end,
    and 2 when [main] returns 2; [blocks] collects, for every block that
    was started, [pageno] and the calls of its block loop. *)
Fixpoint main_session (fuel : nat) (b : bus) (w : window)
    (block_size duplex first_page_number num_pages : Z) (pageno : Z)
    (requestsense : list Z) (blocks : list (Z * list call))
  : option (outcome (Z * list (Z * list call) * bus)) :=
  match fuel with
  | O => None
  | S fuel =>
      if negb (pageno <? u32 (first_page_number + num_pages))
      then Some (Returned (0, blocks, b))
      else
        let '(r, requestsense, b) := kvs3105_reset_windows b requestsense in
        if negb (r =? 0) then Some (Returned (2, blocks, b))
        else
          match kvs3105_set_windows b w duplex requestsense with
          | Aborted => Some Aborted
          | Returned (r, requestsense, b) =>
              if negb (r =? 0) then Some (Returned (2, blocks, b))
              else
                let '(r, requestsense, b) := kvs3105_scan b requestsense in
                if negb (r =? 0) then Some (Returned (2, blocks, b))
                else
                  match main_block fuel b block_size duplex 0 0 requestsense [] with
                  | None => None
                  | Some (r, requestsense, log, b) =>
                      let blocks := blocks ++ [(pageno, log)] in
                      if negb (r =? 0) then Some (Returned (2, blocks, b))
                      else main_session fuel b w block_size duplex
                                        first_page_number num_pages
                                        (u32 (pageno + block_size)) requestsense blocks
                  end
          end
  end.

(** [main] from [struct kvs3105_window window;] on, with the window [w] as
    it is after the assignments of geometry, compression and resolution;
    [num_pages] and [block_size] are [unsigned], [first_page_number] is an
    [int]. *)
Definition main_scan (fuel : nat) (b : bus) (w : window)
    (num_pages block_size duplex first_page_number : Z)
  : option (outcome (Z * list (Z * list call) * bus)) :=
  let '(block_size, w) := main_pages block_size num_pages w in
  let requestsense := alloca KVS3105_REQUEST_SENSE_SIZE in
  main_session fuel b w block_size duplex first_page_number num_pages
               (u32 first_page_number) requestsense [].

End Driver.

(** [uint16_t scsi_usb_error_code(const uint8_t *requestsense)] *)
Definition scsi_usb_error_code (requestsense : list Z) : Z :=
  u16 (Z.lor (Z.shiftl (rd requestsense 12) 8) (rd requestsense 13)).

(** [const char *kvs3105_strerror(uint8_t *requestsense)]: the message
    for the sense key (low nibble of byte 2) and the error code, [None]
    for the null pointer. *)
Definition kvs3105_strerror (requestsense : list Z) : option string :=
  let error := scsi_usb_error_code requestsense in
  let sense := Z.land (rd requestsense 2) 0x0f in
  match (if sense =? 0 then
           match error with
           | 0x0000 => Some "Sense code 0 returned"%string
           | _ => None
           end
         else None) with
  | Some msg => Some msg
  | None =>
  match (if sense =? 2 then
           match error with
           | 0x0000 => Some "Not ready"%string
           | 0x0401 => Some "Logical unit is in process of becoming ready"%string
           | 0x0480 => Some "Document lead door open"%string
           | 0x0481 => Some "Document discharge door open"%string
           | 0x0482 => Some "Post imprinter door open"%string
           | 0x8001 => Some "Scanner stopped"%string
           | 0x8002 => Some "ADF stopped"%string
           | _ => None
           end
         else None) with
  | Some msg => Some msg
  | None =>
  match (if sense =? 3 then
           match error with
           | 0x3a00 => Some "Out of paper"%string
           | 0x8001 => Some "Jammed at document lead"%string
           | 0x8002 => Some "Jammed at document discharge 1"%string
           | 0x8003 => Some "Jammed at document discharge 2"%string
           | 0x8004 => Some "Document internal rest"%string
           | 0x8006 => Some "Jammed at document feed 1"%string
           | 0x8007 => Some "Jammed at document feed 2"%string
           | 0x8008 => Some "Jammed at document feed 3"%string
           | 0x8009 => Some "Jammed at document feed 4"%string
           | 0x800a => Some "Skew error"%string
           | 0x800b => Some "Minimum media error"%string
           | 0x800c => Some "Media length error"%string
           | 0x800d => Some "Double feed error"%string
           | 0x800e => Some "Barcode error"%string
           | _ => None
           end
         else None) with
  | Some msg => Some msg
  | None =>
  match (if sense =? 4 then
           match error with
           | 0x0880 => Some "Internal parameter error"%string
           | 0x0881 => Some "Internal DMA error"%string
           | 0x0882 => Some "Internal command error"%string
           | 0x8083 => Some "Internal communication error"%string
           | 0x4480 => Some "Internal RAM error"%string
           | 0x4481 => Some "Internal EEPROM error"%string
           | 0x4482 => Some "FPGA error"%string
           | 0x4700 => Some "SCSI parity error"%string
           | 0x8001 => Some "Lamp failure with regular temperature"%string
           | 0x8002 => Some "Document size detect error"%string
           | 0x8004 => Some "Document hopper error"%string
           | 0x8005 => Some "Document sensor adjust error"%string
           | _ => None
           end
         else None) with
  | Some msg => Some msg
  | None =>
  match (if sense =? 5 then
           match error with
           | 0x1a00 => Some "Parameter list length error"%string
           | 0x2000 => Some "Invalid command op code"%string
           | 0x2400 => Some "Invalid field in CDB"%string
           | 0x2500 => Some "Logical unit not supported"%string
           | 0x2600 => Some "Invalid field in parameter list"%string
           | 0x2c01 => Some "Too many windows"%string
           | 0x2c02 => Some "Invalid window combination"%string
           | 0x2c80 => Some "Out of memory"%string
           | 0x2c81 => Some "No back scanning unit"%string
           | 0x2c82 => Some "No imprinter unit"%string
           | 0x2c83 => Some "Pointer position error"%string
           | 0x2c84 => Some "Out of scanning page limit"%string
           | 0x2c85 => Some "Out of scanning length limit"%string
           | 0x2c86 => Some "Out of scanning resolution limit"%string
           | 0x2c87 => Some "Out of scanning line cycle limit"%string
           | 0x3d00 => Some "Invalid bits in identity message"%string
           | _ => None
           end
         else None) with
  | Some msg => Some msg
  | None =>
  match (if sense =? 6 then
           match error with
           | 0x2900 => Some "Unit attention"%string
           | 0x1b00 => Some "Sync data transfer error"%string
           | 0x4300 => Some "Message error"%string
           | 0x4900 => Some "Invalid message error"%string
           | 0x8001 => Some "Image data transfer error"%string
           | _ => None
           end
         else None) with
  | Some msg => Some msg
  | None =>
  None
  end end end end end end.

End KVS3105.

(** ** The SCSI-generic driver, kv-ss905c/kvss905c.c *)

Module KVSS905C.

Definition REQUEST_SENSE_SIZE : Z := 20.
Definition SG_FLAG_MMAP_IO : Z := 4.
Definition KVSS905C_REQUEST_SENSE_SIZE : Z := 20.
Definition KVSS905C_BUFFER_SIZE : Z := 0x10000.

Definition kMaxBuffer : Z := 0x10000.

(** The fields of [sg_io_hdr_t] (<scsi/sg.h>) the driver sets; [dxferp]
    carries the bytes the data pointer points to ([None]: null pointer). *)
Record sg_io_hdr : Type := SgIoHdr {
  interface_id : Z;
  dxfer_direction : Z;
  cmd_len : Z;
  mx_sb_len : Z;
  dxfer_len : Z;
  dxferp : option (list Z);
  cmdp : list Z;
  timeout : Z;
  flags : Z
}.

(** What one [ioctl(fd, SG_IO, &hdr)] answers: its return value, the
    [masked_status] it leaves in the header, and the bytes the kernel
    stores through [hdr.sbp] and [hdr.dxferp]. *)
Record sg_reply : Type := SgReply {
  io_ret : Z;
  io_masked_status : Z;
  io_sense : list Z;
  io_data : list Z
}.

(** What the driver calls and does not define: the kernel's SCSI-generic
    ioctl and the C runtime ([sleep] in seconds, [usleep] in
    microseconds). *)
Class SgIo (sg : Type) : Type := {
  host : endianness;
  ioctl : sg -> sg_io_hdr -> sg_reply * sg;
  sleep : sg -> Z -> sg;
  usleep : sg -> Z -> sg;
  indeterminate : nat -> list Z
}.

(** [static int scsi_transient_error(void *irequestsense)] *)
Definition scsi_transient_error (requestsense : list Z) : Z :=
  let asc := rd requestsense 12 in
  if (asc =? 0x28) || (asc =? 0x29) || (asc =? 0x04) then 1 else 0.

(** [u16 scsi_error_code(const u8 *requestsense)] *)
Definition scsi_error_code (requestsense : list Z) : Z :=
  u16 (Z.lor (Z.shiftl (rd requestsense 12) 8) (rd requestsense 13)).

Section Driver.
Context {sg : Type} `{SgIo sg}.

Definition alloca (n : Z) : list Z := resize (Z.to_nat n) 0 (indeterminate (Z.to_nat n)).

(** [ioctl(fd, SG_IO, &hdr)]: the kernel stores at most [mx_sb_len] sense
    bytes and, for a transfer from the device, at most [dxfer_len] data
    bytes.  Answers the return value, [hdr.masked_status] and the two
    buffers. *)
Definition ioctl_SG_IO (g : sg) (hdr : sg_io_hdr) (requestsense : list Z)
  : Z * Z * option (list Z) * list Z * sg :=
  let '(reply, g) := ioctl g hdr in
  let sense := take (Z.to_nat (mx_sb_len hdr)) (u8 <$> io_sense reply) in
  let received := take (Z.to_nat (dxfer_len hdr)) (u8 <$> io_data reply) in
  let data_ :=
    if dxfer_direction hdr =? SG_DXFER_FROM_DEV
    then (fun d => memcpy d 0 received (length received)) <$> dxferp hdr
    else dxferp hdr in
  (io_ret reply, u8 (io_masked_status reply), data_,
   memcpy requestsense 0 sense (length sense), g).

(** The loop [for (int retries = 0; retries < 5; ++retries)] of
    [scsi_command] with [todo] iterations to go. *)
Fixpoint scsi_command_loop (todo : nat) (g : sg) (direction : Z) (command : list Z)
    (command_length : Z) (data_ : option (list Z)) (data_length : Z)
    (requestsense : list Z) (timeout_ : Z)
  : Z * option (list Z) * list Z * sg :=
  match todo with
  | O => (2, data_, requestsense, g)
  | S todo =>
      let timeout_ := if timeout_ =? 0 then 30000 else timeout_ in
      let hdr :=
        {| interface_id := 83;
           dxfer_direction := direction;
           cmd_len := u8 command_length;
           mx_sb_len := REQUEST_SENSE_SIZE;
           dxfer_len := data_length;
           dxferp := data_;
           cmdp := command;
           timeout := timeout_;
           flags := if data_ is None then SG_FLAG_MMAP_IO else 0 |} in
      let '(ret, masked_status, data_, requestsense, g) :=
        ioctl_SG_IO g hdr requestsense in
      if negb (ret =? 0) then (1, data_, requestsense, g)
      else if negb (masked_status =? 0) then
        if negb (scsi_transient_error requestsense =? 0)
        then scsi_command_loop todo (sleep g 3) direction command command_length
                               data_ data_length requestsense timeout_
        else (2, data_, requestsense, g)
      else (0, data_, requestsense, g)
  end.

(** [static int scsi_command(int fd, int direction, const void *command,
        unsigned command_length, void *data, unsigned data_length,
        void *requestsense, int timeout)]
    Returns 0 on success, 1 in the case of an ioctl error, 2 in the case
    of a SCSI error. *)
Definition scsi_command (g : sg) (direction : Z) (command : list Z)
    (command_length : Z) (data_ : option (list Z)) (data_length : Z)
    (requestsense : list Z) (timeout_ : Z)
  : Z * option (list Z) * list Z * sg :=
  scsi_command_loop 5 g direction command command_length data_ data_length
                    requestsense timeout_.

(** [static int kvss905c_window_serialise(u8 *output,
        const struct kvss905c_window *window)] *)
Definition kvss905c_window_serialise (mem : list Z) (output : nat) (w : window)
  : list Z * Z :=
  window_serialise host mem output w.

Definition set_windows_command (transfer_length : Z) : list Z :=
  [0x24; 0; 0; 0; 0; 0; u8 (Z.shiftr transfer_length 16);
   u8 (Z.shiftr transfer_length 8); u8 transfer_length; 0].

(** [int kvss905c_set_windows(int fd, const struct kvss905c_window *window,
        char duplex, u8 *requestsense)] *)
Definition kvss905c_set_windows (g : sg) (w : window) (duplex : Z)
    (requestsense : list Z) : outcome (Z * list Z * sg) :=
  let windowbytes := memset (alloca (6 + 2 + WINDOW_SIZE)) 0 0
                            (Z.to_nat (6 + 2 + WINDOW_SIZE)) in
  let '(windowbytes, bytes_written) := kvss905c_window_serialise windowbytes 8 w in
  if negb (bytes_written =? WINDOW_SIZE) then Aborted
  else
    let length := htons host WINDOW_SIZE in
    let windowbytes := memcpy windowbytes 6 (bytes_of_u16 host length) 2 in
    let transfer_length := 6 + 2 + WINDOW_SIZE in
    let command := set_windows_command transfer_length in
    let '(r, _, requestsense, g) :=
      scsi_command g SG_DXFER_TO_DEV command 10 (Some windowbytes)
                   transfer_length requestsense 0 in
    if negb (r =? 0) then Returned (r, requestsense, g)
    else if negb (duplex =? 0) then
      let windowbytes := wr windowbytes 8 0x80 in
      let '(r, _, requestsense, g) :=
        scsi_command g SG_DXFER_TO_DEV command 10 (Some windowbytes)
                     transfer_length requestsense 0 in
      Returned (r, requestsense, g)
    else Returned (0, requestsense, g).

(** [int get_data_buffer_status(int fd, u8 *window_id, u32 *length,
                                u8 *requestsense)] *)
Definition get_data_buffer_status (g : sg) (requestsense : list Z)
  : Z * option (Z * Z) * list Z * sg :=
  let buffer := alloca 12 in
  let command := [0x34; 0; 0; 0; 0; 0; 0; 0; 12; 0] in
  let '(r, buffer, requestsense, g) :=
    scsi_command g SG_DXFER_FROM_DEV command 10 (Some buffer) 12 requestsense 0 in
  if negb (r =? 0) then (r, None, requestsense, g)
  else
    let buffer := default [] buffer in
    let window_id := rd buffer 4 in
    let length_be :=
      Z.lor (Z.lor (u32 (Z.shiftl (u32 (rd buffer 9)) 16))
                   (u32 (Z.shiftl (u32 (rd buffer 10)) 8)))
            (u32 (rd buffer 11)) in
    (0, Some (window_id, ntohl host length_be), requestsense, g).

(** [int kvss905c_read(int fd, u8 type, u8 q1, u8 q2, u8 *buffer,
                       u32 length, u8 *requestsense)] *)
Definition kvss905c_read (g : sg) (type q1 q2 : Z) (buffer : list Z) (length : Z)
    (requestsense : list Z) : Z * list Z * list Z * sg :=
  let command := [0x28; 0; u8 type; 0; u8 q1; u8 q2; u8 (Z.shiftr length 16);
                  u8 (Z.shiftr length 8); u8 length; 0] in
  let '(r, buffer', requestsense, g) :=
    scsi_command g SG_DXFER_FROM_DEV command 10 (Some buffer) length requestsense 0 in
  (r, default buffer buffer', requestsense, g).

Definition KVSS905C_READ_IMAGE : Z := 0.
Definition KVSS905C_READ_PICTURE_ELEMENT_SIZE : Z := 0x80.
Definition KVSS905C_READ_SUPPORT : Z := 0x93.

(** [int kvss905c_picture_size(int fd, u8 page, u8 back, u32 *width,
                               u32 *height, u8 *requestsense)] *)
Definition kvss905c_picture_size (g : sg) (page back : Z) (requestsense : list Z)
  : Z * option (Z * Z) * list Z * sg :=
  let page := u8 page in
  let back := u8 back in
  let buffer := memset (alloca 16) 0 0 16 in
  let '(r, buffer, requestsense, g) :=
    kvss905c_read g KVSS905C_READ_PICTURE_ELEMENT_SIZE page
                  (if back =? 0 then 0 else 0x80) buffer 16 requestsense in
  if negb (r =? 0) then (r, None, requestsense, g)
  else
    let width_be := load_u32 host buffer 0 in
    let height_be := load_u32 host buffer 4 in
    (0, Some (ntohl host width_be, ntohl host height_be), requestsense, g).

(** [int kvss905c_data_buffer_wait(int fd, u8 *requestsense)]; [fuel]
    bounds the polls the model follows, [None] says the call is still
    polling when they are used up. *)
Fixpoint kvss905c_data_buffer_wait (fuel : nat) (g : sg) (requestsense : list Z)
  : option (Z * list Z * sg) :=
  match fuel with
  | O => None
  | S fuel =>
      let '(r, out, requestsense, g) := get_data_buffer_status g requestsense in
      if negb (r =? 0) then Some (1, requestsense, g)
      else
        let length := default 0 (snd <$> out) in
        if negb (length =? 0) then Some (0, requestsense, g)
        else kvss905c_data_buffer_wait fuel (usleep g 5000) requestsense
  end.

(** [int kvss905c_read_data(int fd, u8 page, u8 back, u8 *buffer,
        unsigned blen, unsigned *result, char *eof, u8 *requestsense)] *)
Definition kvss905c_read_data (g : sg) (page back : Z) (buffer : list Z) (blen : Z)
    (requestsense : list Z) : Z * option (Z * Z) * list Z * list Z * sg :=
  let page := u8 page in
  let back := u8 back in
  let length := if kMaxBuffer <? blen then kMaxBuffer else blen in
  let '(r, buffer, requestsense, g) :=
    kvss905c_read g KVSS905C_READ_IMAGE page (if back =? 0 then 0 else 0x80)
                  buffer length requestsense in
  if negb (r =? 0) then
    if (rd requestsense 0 =? 0xf0) && (rd requestsense 2 =? 0x60) then
      (* End of Medium and ILI *)
      let delta := ntohl host (load_u32 host requestsense 3) in
      (0, Some (u32 (length - delta), 1), buffer, requestsense, g)
    else (1, None, buffer, requestsense, g)
  else (0, Some (length, 0), buffer, requestsense, g).

(** *** The scanning loops of [main], kv-ss905c/kvscanner.c

    As for the USB driver, the calls are recorded as written at the call
    site and file output is left out. *)
Inductive call : Type :=
  | PictureSize (page side : Z)
  | DataBufferWait
  | ReadData (page side : Z).

(** The inner [for (;;)] of [main]: reads until [eof]. *)
Fixpoint main_drain (fuel : nat) (g : sg) (page side : Z)
    (buffer requestsense : list Z) (log : list call) (reads : list (Z * Z))
  : option (Z * list Z * list Z * list call * list (Z * Z) * sg) :=
  match fuel with
  | O => None
  | S fuel =>
      let '(r, out, buffer, requestsense, g) :=
        kvss905c_read_data g page side buffer KVSS905C_BUFFER_SIZE requestsense in
      let log := log ++ [ReadData page side] in
      if negb (r =? 0) then Some (2, buffer, requestsense, log, reads, g)
      else
        let '(written, eof) := default (0, 0) out in
        let reads := reads ++ [(written, eof)] in
        if negb (eof =? 0) then Some (0, buffer, requestsense, log, reads, g)
        else main_drain fuel g page side buffer requestsense log reads
  end.

(** The loop [for (unsigned page = 0; page < block_size;)] of [main]. *)
Fixpoint main_block (fuel : nat) (g : sg) (block_size duplex : Z) (page side : Z)
    (requestsense : list Z) (log : list call)
  : option (Z * list Z * list call * sg) :=
  match fuel with
  | O => None
  | S fuel =>
      if negb (page <? block_size) then Some (0, requestsense, log, g)
      else
        let '(r, _, requestsense, g) :=
          kvss905c_picture_size g page side requestsense in
        let log := log ++ [PictureSize page side] in
        if negb (r =? 0) then Some (2, requestsense, log, g)
        else
          match kvss905c_data_buffer_wait fuel g requestsense with
          | None => None
          | Some (waitstatus, requestsense, g) =>
              let log := log ++ [DataBufferWait] in
              if negb (waitstatus =? 0) then Some (2, requestsense, log, g)
              else
                let buffer := alloca KVSS905C_BUFFER_SIZE in
                match main_drain fuel g page side buffer requestsense log [] with
                | None => None
                | Some (r, _, requestsense, log, _, g) =>
                    if negb (r =? 0) then Some (2, requestsense, log, g)
                    else if negb (duplex =? 0) then
                      if negb (side =? 0)
                      then main_block fuel g block_size duplex (u32 (page + 1)) 0
                                      requestsense log
                      else main_block fuel g block_size duplex page 1
                                      requestsense log
                    else main_block fuel g block_size duplex (u32 (page + 1)) side
                                    requestsense log
                end
          end
  end.

(** [int kvss905c_scan(int fd, u8 *requestsense)] *)
Definition kvss905c_scan (g : sg) (requestsense : list Z) : Z * list Z * sg :=
  let command := [0x1b; 0; 0; 0; 0; 0] in
  let '(r, _, requestsense, g) :=
    scsi_command g SG_DXFER_TO_DEV command 6 None 0 requestsense 0 in
  (r, requestsense, g).

(** [int test_unit_ready(int fd, u8 *requestsense)] *)
Definition test_unit_ready (g : sg) (requestsense : list Z) : Z * list Z * sg :=
  let command := [0; 0; 0; 0; 0; 0] in
  let '(r, _, requestsense, g) :=
    scsi_command g SG_DXFER_FROM_DEV command 6 None 0 requestsense 0 in
  (r, requestsense, g).

(** [int kvss905c_detect(int fd)]; "KV-" is the bytes 0x4b 0x56 0x2d. *)
Definition kvss905c_detect (g : sg) : Z * sg :=
  let requestsense := alloca REQUEST_SENSE_SIZE in
  let inquirydata := memset (alloca 96) 0 0 96 in
  let command := [0x12; 0; 0; 0; 0x60; 0] in
  let '(r, inquirydata, _, g) :=
    scsi_command g SG_DXFER_FROM_DEV command 6 (Some inquirydata) 96 requestsense 0 in
  if negb (r =? 0) then (r, g)
  else (memcmp (drop 16 (default [] inquirydata)) [0x4b; 0x56; 0x2d] 3, g).

(** [int kvss905c_stop(int fd, u8 *requestsense)] *)
Definition kvss905c_stop (g : sg) (requestsense : list Z) : Z * list Z * sg :=
  let command := [0xe1; 0; 0x8b; 0; 0; 0; 0; 0; 0; 0] in
  let '(r, _, requestsense, g) :=
    scsi_command g SG_DXFER_TO_DEV command 10 None 0 requestsense 0 in
  (r, requestsense, g).

(** *** The scanning session of [main], kv-ss905c/kvscanner.c *)

(** The block size and the pages asked of the scanner,
    [if (block_size > 254) { ... } else { ... }] of [main]; [block_size] and
    [num_pages] are [unsigned]. *)
Definition main_pages (block_size num_pages : Z) (w : window) : Z * window :=
  if block_size >? 254 then
    let block_size := num_pages in
    if num_pages >? 254
    then (block_size, set_number_of_pages_to_scan 0xff w)
    else (block_size, set_number_of_pages_to_scan (u8 num_pages) w)
  else (block_size, set_number_of_pages_to_scan (u8 block_size) w).

(** The loop [for (unsigned pageno = 0; pageno < num_pages;)] of [main],
    from the state [pageno].  Answers 0 when the loop is left and [main]
    runs off its end, and 2 when [main] returns 2; [blocks] collects, for
    every block that was started, [pageno] and the calls of its block
    loop. *)
Fixpoint main_session (fuel : nat) (g : sg) (w : window)
    (block_size duplex num_pages : Z) (pageno : Z)
    (requestsense : list Z) (blocks : list (Z * list call))
  : option (outcome (Z * list (Z * list call) * sg)) :=
  match fuel with
  | O => None
  | S fuel =>
      if negb (pageno <? num_pages) then Some (Returned (0, blocks, g))
      else
        match kvss905c_set_windows g w duplex requestsense with
        | Aborted => Some Aborted
        | Returned (r, requestsense, g) =>
            if negb (r =? 0) then Some (Returned (2, blocks, g))
            else
              let '(r, requestsense, g) := kvss905c_scan g requestsense in
              if negb (r =? 0) then Some (Returned (2, blocks, g))
              else
                match main_block fuel g block_size duplex 0 0 requestsense [] with
                | None => None
                | Some (r, requestsense, log, g) =>
                    let blocks := blocks ++ [(pageno, log)] in
                    if negb (r =? 0) then Some (Returned (2, blocks, g))
                    else main_session fuel g w block_size duplex num_pages
                                      (u32 (pageno + block_size)) requestsense blocks
                end
        end
  end.

(** [main] from [struct kvss905c_window window;] on, with the window [w]
    as it is after the assignments of the geometry. *)
Definition main_scan (fuel : nat) (g : sg) (w : window)
    (num_pages block_size duplex : Z)
  : option (outcome (Z * list (Z * list call) * sg)) :=
  let '(block_size, w) := main_pages block_size num_pages w in
  let requestsense := alloca KVSS905C_REQUEST_SENSE_SIZE in
  main_session fuel g w block_size duplex num_pages 0 requestsense [].

End Driver.

(** *** Finding the scanner, [kvss905c_open] *)

(** [O_RDWR] and [ENOENT] as <fcntl.h> and <errno.h> of Linux have
    them. *)
Definition O_RDWR : Z := 2.
Definition ENOENT : Z := 2.

(** What [kvss905c_open] calls and does not define: [open], [close] and
    [errno] of the C library, and the driver's ioctl on the descriptor it
    was given.  [sys_open] answers the descriptor, negative when the file
    was not opened. *)
Class DevNodes (world : Type) : Type := {
  sys_open : world -> string -> Z -> Z * world;
  sys_errno : world -> Z;
  sys_close : world -> Z -> world;
  on_fd : Z -> SgIo world
}.

(** [snprintf(devicename, sizeof(devicename) - 1, "/dev/sg%d", i)] for the
    [unsigned] [i], which [%d] prints as an [int]; the name is at most 18
    characters long and is never cut. *)
Definition devicename (i : Z) : string :=
  "/dev/sg" +:+ pretty (if i <? 2147483648 then i else i - 4294967296).

Section Open.
Context {world : Type} `{DevNodes world}.

(** The loop [for (unsigned i = 0; ; ++i)] of [kvss905c_open], from the
    state [i]; [fuel] bounds the device nodes the model tries and [None]
    says the search is still going on when they are used up. *)
Fixpoint kvss905c_open_from (fuel : nat) (w : world) (i : Z) : option (Z * world) :=
  match fuel with
  | O => None
  | S fuel =>
      let '(fd, w) := sys_open w (devicename i) O_RDWR in
      if fd <? 0 then
        if sys_errno w =? ENOENT then Some (-1, w)
        else kvss905c_open_from fuel w (u32 (i + 1))
      else
        let '(r, w) := @kvss905c_detect world (on_fd fd) w in
        if r =? 0 then Some (fd, w)
        else kvss905c_open_from fuel (sys_close w fd) (u32 (i + 1))
  end.

(** [int kvss905c_open()] *)
Definition kvss905c_open (fuel : nat) (w : world) : option (Z * world) :=
  kvss905c_open_from fuel w 0.

End Open.


(** [const char *kvss905c_strerror(u8 *requestsense)]: the message for
    the error code and, for five codes, the sense key (low nibble of
    byte 2); [None] for the null pointer. *)
Definition kvss905c_strerror (requestsense : list Z) : option string :=
  let error := scsi_error_code requestsense in
  let sense := Z.land (rd requestsense 2) 0x0f in
  match error with
  | 0x2400 => Some "Invalid field in CDB"%string
  | 0x3a00 => Some "Out of paper"%string
  | 0x0480 => Some "Document lead door open"%string
  | 0x0481 => Some "Document discharge door open"%string
  | 0x0482 => Some "Post imprinter door open"%string
  | 0x8001 =>
      if sense =? 2 then Some "Scanner stopped"%string
      else if sense =? 3 then Some "Jammed at document lead"%string
      else if sense =? 4 then Some "Lamp failure with regular temperature"%string
      else None
  | 0x8002 =>
      if sense =? 2 then Some "Document feeder stopped"%string
      else if sense =? 3 then Some "Jammed at document discharge 1"%string
      else if sense =? 4 then Some "Document size detect error"%string
      else None
  | 0x8003 => Some "Jammed at document discharge 2"%string
  | 0x8004 =>
      if sense =? 3 then Some "Document internal rest"%string
      else if sense =? 4 then Some "Document hopper error"%string
      else None
  | 0x8005 =>
      if sense =? 3 then Some "Jammed at document feed 1"%string
      else if sense =? 4 then Some "Document sensor adjust error"%string
      else None
  | 0x8006 => Some "Jammed at document feed 2"%string
  | 0x8007 => Some "Jammed at document feed 3"%string
  | 0x8008 => Some "Jammed at document feed 4"%string
  | 0x800a => Some "Skew error"%string
  | 0x800b => Some "Minimum media error"%string
  | 0x800c => Some "Media length error"%string
  | 0x800d => Some "Double feed error"%string
  | 0x800e => Some "Barcode error"%string
  | 0x0880 => Some "Internal parameter error"%string
  | 0x0881 => Some "Internal DMA error"%string
  | 0x0882 => Some "Internal command error"%string
  | 0x8083 => Some "Internal communication error"%string
  | 0x4480 => Some "Internal RAM error"%string
  | 0x4481 => Some "Internal EEPROM error"%string
  | 0x4482 => Some "FPGA error"%string
  | 0x4700 => Some "SCSI parity error"%string
  | 0x1a00 => Some "Parameter list length error"%string
  | 0x2000 => Some "Invalid command op code"%string
  | 0x2500 => Some "Logical unit not supported"%string
  | 0x2600 => Some "Invalid field in parameter list"%string
  | 0x2c01 => Some "Too many windows"%string
  | 0x2c02 => Some "Invalid window combination"%string
  | 0x2c80 => Some "Out of memory"%string
  | 0x2c81 => Some "No back scanning unit"%string
  | 0x2c82 => Some "No imprinter unit"%string
  | 0x2c83 => Some "Pointer position error"%string
  | 0x2c84 => Some "Out of scanning page limit"%string
  | 0x2c85 => Some "Out of scanning length limit"%string
  | 0x2c86 => Some "Out of scanning resolution limit"%string
  | 0x2c87 => Some "Out of scanning line cycle limit"%string
  | 0x3d00 => Some "Invalid bits in identity message"%string
  | 0x2900 => Some "Unit attention"%string
  | 0x1b00 => Some "Sync data transfer error"%string
  | 0x4300 => Some "Message error"%string
  | 0x4900 => Some "Invalid message error"%string
  | _ => None
  end.

End KVSS905C.

(** ** Environments

    The drivers are stated over any implementation of [KVS3105.Libusb] and
    [KVSS905C.SgIo].  The environments below are the ones the statements
    about a particular device behaviour are made on. *)

(** *** A scripted USB bus

    Every bulk transfer consumes the next scripted answer (return code and
    bytes delivered) and is recorded; a bus with no answer left fails the
    transfer with LIBUSB_ERROR_IO. *)
Module ScriptedUsb.
Import KVS3105.

Inductive event : Type :=
  | BulkOut (frame : list Z)
  | BulkIn (sz : Z)
  | Usleep (us : Z).

Record bus : Type := Bus {
  script : list (Z * list Z);
  trace : list event
}.

Definition bulk_transfer (b : bus) (endpoint : Z) (bytes : list Z) (len timeout : Z)
  : Z * list Z * bus :=
  let ev := if endpoint =? CMD_OUT then BulkOut bytes else BulkIn len in
  match script b with
  | [] => (-1, [], Bus [] (trace b ++ [ev]))
  | (ret, delivered) :: rest => (ret, delivered, Bus rest (trace b ++ [ev]))
  end.

#[export] Instance libusb (h : endianness) (ind : nat -> list Z) : Libusb bus := {|
  host := h;
  libusb_bulk_transfer := bulk_transfer;
  usleep b us := Bus (script b) (trace b ++ [Usleep us]);
  indeterminate := ind
|}.

End ScriptedUsb.

(** *** A scripted SCSI-generic device

    Every ioctl consumes the next scripted reply and is recorded with its
    command block; with no reply left the ioctl fails. *)
Module ScriptedSg.
Import KVSS905C.

Inductive event : Type :=
  | Ioctl (command : list Z) (data_out : option (list Z))
  | Sleep (seconds : Z)
  | Usleep (us : Z).

(** The bytes an ioctl hands to the device in its data phase. *)
Definition data_out_of (hdr : sg_io_hdr) : option (list Z) :=
  if dxfer_direction hdr =? SG_DXFER_TO_DEV
  then take (Z.to_nat (dxfer_len hdr)) <$> dxferp hdr
  else None.

Record dev : Type := Dev {
  script : list sg_reply;
  trace : list event
}.

Definition do_ioctl (g : dev) (hdr : sg_io_hdr) : sg_reply * dev :=
  match script g with
  | [] => (SgReply (-1) 0 [] [],
           Dev [] (trace g ++ [Ioctl (cmdp hdr) (data_out_of hdr)]))
  | reply :: rest =>
      (reply, Dev rest (trace g ++ [Ioctl (cmdp hdr) (data_out_of hdr)]))
  end.

#[export] Instance sgio (h : endianness) (ind : nat -> list Z) : SgIo dev := {|
  host := h;
  ioctl := do_ioctl;
  sleep g s := Dev (script g) (trace g ++ [Sleep s]);
  usleep g us := Dev (script g) (trace g ++ [Usleep us]);
  indeterminate := ind
|}.

End ScriptedSg.

(** *** The scanner as the specification describes it *)

(** Modelled from the spec: the scanner itself, which the drivers talk to
    and the repository does not contain.  The device holds the images of
    the sides still to be read, in the order they must be read.  A READ of
    image data of [len] bytes is answered with a full chunk and good
    status while more than [len] bytes of the side remain (a full chunk
    means more data remains); otherwise with what remains, check-condition
    status and sense data that set end-of-medium and incorrect-length and
    carry the residual [len - remaining]; that side is then done.
    GET DATA BUFFER STATUS reports the bytes waiting. *)
Module Scanner.

(** Sense data of a short read with residual [d]: current error 0xf0,
    byte 2 = end-of-medium | incorrect-length, bytes 3 to 6 the
    big-endian residual. *)
Definition eom_sense (d : Z) : list Z :=
  [0xf0; 0; 0x60; byte_n d 3; byte_n d 2; byte_n d 1; byte_n d 0;
   0; 0; 0; 0; 0; 0; 0; 0; 0; 0; 0].

(** Sense data after a READ with no side left: not ready, ASC/ASCQ 0x3a00. *)
Definition no_paper_sense : list Z :=
  [0xf0; 0; 0x02; 0; 0; 0; 0; 0; 0; 0; 0; 0; 0x3a; 0; 0; 0; 0; 0].

(** The 24-bit length at bytes 6 to 8 of a 10-byte command block. *)
Definition cdb_length (cdb : list Z) : Z :=
  rd cdb 6 * 65536 + rd cdb 7 * 256 + rd cdb 8.

Definition buffer_status (sides : list (list Z)) : list Z :=
  let n := Z.min (Z.of_nat (length (default [] (head sides)))) 0xffffff in
  [0; 0; 0; 0; 0; 0; 0; 0; 0; byte_n n 2; byte_n n 1; byte_n n 0].

(** Modelled from the spec: the reaction of the scanner to a command
    block; it answers the bytes of the data-in phase, if the command has
    one, the SCSI status (0 good, 2 check condition), the sides left and
    the sense data kept for REQUEST SENSE. *)
Definition react (sides : list (list Z)) (sense : list Z) (cdb : list Z)
  : option (list Z) * Z * list (list Z) * list Z :=
  let opcode := rd cdb 0 in
  if opcode =? 0x28 then
    if rd cdb 2 =? 0 then
      match sides with
      | [] => (Some [], 2, [], no_paper_sense)
      | img :: rest =>
          let len := cdb_length cdb in
          if len <? Z.of_nat (length img)
          then (Some (take (Z.to_nat len) img), 0, drop (Z.to_nat len) img :: rest, sense)
          else (Some img, 2, rest, eom_sense (len - Z.of_nat (length img)))
      end
    else (Some (replicate 16 0), 0, sides, sense)
  else if opcode =? 0x34 then (Some (buffer_status sides), 0, sides, sense)
  else if opcode =? 0x03 then (Some sense, 0, sides, sense)
  else (None, 0, sides, sense).

(** **** Behind USB bulk endpoints *)
Module Usb.
Import KVS3105.

Inductive phase : Type :=
  | Idle
  | DataIn (payload : list Z) (st : Z)
  | StatusIn (st : Z).

Record bus : Type := Bus {
  sides : list (list Z);
  sense : list Z;
  ph : phase;
  elapsed : Z
}.

(** The 12-byte header of a block the device sends. *)
Definition response_header (len : Z) : list Z :=
  [byte_n len 3; byte_n len 2; byte_n len 1; byte_n len 0;
   0; 3; 0xa0; 0; 0; 0; 0; 0].

Definition bulk_transfer (b : bus) (endpoint : Z) (bytes : list Z) (len timeout : Z)
  : Z * list Z * bus :=
  if endpoint =? CMD_OUT then
    match ph b with
    | Idle =>
        let '(payload, st, sides', sense') := react (sides b) (sense b) (drop 12 bytes) in
        (0, [], Bus sides' sense'
                    (match payload with Some p => DataIn p st | None => StatusIn st end)
                    (elapsed b))
    | _ => (0, [], b)
    end
  else
    match ph b with
    | DataIn payload st =>
        (0, response_header (12 + Z.of_nat (length payload)) ++ payload,
         Bus (sides b) (sense b) (StatusIn st) (elapsed b))
    | StatusIn st =>
        (0, response_header 16 ++ [byte_n st 3; byte_n st 2; byte_n st 1; byte_n st 0],
         Bus (sides b) (sense b) Idle (elapsed b))
    | Idle => (-7, [], b)
    end.

#[export] Instance libusb (h : endianness) (ind : nat -> list Z) : Libusb bus := {|
  host := h;
  libusb_bulk_transfer := bulk_transfer;
  usleep b us := Bus (sides b) (sense b) (ph b) (elapsed b + us);
  indeterminate := ind
|}.

End Usb.

(** **** Behind the SCSI-generic ioctl *)
Module Sg.
Import KVSS905C.

Record dev : Type := Dev {
  sides : list (list Z);
  elapsed : Z
}.

Definition do_ioctl (g : dev) (hdr : sg_io_hdr) : sg_reply * dev :=
  let '(payload, st, sides', sense') := react (sides g) [] (cmdp hdr) in
  (SgReply 0 (Z.shiftr st 1) (if st =? 0 then [] else sense') (default [] payload),
   Dev sides' (elapsed g)).

#[export] Instance sgio (h : endianness) (ind : nat -> list Z) : SgIo dev := {|
  host := h;
  ioctl := do_ioctl;
  sleep g s := Dev (sides g) (elapsed g + 1000000 * s);
  usleep g us := Dev (sides g) (elapsed g + us);
  indeterminate := ind
|}.

End Sg.
End Scanner.

(** ** Vocabulary of the statements *)

(** The two flag bytes of the window record as the device reference
    documents them; they sit at offsets 41 and 56 of the 64-byte record. *)
Definition documented_flags_41 (w : window) : Z :=
  Z.lor (Z.lor (Z.lor (Z.shiftl (flatbed w) 7) (Z.shiftl (stop_on_skew w) 4))
               (Z.shiftl (disable_buffering w) 3))
        (continue_on_double_feed w).

Definition documented_flags_56 (w : window) : Z :=
  Z.lor (Z.lor (Z.lor (Z.lor (Z.lor (Z.shiftl (ahead_disable w) 7)
                                    (Z.shiftl (deskew w) 5))
                             (Z.shiftl (double_feed_detector w) 4))
                      (Z.shiftl (full_size_scan w) 2))
               (Z.shiftl (feed_slow w) 1))
        (remove_shadow w).

(** A 64-byte record carries the two flag bytes of [w], stored as bytes,
    and zeros in its reserved gap (bytes 34 to 39). *)
Definition packs_flags (w : window) (record : list Z) : Prop :=
  length record = 64%nat /\
  nth 41 record 0 = u8 (documented_flags_41 w) /\
  nth 56 record 0 = u8 (documented_flags_56 w) /\
  take 6 (drop 34 record) = [0; 0; 0; 0; 0; 0].

(** The fields that are flags hold 0 or 1; [deskew] holds 0, 1 or 2. *)
Definition flag (x : Z) : Prop := x = 0 \/ x = 1.

Definition flag_fields (w : window) : Prop :=
  flag (flatbed w) /\ flag (stop_on_skew w) /\ flag (disable_buffering w) /\
  flag (continue_on_double_feed w) /\ flag (ahead_disable w) /\
  0 <= deskew w <= 2 /\ flag (double_feed_detector w) /\
  flag (full_size_scan w) /\ flag (feed_slow w) /\ flag (remove_shadow w).

(** A USB device that accepts [n] commands with a data-out phase: command
    block taken, data block taken, good status. *)
Definition usb_accepts (n : nat) : list (Z * list Z) :=
  mjoin (replicate n [(0, []); (0, []); (0, replicate 16 0)]).

(** The window records in the data blocks (block type 2, 12-byte bulk
    header, 8 bytes of parameter-list header) that went out on the bus. *)
Definition usb_window_records (t : list ScriptedUsb.event) : list (list Z) :=
  omap (fun ev =>
          match ev with
          | ScriptedUsb.BulkOut frame =>
              if (rd frame 4 =? 0) && (rd frame 5 =? 2) then Some (drop 20 frame) else None
          | _ => None
          end) t.

(** A SCSI-generic device that answers [n] commands with good status. *)
Definition sg_accepts (n : nat) : list KVSS905C.sg_reply :=
  replicate n (KVSS905C.SgReply 0 0 [] []).

(** The window records in the data the SET WINDOW ioctls sent. *)
Definition sg_window_records (t : list ScriptedSg.event) : list (list Z) :=
  omap (fun ev =>
          match ev with
          | ScriptedSg.Ioctl _ (Some bytes) => Some (drop 8 bytes)
          | _ => None
          end) t.

(** What a caller observes of a [read_data] call: the return value and,
    on success, [*result] and the end-of-page flag. *)
Definition observed {B : Type} (x : Z * option (Z * Z) * list Z * list Z * B)
  : Z * option (Z * Z) :=
  (x.1.1.1.1, x.1.1.1.2).

(** Sense data of a failed read: current error, byte 2 as given, the
    residual in bytes 3 to 6. *)
Definition read_sense (byte2 residual : Z) : list Z :=
  [0xf0; 0; byte2; byte_n residual 3; byte_n residual 2; byte_n residual 1;
   byte_n residual 0; 0; 0; 0; 0; 0; 0; 0; 0; 0; 0; 0].

(** A USB bus on which an image read delivers [data], ends with
    check-condition status, and the REQUEST SENSE that follows delivers
    [sense] and ends with good status. *)
Definition usb_failed_read (data sense : list Z) : ScriptedUsb.bus :=
  ScriptedUsb.Bus
    [(0, []); (0, replicate 12 0 ++ data); (0, replicate 12 0 ++ [0; 0; 0; 2]);
     (0, []); (0, replicate 12 0 ++ sense); (0, replicate 16 0)] [].

(** A SCSI-generic device whose next command delivers [data] and ends
    with check-condition status and [sense]. *)
Definition sg_failed_read (data sense : list Z) : ScriptedSg.dev :=
  ScriptedSg.Dev [KVSS905C.SgReply 0 1 sense data] [].

(** The 24 bytes of a command block on the bus: the bulk header (length
    24, block type 1, block code 0x9000, transaction id 0), then the
    command padded with zeros to 12 bytes. *)
Definition command_block (command : list Z) : list Z :=
  [0; 0; 0; 24; 0; 1; 0x90; 0; 0; 0; 0; 0] ++ take 12 (command ++ replicate 12 0).

(** The REQUEST SENSE command of [send_command]: 6 bytes, allocation
    length 0x12. *)
Definition request_sense_command : list Z := [0x03; 0; 0; 0; 0x12; 0].

(** The transfer buffer of [usb_send_command] once the command block has
    been built in it. *)
Definition command_buffer (h : endianness) (buf command : list Z) (n : nat) : list Z :=
  memcpy
    (memcpy
       (memcpy
          (memcpy (memset buf 0 0 24) 0 (bytes_of_u32 h (htonl h 24)) 4)
          4 (bytes_of_u16 h (htons h 1)) 2)
       6 (bytes_of_u16 h (htons h 0x9000)) 2)
    12 command n.

(** A USB bus on which a command without data phase ends with
    check-condition status and the REQUEST SENSE that follows is answered
    as scripted in [follow_up]. *)
Definition usb_check_condition (follow_up : list (Z * list Z)) : ScriptedUsb.bus :=
  ScriptedUsb.Bus ([(0, []); (0, replicate 12 0 ++ [0; 0; 0; 2])] ++ follow_up) [].

(** The SCAN command of [kvs3105_scan]. *)
Definition scan_command : list Z := [0x1b; 0; 0; 0; 0; 0].

(** *** Retries of [scsi_command], seen from the scripted device *)

(** The request-sense buffer after an ioctl answered with [reply]. *)
Definition sense_after (rs : list Z) (reply : KVSS905C.sg_reply) : list Z :=
  let sense := take (Z.to_nat KVSS905C.REQUEST_SENSE_SIZE)
                    (u8 <$> KVSS905C.io_sense reply) in
  memcpy rs 0 sense (length sense).

(** The data buffer after an ioctl answered with [reply]. *)
Definition data_after (direction data_length : Z) (data_ : option (list Z))
    (reply : KVSS905C.sg_reply) : option (list Z) :=
  let received := take (Z.to_nat data_length) (u8 <$> KVSS905C.io_data reply) in
  if direction =? SG_DXFER_FROM_DEV
  then (fun d => memcpy d 0 received (length received)) <$> data_
  else data_.

(** The ioctl succeeds, the status is not good and the sense data it left
    is what [scsi_transient_error] calls transient. *)
Definition transient_reply (rs : list Z) (reply : KVSS905C.sg_reply) : bool :=
  (KVSS905C.io_ret reply =? 0) &&
  negb (u8 (KVSS905C.io_masked_status reply) =? 0) &&
  negb (KVSS905C.scsi_transient_error (sense_after rs reply) =? 0).

Fixpoint transient_replies (rs : list Z) (replies : list KVSS905C.sg_reply) : bool :=
  match replies with
  | [] => true
  | reply :: replies =>
      transient_reply rs reply && transient_replies (sense_after rs reply) replies
  end.

(** The ioctl succeeds with good status. *)
Definition good_reply (reply : KVSS905C.sg_reply) : bool :=
  (KVSS905C.io_ret reply =? 0) && (u8 (KVSS905C.io_masked_status reply) =? 0).

(** The ioctl succeeds, the status is not good and the sense data is not
    transient. *)
Definition check_condition_reply (rs : list Z) (reply : KVSS905C.sg_reply) : bool :=
  (KVSS905C.io_ret reply =? 0) &&
  negb (u8 (KVSS905C.io_masked_status reply) =? 0) &&
  (KVSS905C.scsi_transient_error (sense_after rs reply) =? 0).

(** What the scripted device records for one attempt of a command. *)
Definition attempt (direction : Z) (command : list Z) (data_ : option (list Z))
    (data_length : Z) : ScriptedSg.event :=
  ScriptedSg.Ioctl command
    (if direction =? SG_DXFER_TO_DEV
     then take (Z.to_nat data_length) <$> data_ else None).

(** [k] attempts, each followed by a pause of 3 seconds. *)
Definition retried (k : nat) (ev : ScriptedSg.event) : list ScriptedSg.event :=
  mjoin (replicate k [ev; ScriptedSg.Sleep 3]).

(** The timeout [scsi_command] passes on: 30 seconds by default. *)
Definition norm_timeout (t : Z) : Z := if t =? 0 then 30000 else t.

(** Replies of a SCSI-generic device: check condition with unit-attention
    sense data (ASC 0x29, transient), check condition with out-of-paper
    sense data (ASC 0x3a, not transient), good status. *)
Definition unit_attention_reply : KVSS905C.sg_reply :=
  KVSS905C.SgReply 0 1 [0xf0; 0; 0x06; 0; 0; 0; 0; 0; 0; 0; 0; 0; 0x29; 0; 0; 0; 0; 0] [].

Definition no_paper_reply : KVSS905C.sg_reply :=
  KVSS905C.SgReply 0 1 Scanner.no_paper_sense [].

Definition good_status_reply : KVSS905C.sg_reply := KVSS905C.SgReply 0 0 [] [].

(** *** Polls of the buffer wait

    [zero_polls n b rs] follows [n] polls of GET DATA BUFFER STATUS that
    all succeed and report length 0, with the pause the driver makes after
    each, and answers the state they lead to; it answers [None] when one of
    them fails or reports a non-zero length. *)
Fixpoint kvs3105_zero_polls `{KVS3105.Libusb bus} (n : nat) (b : bus)
    (requestsense : list Z) : option (list Z * bus) :=
  match n with
  | O => Some (requestsense, b)
  | S n =>
      let '(r, out, requestsense, b) :=
        KVS3105.get_data_buffer_status b requestsense in
      if (r =? 0) && (default 0 (snd <$> out) =? 0)
      then kvs3105_zero_polls n (KVS3105.usleep b 50000) requestsense
      else None
  end.

Fixpoint kvss905c_zero_polls `{KVSS905C.SgIo sg} (n : nat) (g : sg)
    (requestsense : list Z) : option (list Z * sg) :=
  match n with
  | O => Some (requestsense, g)
  | S n =>
      let '(r, out, requestsense, g) :=
        KVSS905C.get_data_buffer_status g requestsense in
      if (r =? 0) && (default 0 (snd <$> out) =? 0)
      then kvss905c_zero_polls n (KVSS905C.usleep g 5000) requestsense
      else None
  end.

(** *** Order of retrieval *)

(** The sides of a block of [K] pages in duplex order:
    (0, front), (0, back), (1, front), (1, back), ..., (K-1, back); front
    is side 0 and back is side 1. *)
Definition duplex_order (K : Z) : list (Z * Z) :=
  flat_map (fun page => [(page, 0); (page, 1)]) (seqZ 0 K).

(** The pages of a block of [K] pages in non-duplex order, all on the
    front side. *)
Definition simplex_order (K : Z) : list (Z * Z) :=
  (fun page => (page, 0)) <$> seqZ 0 K.

(** What is left to retrieve of a block of [K] pages when the loop of
    [main] is at [(page, side)]. *)
Definition sides_left (duplex K page side : Z) : list (Z * Z) :=
  if duplex =? 0 then (fun page => (page, side)) <$> seqZ page (K - page)
  else if K <=? page then []
  else (if side =? 0 then [(page, 0); (page, 1)] else [(page, 1)])
       ++ flat_map (fun page => [(page, 0); (page, 1)]) (seqZ (page + 1) (K - page - 1)).

(** The calls [main] makes to retrieve one side with [S reads] image
    reads: the picture size, the buffer wait, the reads. *)
Definition kvs3105_retrieval (ps : Z * Z) (reads : nat) : list KVS3105.call :=
  KVS3105.PictureSize ps.1 ps.2 :: KVS3105.DataBufferWait
    :: replicate (S reads) (KVS3105.ReadData ps.1 ps.2).

Definition kvss905c_retrieval (ps : Z * Z) (reads : nat) : list KVSS905C.call :=
  KVSS905C.PictureSize ps.1 ps.2 :: KVSS905C.DataBufferWait
    :: replicate (S reads) (KVSS905C.ReadData ps.1 ps.2).

(** The calls recorded by a run of [main_block] that has returned. *)
Definition calls_of {C B : Type} (run : option (Z * list Z * list C * B)) : list C :=
  from_option (fun res => res.1.2) [] run.

(** Four sides of image data: two pages scanned duplex. *)
Definition two_pages : list (list Z) := [[1; 2; 3]; [4; 5]; [6]; [7; 8; 9; 10]].

(** The READ command block of [kvs3105_read] and [kvss905c_read]. *)
Definition read_command (type q1 q2 len : Z) : list Z :=
  [0x28; 0; u8 type; 0; u8 q1; u8 q2; u8 (Z.shiftr len 16);
   u8 (Z.shiftr len 8); u8 len; 0].

(** The number of reads of at most 64 KiB that [N] bytes take: the
    ceiling of [N / 0x10000]. *)
Definition chunks (N : Z) : nat := Z.to_nat ((N + 0x10000 - 1) / 0x10000).

(** The byte counts of a list of reads, added up. *)
Definition total (reads : list (Z * Z)) : Z := foldr Z.add 0 (fst <$> reads).

(** *** The same device on hosts of either byte order *)

(** The environment of the USB driver given by its parts, on a host of
    byte order [h]. *)
Definition usb_on_host {bus : Type}
    (transfer : bus -> Z -> list Z -> Z -> Z -> Z * list Z * bus)
    (pause : bus -> Z -> bus) (ind : nat -> list Z) (h : endianness)
  : KVS3105.Libusb bus :=
  {| KVS3105.host := h;
     KVS3105.libusb_bulk_transfer := transfer;
     KVS3105.usleep := pause;
     KVS3105.indeterminate := ind |}.

(** The environment of the SCSI-generic driver given by its parts, on a
    host of byte order [h]. *)
Definition sg_on_host {sg : Type}
    (do_ioctl : sg -> KVSS905C.sg_io_hdr -> KVSS905C.sg_reply * sg)
    (pause_s pause_us : sg -> Z -> sg) (ind : nat -> list Z) (h : endianness)
  : KVSS905C.SgIo sg :=
  {| KVSS905C.host := h;
     KVSS905C.ioctl := do_ioctl;
     KVSS905C.sleep := pause_s;
     KVSS905C.usleep := pause_us;
     KVSS905C.indeterminate := ind |}.

(** *** Blocks on the USB bus *)

(** A data block as the driver sends it: the bulk header (length of the
    whole block, block type 2, block code 0xb000, transaction id 0), then
    the data. *)
Definition data_block (d : list Z) : list Z :=
  let n := 12 + Z.of_nat (length d) in
  [byte_n n 3; byte_n n 2; byte_n n 1; byte_n n 0; 0; 2; 0xb0; 0; 0; 0; 0; 0] ++ d.

(** A status block that reports good status, as the device sends it. *)
Definition good_status : Z * list Z := (0, replicate 16 0).

(** *** The window record on the wire *)

(** A 16-bit and a 32-bit value as bytes, most significant first. *)
Definition be16_bytes (x : Z) : list Z := [byte_n (u16 x) 1; byte_n (u16 x) 0].

Definition be32_bytes (x : Z) : list Z :=
  [byte_n (u32 x) 3; byte_n (u32 x) 2; byte_n (u32 x) 1; byte_n (u32 x) 0].

(** The 64 bytes of a window record with window identifier [id] (byte 0)
    and [gap] in its six reserved bytes (34 to 39). *)
Definition window_record (id : Z) (gap : list Z) (w : window) : list Z :=
  [id; 0] ++ be16_bytes (xres w) ++ be16_bytes (yres w)
  ++ be32_bytes (x1 w) ++ be32_bytes (y1 w)
  ++ be32_bytes (width w) ++ be32_bytes (length_ w)
  ++ [u8 (brighness w); u8 (threshold w); u8 (contrast w); u8 (composition w);
      u8 (bpp w)]
  ++ be16_bytes (halftone_pattern w)
  ++ [if reverse_image w =? 0 then 0 else 0x80]
  ++ be16_bytes (bit_ordering w)
  ++ [u8 (compression_type w); u8 (compression_argument w)]
  ++ gap
  ++ [0;
      u8 (documented_flags_41 w);
      u8 (mirror_image w); u8 (emphasis w); u8 (gamma_correction w);
      u8 (Z.lor (Z.lor (Z.shiftl (multi_colour_drop_out w) 7) (Z.shiftl (lamp w) 4))
                (double_feed_sensitivity w));
      u8 (Z.lor (Z.lor (Z.shiftl (remove_moire w) 6) (Z.shiftl (subsample w) 4))
                (colour_match w));
      u8 (document_size w)]
  ++ be32_bytes (document_width w) ++ be32_bytes (document_length w)
  ++ [u8 (documented_flags_56 w);
      u8 (number_of_pages_to_scan w); u8 (threshold_mode w);
      u8 (separation_mode w); u8 (standard_white_level w);
      u8 (Z.lor (Z.shiftl (blackwhite_noise_reduction w) 7) (noise_reduction w));
      u8 (Z.lor (Z.lor (Z.lor (Z.lor (Z.lor (Z.shiftl (manual_feed_mode w) 6)
                                            (Z.shiftl (additional_space_top w) 5))
                                     (Z.shiftl (additional_space_bottom w) 4))
                              (Z.shiftl (detect_separation_sheet w) 3))
                       (Z.shiftl (halt_at_separation_sheet w) 2))
                (Z.shiftl (detect_control_sheet w) 1));
      u8 (stop_mode w)].

(** A statement of the serialiser writes relative to [output]: with
    [pre] before the output array it does what it does on the array
    alone. *)
Definition shifted (pre : list Z) (at_output at_0 : writer -> writer) : Prop :=
  forall l j, at_output (pre ++ l, j) = (pre ++ (at_0 (l, j)).1, (at_0 (l, j)).2).

(** The parameter list of SET WINDOW: six reserved bytes, the 16-bit
    length of the window record, the record. *)
Definition window_parameters (id : Z) (w : window) : list Z :=
  replicate 6 0 ++ [0; 64] ++ window_record id (replicate 6 0) w.

(** The SET WINDOW command block for a parameter list of 72 bytes. *)
Definition set_window_command : list Z := [0x24; 0; 0; 0; 0; 0; 0; 0; 72; 0].

(** *** Sense data and their messages *)

(** The sense key: the low nibble of byte 2 of the sense data. *)
Definition sense_key (requestsense : list Z) : Z := Z.land (rd requestsense 2) 0x0f.

(** Sense data with sense key [key], ASC [asc] and ASCQ [ascq]. *)
Definition sense_data (key asc ascq : Z) : list Z :=
  [0xf0; 0; key; 0; 0; 0; 0; 0; 0; 0; 0; 0; asc; ascq].

Definition same_message (a b : option string) : bool :=
  match a, b with
  | Some x, Some y => String.eqb x y
  | None, None => true
  | _, _ => false
  end.

(** The sense key and error code for which the two drivers' tables give
    different answers although the USB driver has a message. *)
Definition messages_differ : list (Z * Z) :=
  [(0, 0x0000); (2, 0x0000); (2, 0x0401); (2, 0x8002); (3, 0x8006); (3, 0x8007);
   (3, 0x8008); (3, 0x8009); (6, 0x8001)].

(** The messages of the errors that [scsi_command] retries. *)
Definition retried_messages : list string :=
  ["Document lead door open"; "Document discharge door open";
   "Post imprinter door open"; "Unit attention"]%string.

(** What is checked of the two tables at one sense key, ASC and ASCQ. *)
Definition tables_checked (key asc ascq : Z) : bool :=
  let rs := sense_data key asc ascq in
  let usb := KVS3105.kvs3105_strerror rs in
  let sg := KVSS905C.kvss905c_strerror rs in
  (match usb with
   | None => true
   | Some _ =>
       same_message usb sg
       || existsb (fun p => (p.1 =? key) && (p.2 =? asc * 256 + ascq)) messages_differ
   end)
  && (match sg with
      | None => true
      | Some m =>
          Bool.eqb (KVSS905C.scsi_transient_error rs =? 1)
                   (existsb (String.eqb m) retried_messages)
      end).

(** *** Blocks of a scanning session *)






(** *** Device nodes

    The files [kvss905c_open] looks at: a path names a node that refuses to
    be opened with some errno, or a SCSI-generic device, which is a
    scripted one; a path that names nothing gives ENOENT.  Descriptors are
    numbered as they are handed out, and an ioctl on a descriptor that is
    not open fails. *)
Module DevFs.
Import KVSS905C.

Inductive node : Type :=
  | Denied (errno : Z)
  | Device (d : ScriptedSg.dev).

Record world : Type := World {
  fs : gmap string node;
  fds : gmap Z string;
  next_fd : Z;
  err : Z
}.

Definition do_open (w : world) (path : string) (flags : Z) : Z * world :=
  match fs w !! path with
  | None => (-1, World (fs w) (fds w) (next_fd w) ENOENT)
  | Some (Denied e) => (-1, World (fs w) (fds w) (next_fd w) e)
  | Some (Device _) =>
      (next_fd w, World (fs w) (<[next_fd w := path]> (fds w)) (next_fd w + 1) (err w))
  end.

Definition do_close (w : world) (fd : Z) : world :=
  World (fs w) (delete fd (fds w)) (next_fd w) (err w).

(** The device behind an open descriptor. *)
Definition device_of (w : world) (fd : Z) : option ScriptedSg.dev :=
  match fds w !! fd with
  | Some path =>
      match fs w !! path with
      | Some (Device d) => Some d
      | _ => None
      end
  | None => None
  end.

(** The world with the device at [path] replaced. *)
Definition put (w : world) (path : string) (d : ScriptedSg.dev) : world :=
  World (<[path := Device d]> (fs w)) (fds w) (next_fd w) (err w).

(** The device behind [fd] replaced by [d]. *)
Definition with_device (w : world) (fd : Z) (d : ScriptedSg.dev) : world :=
  match fds w !! fd with
  | Some path => put w path d
  | None => w
  end.

Definition do_ioctl (fd : Z) (w : world) (hdr : sg_io_hdr) : sg_reply * world :=
  match device_of w fd with
  | Some d =>
      let '(reply, d) := ScriptedSg.do_ioctl d hdr in (reply, with_device w fd d)
  | None => (SgReply (-1) 0 [] [], w)
  end.

Definition on_device (fd : Z) (w : world) (f : ScriptedSg.dev -> ScriptedSg.dev) : world :=
  match device_of w fd with
  | Some d => with_device w fd (f d)
  | None => w
  end.

Definition sgio_on (h : endianness) (ind : nat -> list Z) (fd : Z) : SgIo world := {|
  host := h;
  ioctl := do_ioctl fd;
  sleep w s := on_device fd w (fun d => @sleep _ (ScriptedSg.sgio h ind) d s);
  usleep w us := on_device fd w (fun d => @usleep _ (ScriptedSg.sgio h ind) d us);
  indeterminate := ind
|}.

#[export] Instance nodes (h : endianness) (ind : nat -> list Z) : DevNodes world := {|
  sys_open := do_open;
  sys_errno := err;
  sys_close := do_close;
  on_fd := sgio_on h ind
|}.

(** A node that [kvss905c_open] passes over: it cannot be opened, for
    another reason than ENOENT, or it is a device that [kvss905c_detect]
    does not take for the scanner. *)
Definition passed_over (h : endianness) (ind : nat -> list Z) (n : option node) : Prop :=
  match n with
  | None => False
  | Some (Denied e) => e <> ENOENT
  | Some (Device d) => (@kvss905c_detect _ (ScriptedSg.sgio h ind) d).1 <> 0
  end.

End DevFs.

(** Three nodes: one that may not be opened (EACCES), a disk, which
    answers INQUIRY with another model name, and the scanner. *)
Definition inquiry_of (model : list Z) : KVSS905C.sg_reply :=
  KVSS905C.SgReply 0 0 [] (take 96 (replicate 16 0x20 ++ model ++ replicate 96 0x20)).

Definition three_nodes : DevFs.world :=
  DevFs.World
    (<["/dev/sg0"%string := DevFs.Denied 13]>
       (<["/dev/sg1"%string :=
            DevFs.Device (ScriptedSg.Dev [inquiry_of [0x53; 0x53; 0x44]] [])]>
          (<["/dev/sg2"%string :=
               DevFs.Device (ScriptedSg.Dev [inquiry_of [0x4b; 0x56; 0x2d; 0x53]] [])]>
             ∅)))
    ∅ 3 0.

(** *** A page of exactly one chunk *)

(** The byte counts and end-of-page flags collected by a run of
    [main_drain] that has returned. *)
Definition reads_of {A B C D : Type}
    (run : option (Z * A * B * C * list (Z * Z) * D)) : list (Z * Z) :=
  from_option (fun res => res.1.2) [] run.

(** A side of exactly 64 KiB. *)
Definition one_chunk_page : list Z := replicate (Z.to_nat 0x10000) 7.

(** A device that answers the read of the last full chunk with good
    status, a full chunk meaning that more data remains, and the read
    after it with no data and the sense data of a short read: end-of-medium
    and incorrect-length with the residual 64 KiB.  Behind USB the second
    READ ends with check-condition status and the sense data is fetched by
    REQUEST SENSE. *)
Definition one_chunk_then_empty_usb : ScriptedUsb.bus :=
  ScriptedUsb.Bus
    [(0, []); (0, replicate 12 0 ++ one_chunk_page); (0, replicate 16 0);
     (0, []); (0, replicate 12 0); (0, replicate 12 0 ++ [0; 0; 0; 2]);
     (0, []); (0, replicate 12 0 ++ Scanner.eom_sense 0x10000); (0, replicate 16 0)]
    [].

Definition one_chunk_then_empty_sg : ScriptedSg.dev :=
  ScriptedSg.Dev
    [KVSS905C.SgReply 0 0 [] one_chunk_page;
     KVSS905C.SgReply 0 1 (Scanner.eom_sense 0x10000) []]
    [].

(** * Properties *)

(** ** Machine integers and memory *)

Lemma u8_range x : 0 <= u8 x < 256.
Proof. unfold u8. apply Z.mod_pos_bound. lia. Qed.

Lemma u8_small x : 0 <= x < 256 -> u8 x = x.
Proof. intros. unfold u8. apply Z.mod_small. lia. Qed.

Lemma u8_u8 x : u8 (u8 x) = u8 x.
Proof. apply u8_small, u8_range. Qed.

Lemma u32_small x : 0 <= x < 4294967296 -> u32 x = x.
Proof. intros. unfold u32. apply Z.mod_small. lia. Qed.

Lemma rd_range m i : 0 <= rd m i < 256.
Proof. apply u8_range. Qed.

Lemma byte_n_div x n : 0 <= n -> byte_n x n = (x / 2 ^ (8 * n)) mod 256.
Proof.
  intros. unfold byte_n.
  rewrite Z.shiftr_div_pow2 by lia.
  change 255 with (Z.ones 8). rewrite Z.land_ones by lia. reflexivity.
Qed.

Lemma byte_n_range x n : 0 <= n -> 0 <= byte_n x n < 256.
Proof. intros. rewrite byte_n_div by lia. apply Z.mod_pos_bound. lia. Qed.

(** Or-ing a value below [2 ^ n] with one shifted left by [n] adds them. *)
Lemma lor_shiftl_add a b n :
  0 <= n -> 0 <= a < 2 ^ n -> Z.lor a (Z.shiftl b n) = a + b * 2 ^ n.
Proof.
  intros Hn Ha.
  assert (Hland : Z.land a (Z.shiftl b n) = 0).
  { apply Z.bits_inj'. intros k Hk. rewrite Z.land_spec, Z.bits_0.
    destruct (Z_lt_le_dec k n).
    - rewrite Z.shiftl_spec_low by lia. apply andb_false_r.
    - destruct (Z.eq_dec a 0) as [->|]; [rewrite Z.bits_0; reflexivity|].
      rewrite (Z.bits_above_log2 a k); [reflexivity | lia |].
      apply Z.log2_lt_pow2; [lia|].
      apply Z.lt_le_trans with (2 ^ n); [lia|].
      apply Z.pow_le_mono_r; lia. }
  rewrite <- Z.lxor_lor by exact Hland.
  rewrite <- Z.add_nocarry_lxor by exact Hland.
  rewrite Z.shiftl_mul_pow2 by lia. reflexivity.
Qed.

Lemma lor_add_shiftl a b n :
  0 <= n -> 0 <= b < 2 ^ n -> Z.lor (Z.shiftl a n) b = a * 2 ^ n + b.
Proof. intros. rewrite Z.lor_comm, lor_shiftl_add by lia. lia. Qed.

(** Or-ing two values with no bit in common adds them. *)
Lemma lor_disjoint x y n :
  0 <= n -> 0 <= y < 2 ^ n -> x mod 2 ^ n = 0 -> Z.lor x y = x + y.
Proof.
  intros Hn Hy Hx.
  assert (Hp : 0 < 2 ^ n) by (apply Z.pow_pos_nonneg; lia).
  rewrite (Z.div_mod x (2 ^ n)) at 1 by lia.
  rewrite Hx, Z.add_0_r, Z.mul_comm, <- Z.shiftl_mul_pow2 by lia.
  rewrite lor_add_shiftl by lia.
  rewrite (Z.div_mod x (2 ^ n)) at 2 by lia. lia.
Qed.

Ltac euclid := Z.to_euclidean_division_equations; lia.

(** Four bytes assembled most significant first. *)
Lemma be_bytes_lor a b c d :
  0 <= a < 256 -> 0 <= b < 256 -> 0 <= c < 256 -> 0 <= d < 256 ->
  Z.lor (Z.lor (Z.shiftl a 24) (Z.shiftl b 16)) (Z.lor (Z.shiftl c 8) d)
  = a * 16777216 + b * 65536 + c * 256 + d.
Proof.
  intros. rewrite !Z.shiftl_mul_pow2 by lia.
  change (2 ^ 24) with 16777216. change (2 ^ 16) with 65536. change (2 ^ 8) with 256.
  rewrite (lor_disjoint (c * 256) d 8) by (change (2 ^ 8) with 256; euclid).
  rewrite (lor_disjoint (a * 16777216) (b * 65536) 24)
    by (change (2 ^ 24) with 16777216; euclid).
  rewrite (lor_disjoint _ (c * 256 + d) 16) by (change (2 ^ 16) with 65536; euclid).
  lia.
Qed.

(** Four bytes assembled least significant first. *)
Lemma le_bytes_lor a b c d :
  0 <= a < 256 -> 0 <= b < 256 -> 0 <= c < 256 -> 0 <= d < 256 ->
  Z.lor (Z.lor a (Z.shiftl b 8)) (Z.lor (Z.shiftl c 16) (Z.shiftl d 24))
  = a + b * 256 + c * 65536 + d * 16777216.
Proof.
  intros. rewrite !Z.shiftl_mul_pow2 by lia.
  change (2 ^ 24) with 16777216. change (2 ^ 16) with 65536. change (2 ^ 8) with 256.
  rewrite (Z.lor_comm a), (lor_disjoint (b * 256) a 8)
    by (change (2 ^ 8) with 256; euclid).
  rewrite (Z.lor_comm (c * 65536)), (lor_disjoint (d * 16777216) (c * 65536) 24)
    by (change (2 ^ 24) with 16777216; euclid).
  rewrite Z.lor_comm, (lor_disjoint _ (b * 256 + a) 16)
    by (change (2 ^ 16) with 65536; euclid).
  lia.
Qed.

Lemma byte_n_0 x : byte_n x 0 = x mod 256.
Proof. rewrite byte_n_div by lia. change (2 ^ (8 * 0)) with 1. rewrite Z.div_1_r. reflexivity. Qed.

Lemma byte_n_1 x : byte_n x 1 = (x / 256) mod 256.
Proof. rewrite byte_n_div by lia. reflexivity. Qed.

Lemma byte_n_2 x : byte_n x 2 = (x / 65536) mod 256.
Proof. rewrite byte_n_div by lia. reflexivity. Qed.

Lemma byte_n_3 x : byte_n x 3 = (x / 16777216) mod 256.
Proof. rewrite byte_n_div by lia. reflexivity. Qed.

(** Swapping the bytes of a 32-bit value given by its four bytes. *)
Lemma bswap32_bytes a b c d :
  0 <= a < 256 -> 0 <= b < 256 -> 0 <= c < 256 -> 0 <= d < 256 ->
  bswap32 (a + b * 256 + c * 65536 + d * 16777216)
  = a * 16777216 + b * 65536 + c * 256 + d.
Proof.
  intros. unfold bswap32.
  rewrite byte_n_0, byte_n_1, byte_n_2, byte_n_3.
  replace ((a + b * 256 + c * 65536 + d * 16777216) mod 256) with a by euclid.
  replace (((a + b * 256 + c * 65536 + d * 16777216) / 256) mod 256) with b by euclid.
  replace (((a + b * 256 + c * 65536 + d * 16777216) / 65536) mod 256) with c by euclid.
  replace (((a + b * 256 + c * 65536 + d * 16777216) / 16777216) mod 256) with d by euclid.
  apply be_bytes_lor; assumption.
Qed.

(** [ntohl] of a host-order load reads the four bytes big-endian, on
    either kind of host. *)
Lemma ntohl_load_u32 host m i : ntohl host (load_u32 host m i) = be32 m i.
Proof.
  unfold ntohl, htonl, load_u32, be32.
  pose proof (rd_range m i). pose proof (rd_range m (i + 1)).
  pose proof (rd_range m (i + 2)). pose proof (rd_range m (i + 3)).
  destruct host.
  - rewrite le_bytes_lor by assumption.
    rewrite u32_small by lia. apply bswap32_bytes; assumption.
  - rewrite be_bytes_lor by assumption. apply u32_small. lia.
Qed.

(** ** Window serialisation *)

(** The index [j] the serialiser returns does not depend on the window,
    on the memory or on the byte order of the host. *)
Lemma window_serialise_j host mem output w :
  (window_serialise host mem output w).2 = WINDOW_SIZE.
Proof. reflexivity. Qed.

Lemma kvs3105_set_windows_returns `{KVS3105.Libusb bus} (b : bus) w duplex rs :
  KVS3105.kvs3105_set_windows b w duplex rs <> Aborted.
Proof.
  unfold KVS3105.kvs3105_set_windows, KVS3105.kvs3105_window_serialise.
  destruct (window_serialise _ _ 8 w) as [wb j] eqn:E.
  pose proof (window_serialise_j KVS3105.host
    (memset (KVS3105.alloca (6 + 2 + WINDOW_SIZE)) 0 0 (Z.to_nat (6 + 2 + WINDOW_SIZE)))
    8 w) as Hj.
  rewrite E in Hj. simpl in Hj. subst j.
  change (negb (WINDOW_SIZE =? WINDOW_SIZE)) with false. cbv iota.
  destruct (KVS3105.send_command b _ _ _ _ _ _ _) as [[[r d] rs1] b1].
  destruct (negb (r =? 0)); [discriminate|].
  destruct (negb (duplex =? 0)); [|discriminate].
  destruct (KVS3105.send_command b1 _ _ _ _ _ _ _) as [[[r2 d2] rs2] b2].
  discriminate.
Qed.

Lemma kvss905c_set_windows_returns `{KVSS905C.SgIo sg} (g : sg) w duplex rs :
  KVSS905C.kvss905c_set_windows g w duplex rs <> Aborted.
Proof.
  unfold KVSS905C.kvss905c_set_windows, KVSS905C.kvss905c_window_serialise.
  destruct (window_serialise _ _ 8 w) as [wb j] eqn:E.
  pose proof (window_serialise_j KVSS905C.host
    (memset (KVSS905C.alloca (6 + 2 + WINDOW_SIZE)) 0 0 (Z.to_nat (6 + 2 + WINDOW_SIZE)))
    8 w) as Hj.
  rewrite E in Hj. simpl in Hj. subst j.
  change (negb (WINDOW_SIZE =? WINDOW_SIZE)) with false. cbv iota.
  destruct (KVSS905C.scsi_command g _ _ _ _ _ _ _) as [[[r d] rs1] g1].
  destruct (negb (r =? 0)); [discriminate|].
  destruct (negb (duplex =? 0)); [|discriminate].
  destruct (KVSS905C.scsi_command g1 _ _ _ _ _ _ _) as [[[r2 d2] rs2] g2].
  discriminate.
Qed.

(** C3: for every window, whatever the output memory holds, both
    serialisers return exactly 64, and so neither [kvs3105_set_windows]
    nor [kvss905c_set_windows] reaches its [abort()]: each returns. *)
Theorem window_serialise_returns_64
    `{KVS3105.Libusb bus} `{KVSS905C.SgIo sg}
    (w : window) (mem : list Z) (output : nat)
    (b : bus) (g : sg) (duplex : Z) (requestsense : list Z) :
  (KVS3105.kvs3105_window_serialise mem output w).2 = 64 /\
  (KVSS905C.kvss905c_window_serialise mem output w).2 = 64 /\
  KVS3105.kvs3105_set_windows b w duplex requestsense <> Aborted /\
  KVSS905C.kvss905c_set_windows g w duplex requestsense <> Aborted.
Proof.
  split; [apply window_serialise_j|].
  split; [apply window_serialise_j|].
  split; [apply kvs3105_set_windows_returns | apply kvss905c_set_windows_returns].
Qed.

Lemma memset_alloca_usb `{KVS3105.Libusb bus} n v :
  0 <= n -> memset (KVS3105.alloca n) 0 v (Z.to_nat n) = replicate (Z.to_nat n) (u8 v).
Proof.
  intros. unfold memset, KVS3105.alloca. rewrite take_0. simpl.
  rewrite drop_ge by (rewrite length_resize; lia). apply app_nil_r.
Qed.

Lemma memset_alloca_sg `{KVSS905C.SgIo sg} n v :
  0 <= n -> memset (KVSS905C.alloca n) 0 v (Z.to_nat n) = replicate (Z.to_nat n) (u8 v).
Proof.
  intros. unfold memset, KVSS905C.alloca. rewrite take_0. simpl.
  rewrite drop_ge by (rewrite length_resize; lia). apply app_nil_r.
Qed.

(** The 72 bytes [set_windows] hands to the transport for the front side. *)
Lemma window_record_flags h w :
  let wb := memcpy (window_serialise h (replicate 72 0) 8 w).1 6
                   (bytes_of_u16 h (htons h WINDOW_SIZE)) 2 in
  length wb = 72%nat /\
  packs_flags w (drop 8 wb) /\ packs_flags w (drop 8 (wr wb 8 0x80)).
Proof.
  destruct w, h;
    cbv -[u8 u16 u32 byte_n bswap16 bswap32 Z.lor Z.shiftl Z.shiftr Z.land];
    rewrite !Z.shiftl_0_r; repeat split; reflexivity.
Qed.

Ltac explode_list d :=
  repeat (destruct d as [|? d]; [discriminate|]);
  try (destruct d; [|discriminate]).

(** SET WINDOW with 72 bytes of data on a bus that takes the command
    block and the data block and answers good status: the data block that
    goes out is the 12-byte bulk header followed by the data. *)
Lemma send_window_usb h ind (d : list Z) rest tr command rs :
  length d = 72%nat -> length command = 10%nat ->
  @KVS3105.send_command _ (ScriptedUsb.libusb h ind)
     (ScriptedUsb.Bus ((0, []) :: (0, []) :: (0, replicate 16 0) :: rest) tr)
     SG_DXFER_TO_DEV command 10 (Some d) 72 rs 0
  = (0, Some d, memset rs 0 0 18,
     ScriptedUsb.Bus rest
       (((tr ++ [ScriptedUsb.BulkOut
                   (bytes_of_u32 h (htonl h 24) ++ bytes_of_u16 h (htons h 1) ++
                    bytes_of_u16 h (htons h 0x9000) ++ [0; 0; 0; 0] ++ command ++ [0; 0])])
            ++ [ScriptedUsb.BulkOut
                  (bytes_of_u32 h (htonl h 84) ++ bytes_of_u16 h (htons h 2) ++
                   bytes_of_u16 h (htons h 0xb000) ++ [0; 0; 0; 0] ++ d)])
           ++ [ScriptedUsb.BulkIn 16])).
Proof.
  intros Hd Hc.
  explode_list d. explode_list command.
  destruct h; vm_compute; reflexivity.
Qed.

Lemma send_window_sg h ind (d : list Z) rest tr command rs :
  length d = 72%nat ->
  @KVSS905C.scsi_command _ (ScriptedSg.sgio h ind)
     (ScriptedSg.Dev (KVSS905C.SgReply 0 0 [] [] :: rest) tr)
     SG_DXFER_TO_DEV command 10 (Some d) 72 rs 0
  = (0, Some d, rs, ScriptedSg.Dev rest (tr ++ [ScriptedSg.Ioctl command (Some d)])).
Proof.
  intros Hd. explode_list d. vm_compute. reflexivity.
Qed.

Lemma usb_set_windows_records h ind w duplex rs :
  exists rs' b',
    @KVS3105.kvs3105_set_windows _ (ScriptedUsb.libusb h ind)
       (ScriptedUsb.Bus (usb_accepts 2) []) w duplex rs
    = Returned (0, rs', b') /\
    length (usb_window_records (ScriptedUsb.trace b'))
    = (if duplex =? 0 then 1%nat else 2%nat) /\
    Forall (packs_flags w) (usb_window_records (ScriptedUsb.trace b')).
Proof.
  unfold KVS3105.kvs3105_set_windows, KVS3105.kvs3105_window_serialise.
  rewrite memset_alloca_usb by (unfold WINDOW_SIZE; lia).
  change (@KVS3105.host _ (ScriptedUsb.libusb h ind)) with h.
  change (replicate (Z.to_nat (6 + 2 + WINDOW_SIZE)) (u8 0)) with (replicate 72 0).
  destruct (window_record_flags h w) as (Hlen & Hfront & Hback).
  pose proof (window_serialise_j h (replicate 72 0) 8 w) as Hj.
  destruct (window_serialise h (replicate 72 0) 8 w) as [wb0 j].
  simpl in Hj, Hlen, Hfront, Hback. subst j.
  change (negb (WINDOW_SIZE =? WINDOW_SIZE)) with false. cbv iota.
  set (wb := memcpy wb0 6 (bytes_of_u16 h (htons h WINDOW_SIZE)) 2) in *.
  clearbody wb. clear wb0.
  change (usb_accepts 2)
    with [(0, []); (0, []); (0, replicate 16 0); (0, []); (0, []); (0, replicate 16 0)].
  change (6 + 2 + WINDOW_SIZE) with 72.
  rewrite send_window_usb by (assumption || reflexivity).
  change (negb (0 =? 0)) with false. cbv iota.
  destruct (duplex =? 0) eqn:Hd; simpl negb; cbv iota.
  - eexists _, _. split; [reflexivity|].
    assert (Hrec : usb_window_records
              (ScriptedUsb.trace
                 (ScriptedUsb.Bus [(0, []); (0, []); (0, replicate 16 0)]
                    ((([] ++ [ScriptedUsb.BulkOut
                         (bytes_of_u32 h (htonl h 24) ++ bytes_of_u16 h (htons h 1) ++
                          bytes_of_u16 h (htons h 0x9000) ++ [0; 0; 0; 0] ++
                          KVS3105.set_windows_command 72 ++ [0; 0])])
                      ++ [ScriptedUsb.BulkOut
                            (bytes_of_u32 h (htonl h 84) ++ bytes_of_u16 h (htons h 2) ++
                             bytes_of_u16 h (htons h 0xb000) ++ [0; 0; 0; 0] ++ wb)])
                     ++ [ScriptedUsb.BulkIn 16])))
            = [drop 8 wb]) by (destruct h; vm_compute; reflexivity).
    rewrite Hrec. split; [reflexivity|]. constructor; [exact Hfront | constructor].
  - rewrite send_window_usb
      by (unfold wr; rewrite ?length_insert; assumption || reflexivity).
    eexists _, _. split; [reflexivity|].
    match goal with |- context [usb_window_records ?t] =>
      assert (Hrec : usb_window_records t = [drop 8 wb; drop 8 (wr wb 8 0x80)])
        by (destruct h; vm_compute; reflexivity)
    end.
    rewrite Hrec. split; [reflexivity|].
    constructor; [exact Hfront | constructor; [exact Hback | constructor]].
Qed.

Lemma sg_set_windows_records h ind w duplex rs :
  exists rs' g',
    @KVSS905C.kvss905c_set_windows _ (ScriptedSg.sgio h ind)
       (ScriptedSg.Dev (sg_accepts 2) []) w duplex rs
    = Returned (0, rs', g') /\
    length (sg_window_records (ScriptedSg.trace g'))
    = (if duplex =? 0 then 1%nat else 2%nat) /\
    Forall (packs_flags w) (sg_window_records (ScriptedSg.trace g')).
Proof.
  unfold KVSS905C.kvss905c_set_windows, KVSS905C.kvss905c_window_serialise.
  rewrite memset_alloca_sg by (unfold WINDOW_SIZE; lia).
  change (@KVSS905C.host _ (ScriptedSg.sgio h ind)) with h.
  change (replicate (Z.to_nat (6 + 2 + WINDOW_SIZE)) (u8 0)) with (replicate 72 0).
  destruct (window_record_flags h w) as (Hlen & Hfront & Hback).
  pose proof (window_serialise_j h (replicate 72 0) 8 w) as Hj.
  destruct (window_serialise h (replicate 72 0) 8 w) as [wb0 j].
  simpl in Hj, Hlen, Hfront, Hback. subst j.
  change (negb (WINDOW_SIZE =? WINDOW_SIZE)) with false. cbv iota.
  set (wb := memcpy wb0 6 (bytes_of_u16 h (htons h WINDOW_SIZE)) 2) in *.
  clearbody wb. clear wb0.
  change (sg_accepts 2)
    with [KVSS905C.SgReply 0 0 [] []; KVSS905C.SgReply 0 0 [] []].
  change (6 + 2 + WINDOW_SIZE) with 72.
  rewrite send_window_sg by assumption.
  change (negb (0 =? 0)) with false. cbv iota.
  destruct (duplex =? 0) eqn:Hd; simpl negb; cbv iota.
  - eexists _, _. split; [reflexivity|].
    split; [reflexivity|]. constructor; [exact Hfront | constructor].
  - rewrite send_window_sg by (unfold wr; rewrite ?length_insert; assumption).
    eexists _, _. split; [reflexivity|].
    split; [reflexivity|].
    constructor; [exact Hfront | constructor; [exact Hback | constructor]].
Qed.

(** With flag fields holding 0 or 1 the documented expressions fit a byte:
    storing them loses nothing. *)
Lemma documented_flags_fit w :
  flag_fields w ->
  u8 (documented_flags_41 w) = documented_flags_41 w /\
  u8 (documented_flags_56 w) = documented_flags_56 w.
Proof.
  unfold flag_fields, flag, documented_flags_41, documented_flags_56.
  intros (H1 & H2 & H3 & H4 & H5 & H6 & H7 & H8 & H9 & H10).
  assert (H6' : deskew w = 0 \/ deskew w = 1 \/ deskew w = 2) by lia.
  split.
  - destruct H1 as [-> | ->], H2 as [-> | ->], H3 as [-> | ->], H4 as [-> | ->];
      reflexivity.
  - destruct H5 as [-> | ->], H6' as [-> | [-> | ->]], H7 as [-> | ->],
      H8 as [-> | ->], H9 as [-> | ->], H10 as [-> | ->]; reflexivity.
Qed.

(** C9: for every window and either byte order of the host, every window
    record that [kvs3105_set_windows] and [kvss905c_set_windows] send to a
    device that accepts them (one record, or two under duplex) is 64 bytes
    long, has at offset 41 the byte
    flatbed<<7 | stop_on_skew<<4 | disable_buffering<<3 | continue_on_double_feed,
    at offset 56 the byte
    ahead_disable<<7 | deskew<<5 | double_feed_detector<<4 | full_size_scan<<2 | feed_slow<<1 | remove_shadow,
    each as the store into a [uint8_t] leaves it, and zeros in the
    reserved bytes 34 to 39; when the flag fields hold 0 or 1 (and deskew
    0 to 2) the store changes nothing. *)
Theorem window_flag_bytes_on_the_wire
    (h : endianness) (ind : nat -> list Z) (w : window) (duplex : Z)
    (requestsense : list Z) :
  (exists rs' b',
     @KVS3105.kvs3105_set_windows _ (ScriptedUsb.libusb h ind)
        (ScriptedUsb.Bus (usb_accepts 2) []) w duplex requestsense
     = Returned (0, rs', b') /\
     length (usb_window_records (ScriptedUsb.trace b'))
     = (if duplex =? 0 then 1%nat else 2%nat) /\
     Forall (packs_flags w) (usb_window_records (ScriptedUsb.trace b'))) /\
  (exists rs' g',
     @KVSS905C.kvss905c_set_windows _ (ScriptedSg.sgio h ind)
        (ScriptedSg.Dev (sg_accepts 2) []) w duplex requestsense
     = Returned (0, rs', g') /\
     length (sg_window_records (ScriptedSg.trace g'))
     = (if duplex =? 0 then 1%nat else 2%nat) /\
     Forall (packs_flags w) (sg_window_records (ScriptedSg.trace g'))) /\
  (flag_fields w ->
   u8 (documented_flags_41 w) = documented_flags_41 w /\
   u8 (documented_flags_56 w) = documented_flags_56 w).
Proof.
  split; [apply usb_set_windows_records|].
  split; [apply sg_set_windows_records | apply documented_flags_fit].
Qed.

Lemma window_flag_bytes_witness :
  flag_fields KVS3105.kvs3105_window_init /\
  u8 (documented_flags_56 KVS3105.kvs3105_window_init) = 16.
Proof.
  assert (Hf : flag_fields KVS3105.kvs3105_window_init).
  { unfold flag_fields, flag. simpl. lia. }
  split; [exact Hf|].
  pose proof (window_flag_bytes_on_the_wire LittleEndian (fun _ => [])
                KVS3105.kvs3105_window_init 1 (replicate 20 0)) as (_ & _ & H).
  destruct (H Hf) as [_ ->]. reflexivity.
Defined.

(** ** GET DATA BUFFER STATUS *)

(** The 24-bit value the two decoders assemble from bytes 9, 10 and 11. *)
Lemma tribyte_u32 (buffer : list Z) :
  Z.lor (Z.lor (u32 (Z.shiftl (u32 (rd buffer 9)) 16))
               (u32 (Z.shiftl (u32 (rd buffer 10)) 8)))
        (u32 (rd buffer 11))
  = Z.lor (Z.lor (Z.shiftl (rd buffer 9) 16) (Z.shiftl (rd buffer 10) 8))
          (rd buffer 11).
Proof.
  pose proof (rd_range buffer 9). pose proof (rd_range buffer 10).
  pose proof (rd_range buffer 11).
  rewrite !(u32_small (rd buffer _)) by lia.
  rewrite !Z.shiftl_mul_pow2 by lia.
  rewrite !u32_small by lia. reflexivity.
Qed.

(** The USB decoder: window id is byte 4 and the length is the tribyte of
    bytes 9 to 11 of the buffer the command filled, nothing else. *)
Lemma kvs3105_buffer_status_decodes `{KVS3105.Libusb bus} (b : bus) rs buffer rs' b' :
  KVS3105.send_command b SG_DXFER_FROM_DEV [0x34; 0; 0; 0; 0; 0; 0; 0; 12; 0] 10
    (Some (KVS3105.alloca 12)) 12 rs 0 = (0, Some buffer, rs', b') ->
  KVS3105.get_data_buffer_status b rs
  = (0, Some (rd buffer 4,
              Z.lor (Z.lor (Z.shiftl (rd buffer 9) 16) (Z.shiftl (rd buffer 10) 8))
                    (rd buffer 11)), rs', b').
Proof.
  intros E. unfold KVS3105.get_data_buffer_status. rewrite E. simpl.
  rewrite tribyte_u32. reflexivity.
Qed.

(** The SCSI-generic decoder passes the assembled length through [ntohl]. *)
Lemma kvss905c_buffer_status_decodes `{KVSS905C.SgIo sg} (g : sg) rs buffer rs' g' :
  KVSS905C.scsi_command g SG_DXFER_FROM_DEV [0x34; 0; 0; 0; 0; 0; 0; 0; 12; 0] 10
    (Some (KVSS905C.alloca 12)) 12 rs 0 = (0, Some buffer, rs', g') ->
  KVSS905C.get_data_buffer_status g rs
  = (0, Some (rd buffer 4,
              ntohl KVSS905C.host
                (Z.lor (Z.lor (Z.shiftl (rd buffer 9) 16) (Z.shiftl (rd buffer 10) 8))
                       (rd buffer 11))), rs', g').
Proof.
  intros E. unfold KVSS905C.get_data_buffer_status. rewrite E. simpl.
  rewrite tribyte_u32. reflexivity.
Qed.

(** C2: a GET DATA BUFFER STATUS response whose bytes 9 to 11 are 0, 0, 1
    (one byte available, window id 0).  The USB decoder yields length 1 on
    either host; the SCSI-generic decoder yields 1 on a big-endian host
    and 16777216 on a little-endian host, because it passes the assembled
    value through [ntohl]. *)
Theorem kvss905c_buffer_status_length_byte_swapped :
  let response := [0; 0; 0; 0; 0; 0; 0; 0; 0; 0; 0; 1] in
  let usb := ScriptedUsb.Bus
               [(0, []); (0, replicate 12 0 ++ response); (0, replicate 16 0)] [] in
  let sg := ScriptedSg.Dev [KVSS905C.SgReply 0 0 [] response] [] in
  let rs := replicate 20 0 in
  (forall h,
     (@KVS3105.get_data_buffer_status _ (ScriptedUsb.libusb h (fun _ => [])) usb rs).1.1.2
     = Some (0, 1)) /\
  (@KVSS905C.get_data_buffer_status _ (ScriptedSg.sgio BigEndian (fun _ => [])) sg rs).1.1.2
  = Some (0, 1) /\
  (@KVSS905C.get_data_buffer_status _ (ScriptedSg.sgio LittleEndian (fun _ => [])) sg rs).1.1.2
  = Some (0, 16777216).
Proof.
  cbv zeta. split; [intros []; vm_compute; reflexivity|].
  split; vm_compute; reflexivity.
Qed.

(** ** Image reads *)

Lemma negb_eqb_0 r : r <> 0 -> negb (r =? 0) = true.
Proof. intros. destruct (Z.eqb_spec r 0); [contradiction | reflexivity]. Qed.

(** A failed read whose sense data is a current error with the
    incorrect-length bit: [kvs3105_read_data] answers success, the length
    less the big-endian residual, and the end-of-medium bit. *)
Lemma kvs3105_read_data_short `{KVS3105.Libusb bus} (b : bus)
    page back buffer blen rs r buf1 rs1 b1 :
  let len := if KVS3105.kMaxBuffer <? blen then KVS3105.kMaxBuffer else blen in
  KVS3105.kvs3105_read b KVS3105.KVS3105_READ_IMAGE (u8 page)
    (if u8 back =? 0 then 0 else 0x80) buffer len rs = (r, buf1, rs1, b1) ->
  r <> 0 -> rd rs1 0 = 0xf0 -> Z.land (Z.shiftr (rd rs1 2) 5) 1 = 1 ->
  KVS3105.kvs3105_read_data b page back buffer blen rs
  = (0, Some (u32 (len - be32 rs1 3), Z.land (Z.shiftr (rd rs1 2) 6) 1),
     buf1, rs1, b1).
Proof.
  intros len E Hr H0 H5. unfold KVS3105.kvs3105_read_data. fold len.
  rewrite E, (negb_eqb_0 r Hr), H0, H5, ntohl_load_u32. reflexivity.
Qed.

(** The same read through [kvss905c_read_data]: success only when byte 2
    is exactly 0x60, and then with [eof] set. *)
Lemma kvss905c_read_data_failed `{KVSS905C.SgIo sg} (g : sg)
    page back buffer blen rs r buf1 rs1 g1 :
  let len := if KVSS905C.kMaxBuffer <? blen then KVSS905C.kMaxBuffer else blen in
  KVSS905C.kvss905c_read g KVSS905C.KVSS905C_READ_IMAGE (u8 page)
    (if u8 back =? 0 then 0 else 0x80) buffer len rs = (r, buf1, rs1, g1) ->
  r <> 0 -> rd rs1 0 = 0xf0 ->
  KVSS905C.kvss905c_read_data g page back buffer blen rs
  = if rd rs1 2 =? 0x60
    then (0, Some (u32 (len - be32 rs1 3), 1), buf1, rs1, g1)
    else (1, None, buf1, rs1, g1).
Proof.
  intros len E Hr H0. unfold KVSS905C.kvss905c_read_data. fold len.
  rewrite E, (negb_eqb_0 r Hr), H0, ntohl_load_u32. reflexivity.
Qed.

Lemma requested_64k blen :
  0x10000 <= blen -> (if 0x10000 <? blen then 0x10000 else blen) = 0x10000.
Proof. intros. destruct (Z.ltb_spec 0x10000 blen); lia. Qed.

(** C4: a [read_data] call that requests 0x10000 bytes and whose read
    fails with sense byte 0 = 0xf0, byte 2 = 0x60 and residual 0x32
    returns 0, with result 0x10000 - 0x32 and end-of-page 1, in both
    drivers. *)
Theorem read_data_end_of_medium
    `{KVS3105.Libusb bus} `{KVSS905C.SgIo sg} (b : bus) (g : sg)
    (page back blen : Z) (buffer requestsense : list Z)
    (r1 : Z) (buf1 rs1 : list Z) (b1 : bus)
    (r2 : Z) (buf2 rs2 : list Z) (g2 : sg) :
  0x10000 <= blen ->
  KVS3105.kvs3105_read b KVS3105.KVS3105_READ_IMAGE (u8 page)
    (if u8 back =? 0 then 0 else 0x80) buffer 0x10000 requestsense
  = (r1, buf1, rs1, b1) ->
  r1 <> 0 -> rd rs1 0 = 0xf0 -> rd rs1 2 = 0x60 -> be32 rs1 3 = 0x32 ->
  KVSS905C.kvss905c_read g KVSS905C.KVSS905C_READ_IMAGE (u8 page)
    (if u8 back =? 0 then 0 else 0x80) buffer 0x10000 requestsense
  = (r2, buf2, rs2, g2) ->
  r2 <> 0 -> rd rs2 0 = 0xf0 -> rd rs2 2 = 0x60 -> be32 rs2 3 = 0x32 ->
  KVS3105.kvs3105_read_data b page back buffer blen requestsense
  = (0, Some (0x10000 - 0x32, 1), buf1, rs1, b1) /\
  KVSS905C.kvss905c_read_data g page back buffer blen requestsense
  = (0, Some (0x10000 - 0x32, 1), buf2, rs2, g2).
Proof.
  intros Hb E1 Hr1 H10 H12 H13 E2 Hr2 H20 H22 H23.
  pose proof (requested_64k blen Hb) as Hlen.
  split.
  - rewrite (kvs3105_read_data_short b page back buffer blen requestsense
               r1 buf1 rs1 b1).
    + unfold KVS3105.kMaxBuffer. rewrite Hlen, H12, H13. reflexivity.
    + unfold KVS3105.kMaxBuffer. rewrite Hlen. exact E1.
    + exact Hr1.
    + exact H10.
    + rewrite H12. reflexivity.
  - rewrite (kvss905c_read_data_failed g page back buffer blen requestsense
               r2 buf2 rs2 g2).
    + unfold KVSS905C.kMaxBuffer. rewrite Hlen, H22, H23. reflexivity.
    + unfold KVSS905C.kMaxBuffer. rewrite Hlen. exact E2.
    + exact Hr2.
    + exact H20.
Qed.

Lemma read_data_end_of_medium_witness :
  let usb := usb_failed_read [1; 2; 3] (read_sense 0x60 0x32) in
  let sg := sg_failed_read [1; 2; 3] (read_sense 0x60 0x32) in
  let buffer := replicate (Z.to_nat 0x10000) 0 in
  let rs := replicate 20 0 in
  observed (@KVS3105.kvs3105_read_data _ (ScriptedUsb.libusb LittleEndian (fun _ => []))
              usb 0 0 buffer 0x10000 rs) = (0, Some (0x10000 - 0x32, 1)) /\
  observed (@KVSS905C.kvss905c_read_data _ (ScriptedSg.sgio LittleEndian (fun _ => []))
              sg 0 0 buffer 0x10000 rs) = (0, Some (0x10000 - 0x32, 1)).
Proof.
  intros usb sg buffer rs.
  set (usbhost := ScriptedUsb.libusb LittleEndian (fun _ => [])).
  set (sghost := ScriptedSg.sgio LittleEndian (fun _ => [])).
  assert (U1 : (@KVS3105.kvs3105_read _ usbhost usb 0 (u8 0) (if u8 0 =? 0 then 0 else 0x80)
                  buffer 0x10000 rs).1.1.1 = 2) by (vm_compute; reflexivity).
  assert (U2 : (@KVS3105.kvs3105_read _ usbhost usb 0 (u8 0) (if u8 0 =? 0 then 0 else 0x80)
                  buffer 0x10000 rs).1.2 = read_sense 0x60 0x32 ++ [0; 0])
    by (vm_compute; reflexivity).
  assert (S1 : (@KVSS905C.kvss905c_read _ sghost sg 0 (u8 0) (if u8 0 =? 0 then 0 else 0x80)
                  buffer 0x10000 rs).1.1.1 = 2) by (vm_compute; reflexivity).
  assert (S2 : (@KVSS905C.kvss905c_read _ sghost sg 0 (u8 0) (if u8 0 =? 0 then 0 else 0x80)
                  buffer 0x10000 rs).1.2 = read_sense 0x60 0x32 ++ [0; 0])
    by (vm_compute; reflexivity).
  destruct (@KVS3105.kvs3105_read _ usbhost usb 0 (u8 0) (if u8 0 =? 0 then 0 else 0x80)
              buffer 0x10000 rs) as [[[r1 buf1] rs1] b1] eqn:E1.
  destruct (@KVSS905C.kvss905c_read _ sghost sg 0 (u8 0) (if u8 0 =? 0 then 0 else 0x80)
              buffer 0x10000 rs) as [[[r2 buf2] rs2] g2] eqn:E2.
  simpl in U1, U2, S1, S2. subst r1 rs1 r2 rs2.
  destruct (@read_data_end_of_medium _ usbhost _ sghost usb sg 0 0 0x10000 buffer rs
              2 buf1 (read_sense 0x60 0x32 ++ [0; 0]) b1
              2 buf2 (read_sense 0x60 0x32 ++ [0; 0]) g2) as [-> ->];
    try exact E1; try exact E2; try reflexivity; try lia.
  split; reflexivity.
Defined.

(** C10, as the drivers are: on a failed image read whose sense data is a
    current error (byte 0 = 0xf0) with the incorrect-length bit (byte 2,
    bit 5) set, [kvs3105_read_data] returns 0 with result = requested -
    residual and end_of_page = the end-of-medium bit (byte 2, bit 6);
    [kvss905c_read_data] returns the same result with eof = 1 when byte 2
    is exactly 0x60 and returns 1 otherwise.  So with end-of-medium clear
    the first succeeds with end_of_page = 0 and the second fails, and the
    two agree exactly when byte 2 is 0x60. *)
Theorem read_data_variants_on_incorrect_length
    `{KVS3105.Libusb bus} `{KVSS905C.SgIo sg} (b : bus) (g : sg)
    (page back blen : Z) (buffer requestsense : list Z)
    (r1 : Z) (buf1 : list Z) (b1 : bus) (r2 : Z) (buf2 : list Z) (g2 : sg)
    (sense : list Z) :
  let len := if 0x10000 <? blen then 0x10000 else blen in
  KVS3105.kvs3105_read b KVS3105.KVS3105_READ_IMAGE (u8 page)
    (if u8 back =? 0 then 0 else 0x80) buffer len requestsense
  = (r1, buf1, sense, b1) ->
  KVSS905C.kvss905c_read g KVSS905C.KVSS905C_READ_IMAGE (u8 page)
    (if u8 back =? 0 then 0 else 0x80) buffer len requestsense
  = (r2, buf2, sense, g2) ->
  r1 <> 0 -> r2 <> 0 ->
  rd sense 0 = 0xf0 -> Z.land (Z.shiftr (rd sense 2) 5) 1 = 1 ->
  let usb := observed (KVS3105.kvs3105_read_data b page back buffer blen requestsense) in
  let scsi := observed (KVSS905C.kvss905c_read_data g page back buffer blen requestsense) in
  usb = (0, Some (u32 (len - be32 sense 3), Z.land (Z.shiftr (rd sense 2) 6) 1)) /\
  scsi = (if rd sense 2 =? 0x60
          then (0, Some (u32 (len - be32 sense 3), 1))
          else (1, None)) /\
  (Z.land (Z.shiftr (rd sense 2) 6) 1 = 0 ->
   usb = (0, Some (u32 (len - be32 sense 3), 0)) /\ scsi = (1, None)) /\
  (usb = scsi <-> rd sense 2 = 0x60).
Proof.
  intros len E1 E2 Hr1 Hr2 Hs0 Hs5 usb scsi.
  assert (Husb : usb = (0, Some (u32 (len - be32 sense 3),
                                 Z.land (Z.shiftr (rd sense 2) 6) 1))).
  { subst usb.
    rewrite (kvs3105_read_data_short b page back buffer blen requestsense
               r1 buf1 sense b1 E1 Hr1 Hs0 Hs5). reflexivity. }
  assert (Hscsi : scsi = (if rd sense 2 =? 0x60
                          then (0, Some (u32 (len - be32 sense 3), 1))
                          else (1, None))).
  { subst scsi.
    rewrite (kvss905c_read_data_failed g page back buffer blen requestsense
               r2 buf2 sense g2 E2 Hr2 Hs0).
    destruct (rd sense 2 =? 0x60); reflexivity. }
  split; [exact Husb|]. split; [exact Hscsi|]. split.
  - intros H6. rewrite Husb, Hscsi, H6. split; [reflexivity|].
    destruct (Z.eqb_spec (rd sense 2) 0x60) as [E|]; [|reflexivity].
    rewrite E in H6. discriminate H6.
  - rewrite Husb, Hscsi.
    destruct (Z.eqb_spec (rd sense 2) 0x60) as [E|NE].
    + rewrite E. split; reflexivity.
    + split; [discriminate | contradiction].
Qed.

(** C10 as stated does not hold: the same failed read (sense 0xf0, byte 2
    = 0x20: incorrect length without end of medium, residual 0x32) makes
    [kvs3105_read_data] return 0 and [kvss905c_read_data] return 1. *)
Lemma read_data_variants_not_equivalent :
  let sense := read_sense 0x20 0x32 in
  let usb := usb_failed_read [1; 2; 3] sense in
  let sg := sg_failed_read [1; 2; 3] sense in
  let buffer := replicate (Z.to_nat 0x10000) 0 in
  let rs := replicate 20 0 in
  let usbhost := ScriptedUsb.libusb LittleEndian (fun _ => []) in
  let sghost := ScriptedSg.sgio LittleEndian (fun _ => []) in
  (@KVS3105.kvs3105_read _ usbhost usb 0 0 0 buffer 0x10000 rs).1.2 = sense ++ [0; 0] /\
  (@KVSS905C.kvss905c_read _ sghost sg 0 0 0 buffer 0x10000 rs).1.2 = sense ++ [0; 0] /\
  observed (@KVS3105.kvs3105_read_data _ usbhost usb 0 0 buffer 0x10000 rs)
  = (0, Some (0x10000 - 0x32, 0)) /\
  observed (@KVSS905C.kvss905c_read_data _ sghost sg 0 0 buffer 0x10000 rs) = (1, None) /\
  observed (@KVS3105.kvs3105_read_data _ usbhost usb 0 0 buffer 0x10000 rs)
  <> observed (@KVSS905C.kvss905c_read_data _ sghost sg 0 0 buffer 0x10000 rs).
Proof.
  cbv zeta.
  assert (U : observed (@KVS3105.kvs3105_read_data _
                (ScriptedUsb.libusb LittleEndian (fun _ => []))
                (usb_failed_read [1; 2; 3] (read_sense 0x20 0x32)) 0 0
                (replicate (Z.to_nat 0x10000) 0) 0x10000 (replicate 20 0))
              = (0, Some (0x10000 - 0x32, 0))) by (vm_compute; reflexivity).
  assert (G : observed (@KVSS905C.kvss905c_read_data _
                (ScriptedSg.sgio LittleEndian (fun _ => []))
                (sg_failed_read [1; 2; 3] (read_sense 0x20 0x32)) 0 0
                (replicate (Z.to_nat 0x10000) 0) 0x10000 (replicate 20 0))
              = (1, None)) by (vm_compute; reflexivity).
  split; [vm_compute; reflexivity|]. split; [vm_compute; reflexivity|].
  split; [exact U|]. split; [exact G|].
  rewrite U, G. discriminate.
Qed.

Lemma read_data_variants_witness :
  let sense := read_sense 0x20 0x32 in
  let usb := usb_failed_read [1; 2; 3] sense in
  let sg := sg_failed_read [1; 2; 3] sense in
  let buffer := replicate (Z.to_nat 0x10000) 0 in
  let rs := replicate 20 0 in
  let usbhost := ScriptedUsb.libusb LittleEndian (fun _ => []) in
  let sghost := ScriptedSg.sgio LittleEndian (fun _ => []) in
  observed (@KVS3105.kvs3105_read_data _ usbhost usb 0 0 buffer 0x10000 rs)
  = (0, Some (0x10000 - 0x32, 0)) /\
  observed (@KVSS905C.kvss905c_read_data _ sghost sg 0 0 buffer 0x10000 rs) = (1, None).
Proof.
  intros sense usb sg buffer rs usbhost sghost.
  assert (U1 : (@KVS3105.kvs3105_read _ usbhost usb 0 (u8 0) (if u8 0 =? 0 then 0 else 0x80)
                  buffer 0x10000 rs).1.1.1 = 2) by (vm_compute; reflexivity).
  assert (U2 : (@KVS3105.kvs3105_read _ usbhost usb 0 (u8 0) (if u8 0 =? 0 then 0 else 0x80)
                  buffer 0x10000 rs).1.2 = sense ++ [0; 0])
    by (vm_compute; reflexivity).
  assert (S1 : (@KVSS905C.kvss905c_read _ sghost sg 0 (u8 0) (if u8 0 =? 0 then 0 else 0x80)
                  buffer 0x10000 rs).1.1.1 = 2) by (vm_compute; reflexivity).
  assert (S2 : (@KVSS905C.kvss905c_read _ sghost sg 0 (u8 0) (if u8 0 =? 0 then 0 else 0x80)
                  buffer 0x10000 rs).1.2 = sense ++ [0; 0])
    by (vm_compute; reflexivity).
  destruct (@KVS3105.kvs3105_read _ usbhost usb 0 (u8 0) (if u8 0 =? 0 then 0 else 0x80)
              buffer 0x10000 rs) as [[[r1 buf1] rs1] b1] eqn:E1.
  destruct (@KVSS905C.kvss905c_read _ sghost sg 0 (u8 0) (if u8 0 =? 0 then 0 else 0x80)
              buffer 0x10000 rs) as [[[r2 buf2] rs2] g2] eqn:E2.
  simpl in U1, U2, S1, S2. subst r1 rs1 r2 rs2.
  destruct (@read_data_variants_on_incorrect_length _ usbhost _ sghost usb sg 0 0 0x10000
              buffer rs 2 buf1 b1 2 buf2 g2 (sense ++ [0; 0]))
    as (_ & _ & Hclear & _);
    try exact E1; try exact E2; try reflexivity; try lia.
  destruct Hclear as [Hu Hs]; [reflexivity|].
  split; [rewrite Hu | rewrite Hs]; reflexivity.
Defined.

(** ** The USB transport *)

(** What [usb_send_command] puts on the bus for the command: the command
    block, whatever the buffer held and whatever the host's byte order. *)
Lemma command_block_sent h (buf command : list Z) (n : nat) :
  (24 <= length buf)%nat -> n = length command -> (n <= 12)%nat ->
  take 24
    (memcpy
       (memcpy
          (memcpy
             (memcpy (memset buf 0 0 24) 0 (bytes_of_u32 h (htonl h 24)) 4)
             4 (bytes_of_u16 h (htons h 1)) 2)
          6 (bytes_of_u16 h (htons h 0x9000)) 2)
       12 command n)
  = command_block command.
Proof.
  intros Hbuf -> Hn.
  do 24 (destruct buf as [|? buf]; [simpl in Hbuf; lia|]). clear Hbuf.
  do 13 (destruct command as [|? command]; [destruct h; vm_compute; reflexivity|]).
  simpl in Hn. lia.
Qed.

Section UsbExchange.
Import KVS3105.
Context `{Libusb bus}.

Lemma length_alloca n : 0 <= n -> length (alloca n) = Z.to_nat n.
Proof. intros. unfold alloca. apply length_resize. Qed.

(** [usb_send_command] for a command with a data-in phase, transfer by
    transfer: the command block out, the data in, the status in. *)
Lemma usb_send_command_in (b : bus) command n dptr dsz r buf t :
  (24 <= length buf)%nat -> Z.to_nat n = length command ->
  (length command <= 12)%nat ->
  usb_send_command b (Cmd command n dptr dsz CMD_IN) r buf t
  = let t' := if t =? 0 then 10000 else t in
    let h := command_buffer host buf command (Z.to_nat n) in
    let '(ret1, _, b) := libusb_bulk_transfer b CMD_OUT (command_block command) 24 t' in
    if negb (ret1 =? 0) then (-3, Cmd command n dptr dsz CMD_IN, r, h, b)
    else
      let '(ret1, transferred, h, b) := bulk_in b h (12 + dsz) t' in
      if negb (ret1 =? 0) || (transferred <? 12)
      then (-2, Cmd command n (Some (drop 12 h)) 0 CMD_IN,
            Response 2 (response_data r), h, b)
      else
        let '(ret1, _, resp, b) := bulk_in b (alloca 16) 16 t' in
        if negb (ret1 =? 0)
        then (-1, Cmd command n (Some (drop 12 h)) dsz CMD_IN,
              Response 2 (response_data r), h, b)
        else (0, Cmd command n (Some (drop 12 h)) dsz CMD_IN,
              Response (be32 resp 12) (response_data r), h, b).
Proof.
  intros Hbuf Hn Hc.
  unfold usb_send_command, bulk_out.
  change (Z.to_nat (sizeof_bulk_header + MAX_CMD_SIZE)) with 24%nat.
  change (sizeof_bulk_header + MAX_CMD_SIZE) with 24.
  change (sizeof_bulk_header + STATUS_SIZE) with 16.
  change sizeof_bulk_header with 12.
  change COMMAND_BLOCK with 1. change COMMAND_CODE with 0x9000.
  change CHECK_CONDITION with 2.
  cbn [cmd_bytes cmd_size dir data_size data].
  fold (command_buffer host buf command (Z.to_nat n)).
  unfold command_buffer at 1.
  rewrite command_block_sent by (assumption || lia).
  cbv zeta.
  destruct (libusb_bulk_transfer b CMD_OUT _ _ _) as [[ret1 x1] b1].
  destruct (negb (ret1 =? 0)); [reflexivity|].
  change (CMD_IN =? CMD_IN) with true. cbv iota.
  destruct (bulk_in b1 _ _ _) as [[[ret2 tr2] h2] b2].
  destruct (negb (ret2 =? 0) || (tr2 <? 12)); [reflexivity|].
  destruct (bulk_in b2 _ _ _) as [[[ret3 tr3] resp] b3].
  replace (12 + dsz - 12) with dsz by lia.
  rewrite ntohl_load_u32. reflexivity.
Qed.

End UsbExchange.

Section SenseFetch.
Import KVS3105.
Context `{Libusb bus}.

Lemma bulk_in_eq (b : bus) buf sz t ret delivered b' :
  libusb_bulk_transfer b CMD_IN [] sz t = (ret, delivered, b') ->
  bulk_in b buf sz t
  = (ret, Z.of_nat (length (take (Z.to_nat sz) (u8 <$> delivered))),
     memcpy buf 0 (take (Z.to_nat sz) (u8 <$> delivered))
            (length (take (Z.to_nat sz) (u8 <$> delivered))), b').
Proof. intros E. unfold bulk_in. rewrite E. reflexivity. Qed.

(** The sense bytes copied out of a full REQUEST SENSE reply. *)
Lemma sense_copied (requestsense buf header sense : list Z) :
  length header = 12%nat -> length sense = 18%nat ->
  let received := take (Z.to_nat 30) (u8 <$> (header ++ sense)) in
  memcpy (memset requestsense 0 0 (Z.to_nat RESPONSE_SIZE)) 0
         (drop (Z.to_nat sizeof_bulk_header)
               (memcpy buf 0 received (length received)))
         (Z.to_nat RESPONSE_SIZE)
  = (u8 <$> sense) ++ drop 18 requestsense.
Proof.
  intros Hh Hs received.
  assert (Hr : received = (u8 <$> header) ++ (u8 <$> sense)).
  { subst received. rewrite fmap_app. apply take_ge.
    rewrite length_app, !length_fmap, Hh, Hs. reflexivity. }
  rewrite Hr. clear Hr received.
  change (Z.to_nat RESPONSE_SIZE) with 18%nat.
  change (Z.to_nat sizeof_bulk_header) with 12%nat.
  unfold memcpy, memset. rewrite !take_0, !app_nil_l.
  rewrite (take_ge ((u8 <$> header) ++ (u8 <$> sense)))
    by (rewrite length_app, !length_fmap, Hh, Hs; reflexivity).
  rewrite <- (app_assoc (u8 <$> header)).
  rewrite (drop_app_length' (u8 <$> header)) by (rewrite length_fmap; symmetry; exact Hh).
  rewrite (take_app_length' (u8 <$> sense)) by (rewrite length_fmap; symmetry; exact Hs).
  rewrite (drop_app_length' (replicate 18 (u8 0))) by reflexivity.
  reflexivity.
Qed.

(** C5, as the driver is: when the first exchange of [send_command] ends
    with a status that is not good, the REQUEST SENSE command block
    (6-byte command 03 00 00 00 12 00) goes out on the bus.  When its
    transfer fails, [send_command] returns 1; when it is taken and the
    transfer of the data phase fails or delivers fewer than 12 bytes,
    [send_command] returns 1 too; in both cases the first 18
    (RESPONSE_SIZE) bytes of the caller's request-sense buffer are zero.
    When the device answers the data phase with a 12-byte header and 18
    sense bytes, [send_command] returns 2 and the first 18 bytes of the
    buffer are those sense bytes, whatever the status phase of the REQUEST
    SENSE answers.  In the three cases the bytes of the buffer from 18 on
    are left as the caller had them. *)
Theorem usb_check_condition_fetches_sense
    (b : bus) (direction : Z) (command : list Z) (command_length : Z)
    (data_ : option (list Z)) (data_length : Z) (requestsense : list Z)
    (st : Z) (c' : cmd) (r' : response) (bb' : list Z) (b1 b2 b3 b4 : bus)
    (x delivered sdata : list Z) (ret1 ret2 ret3 : Z) :
  let c := Cmd command command_length data_ data_length
               (if (if data_ is None then true else false) || (data_length =? 0)
                then CMD_NONE
                else if direction =? SG_DXFER_TO_DEV then CMD_OUT else CMD_IN) in
  let data' := if dir c' =? CMD_IN
               then Some (memcpy (default [] data_) 0 (default [] (data c'))
                                 (Z.to_nat (data_size c')))
               else data_ in
  let result := send_command b direction command command_length data_ data_length
                             requestsense 0 in
  usb_send_command b c (Response 0 (replicate (Z.to_nat RESPONSE_SIZE) 0))
    (alloca (sizeof_bulk_header +
             (if data_length >? MAX_CMD_SIZE then data_length else MAX_CMD_SIZE))) 0
  = (st, c', r', bb', b1) ->
  -1 <= st -> status r' <> 0 ->
  libusb_bulk_transfer b1 CMD_OUT (command_block request_sense_command) 24 10000
  = (ret1, x, b2) ->
  libusb_bulk_transfer b2 CMD_IN [] 30 10000 = (ret2, delivered, b3) ->
  libusb_bulk_transfer b3 CMD_IN [] 16 10000 = (ret3, sdata, b4) ->
  (ret1 <> 0 ->
   result = (1, data', replicate 18 0 ++ drop 18 requestsense, b2)) /\
  (ret1 = 0 -> ret2 <> 0 \/ (length delivered < 12)%nat ->
   result = (1, data', replicate 18 0 ++ drop 18 requestsense, b3)) /\
  (ret1 = 0 -> ret2 = 0 ->
   forall header sense,
     delivered = header ++ sense -> length header = 12%nat -> length sense = 18%nat ->
     result = (2, data', (u8 <$> sense) ++ drop 18 requestsense, b4)).
Proof.
  intros c data' result E Hst Hstatus Eout Ein Estatus.
  assert (Eres : result
                 = let '(st2, c2, r2, b_, b') :=
                     usb_send_command b1 (Cmd request_sense_command 6 None RESPONSE_SIZE CMD_IN)
                       r' (alloca (sizeof_bulk_header + RESPONSE_SIZE)) 0 in
                   if (st2 <? -1) || (data_size c2 =? 0)
                   then (1, data', memset requestsense 0 0 (Z.to_nat RESPONSE_SIZE), b')
                   else (2, data',
                         memcpy (memset requestsense 0 0 (Z.to_nat RESPONSE_SIZE)) 0
                                (drop (Z.to_nat sizeof_bulk_header) b_)
                                (Z.to_nat RESPONSE_SIZE), b')).
  { subst result. unfold send_command. fold c. rewrite E.
    destruct (Z.eqb_spec st (-2)); [lia|].
    destruct (Z.ltb_spec st (-1)); [lia|].
    rewrite (negb_eqb_0 _ Hstatus). reflexivity. }
  rewrite Eres. clear Eres.
  rewrite usb_send_command_in;
    [| rewrite length_alloca; unfold sizeof_bulk_header, RESPONSE_SIZE; lia
     | reflexivity | simpl; lia].
  cbv zeta. change (if 0 =? 0 then 10000 else 0) with 10000.
  rewrite Eout.
  change (12 + RESPONSE_SIZE) with 30.
  rewrite (bulk_in_eq b2 _ 30 10000 ret2 delivered b3 Ein).
  rewrite (bulk_in_eq b3 _ 16 10000 ret3 sdata b4 Estatus).
  split; [|split].
  - intros H1. rewrite (negb_eqb_0 _ H1). reflexivity.
  - intros -> Hfail. change (negb (0 =? 0)) with false. cbv iota.
    assert (Hc : negb (ret2 =? 0)
                 || (Z.of_nat (length (take (Z.to_nat 30) (u8 <$> delivered))) <? 12)
                 = true).
    { destruct Hfail as [H2|Hshort].
      - rewrite (negb_eqb_0 _ H2). reflexivity.
      - apply orb_true_iff. right. apply Z.ltb_lt.
        rewrite length_take, length_fmap. lia. }
    rewrite Hc. reflexivity.
  - intros -> -> header sense -> Hh Hs.
    change (negb (0 =? 0)) with false. cbv iota.
    assert (Hlen : length (take (Z.to_nat 30) (u8 <$> (header ++ sense))) = 30%nat).
    { rewrite take_ge; rewrite length_fmap, length_app, Hh, Hs; reflexivity. }
    rewrite Hlen at 1. change (false || (Z.of_nat 30 <? 12)) with false.
    cbv iota.
    destruct (negb (ret3 =? 0)); cbn [data_size];
      [change ((-1 <? -1) || (RESPONSE_SIZE =? 0)) with false
      |change ((0 <? -1) || (RESPONSE_SIZE =? 0)) with false]; cbv iota;
      rewrite sense_copied by assumption; reflexivity.
Qed.

End SenseFetch.

Lemma usb_check_condition_fetches_sense_witness :
  let usbhost := ScriptedUsb.libusb LittleEndian (fun _ => []) in
  let usb := usb_check_condition
               [(0, []); (0, replicate 12 0 ++ Scanner.no_paper_sense);
                (0, replicate 16 0)] in
  let res := @KVS3105.send_command _ usbhost usb SG_DXFER_TO_DEV scan_command 6 None 0
               (replicate 20 7) 0 in
  res.1.1.1 = 2 /\ res.1.2 = Scanner.no_paper_sense ++ [7; 7].
Proof.
  intros usbhost usb res.
  destruct (@usb_check_condition_fetches_sense _ usbhost usb SG_DXFER_TO_DEV
              scan_command 6 None 0 (replicate 20 7)
              0 (KVS3105.Cmd scan_command 6 None 0 KVS3105.CMD_NONE)
              (KVS3105.Response 2 (replicate 18 0))
              (command_buffer LittleEndian (replicate 24 0) scan_command 6)
              (ScriptedUsb.Bus
                 [(0, []); (0, replicate 12 0 ++ Scanner.no_paper_sense);
                  (0, replicate 16 0)]
                 [ScriptedUsb.BulkOut (command_block scan_command); ScriptedUsb.BulkIn 16])
              (ScriptedUsb.Bus
                 [(0, replicate 12 0 ++ Scanner.no_paper_sense); (0, replicate 16 0)]
                 [ScriptedUsb.BulkOut (command_block scan_command); ScriptedUsb.BulkIn 16;
                  ScriptedUsb.BulkOut (command_block request_sense_command)])
              (ScriptedUsb.Bus
                 [(0, replicate 16 0)]
                 [ScriptedUsb.BulkOut (command_block scan_command); ScriptedUsb.BulkIn 16;
                  ScriptedUsb.BulkOut (command_block request_sense_command);
                  ScriptedUsb.BulkIn 30])
              (ScriptedUsb.Bus
                 []
                 [ScriptedUsb.BulkOut (command_block scan_command); ScriptedUsb.BulkIn 16;
                  ScriptedUsb.BulkOut (command_block request_sense_command);
                  ScriptedUsb.BulkIn 30; ScriptedUsb.BulkIn 16])
              [] (replicate 12 0 ++ Scanner.no_paper_sense) (replicate 16 0) 0 0 0)
    as (_ & _ & Hfetched).
  - vm_compute. reflexivity.
  - lia.
  - vm_compute. discriminate.
  - vm_compute. reflexivity.
  - vm_compute. reflexivity.
  - vm_compute. reflexivity.
  - subst res. 
    rewrite (Hfetched eq_refl eq_refl (replicate 12 0) Scanner.no_paper_sense
               eq_refl eq_refl eq_refl).
    split; reflexivity.
Defined.

(** C5 as stated does not hold.  A SCAN ends with check-condition status;
    the REQUEST SENSE command block goes out, but its data phase times
    out: [send_command] returns 1 and the first 18 bytes of the caller's
    buffer are zero, no sense data having been fetched.  And when the
    device does answer, only 18 bytes are copied: bytes 18 and 19 of the
    20-byte buffer are what the caller had there (7 here). *)
Lemma usb_check_condition_without_sense :
  let usbhost := ScriptedUsb.libusb LittleEndian (fun _ => []) in
  let failing := usb_check_condition [(0, []); (-7, [])] in
  let res := @KVS3105.send_command _ usbhost failing SG_DXFER_TO_DEV scan_command 6 None 0
               (replicate 20 7) 0 in
  let answering := usb_check_condition
                     [(0, []); (0, replicate 12 0 ++ Scanner.no_paper_sense);
                      (0, replicate 16 0)] in
  let res' := @KVS3105.send_command _ usbhost answering SG_DXFER_TO_DEV scan_command 6 None 0
                (replicate 20 7) 0 in
  (res.1.1.1 = 1 /\
   res.1.2 = replicate 18 0 ++ [7; 7] /\
   ScriptedUsb.trace res.2
   = [ScriptedUsb.BulkOut (command_block scan_command); ScriptedUsb.BulkIn 16;
      ScriptedUsb.BulkOut (command_block request_sense_command);
      ScriptedUsb.BulkIn 30]) /\
  (res'.1.1.1 = 2 /\ drop 18 res'.1.2 = [7; 7]).
Proof.
  cbv zeta. split; [split; [|split] | split]; vm_compute; reflexivity.
Qed.

(** ** Retries of the SCSI-generic transport *)

Section Retries.
Import KVSS905C.
Variables (h : endianness) (ind : nat -> list Z).
Variables (direction : Z) (command : list Z) (command_length data_length : Z).

Local Abbreviation scsi_loop := (@scsi_command_loop _ (ScriptedSg.sgio h ind)).

Lemma norm_timeout_idem t : norm_timeout (norm_timeout t) = norm_timeout t.
Proof.
  unfold norm_timeout. destruct (t =? 0) eqn:E; [reflexivity | rewrite E; reflexivity].
Qed.

Lemma attempt_data_after data_ reply :
  attempt direction command (data_after direction data_length data_ reply) data_length
  = attempt direction command data_ data_length.
Proof.
  unfold attempt, data_after.
  destruct (Z.eqb_spec direction SG_DXFER_TO_DEV) as [->|]; reflexivity.
Qed.

(** One iteration of the loop of [scsi_command] on the scripted device. *)
Lemma scsi_command_loop_step n reply rest tr data_ rs t :
  scsi_loop (S n) (ScriptedSg.Dev (reply :: rest) tr) direction command
    command_length data_ data_length rs t
  = let ev := attempt direction command data_ data_length in
    let data' := data_after direction data_length data_ reply in
    let rs' := sense_after rs reply in
    if negb (io_ret reply =? 0)
    then (1, data', rs', ScriptedSg.Dev rest (tr ++ [ev]))
    else if negb (u8 (io_masked_status reply) =? 0) then
      if negb (scsi_transient_error rs' =? 0)
      then scsi_loop n
             (ScriptedSg.Dev rest ((tr ++ [ev]) ++ [ScriptedSg.Sleep 3]))
             direction command command_length data' data_length rs' (norm_timeout t)
      else (2, data', rs', ScriptedSg.Dev rest (tr ++ [ev]))
    else (0, data', rs', ScriptedSg.Dev rest (tr ++ [ev])).
Proof. reflexivity. Qed.

Lemma scsi_command_loop_timeout n (g : ScriptedSg.dev) data_ rs t :
  scsi_loop n g direction command command_length data_ data_length rs (norm_timeout t)
  = scsi_loop n g direction command command_length data_ data_length rs t.
Proof.
  destruct n; [reflexivity|].
  destruct g as [[|reply rest] tr]; [reflexivity|].
  rewrite !scsi_command_loop_step, norm_timeout_idem. reflexivity.
Qed.

Lemma retried_snoc k ev : retried (S k) ev = [ev; ScriptedSg.Sleep 3] ++ retried k ev.
Proof. reflexivity. Qed.

(** [k] transient replies cost [k] attempts and [k] pauses of 3 seconds. *)
Lemma scsi_command_loop_retries replies :
  forall n rest tr data_ rs t,
    transient_replies rs replies = true ->
    scsi_loop (length replies + n) (ScriptedSg.Dev (replies ++ rest) tr)
      direction command command_length data_ data_length rs t
    = scsi_loop n
        (ScriptedSg.Dev rest
           (tr ++ retried (length replies)
                          (attempt direction command data_ data_length)))
        direction command command_length
        (foldl (data_after direction data_length) data_ replies) data_length
        (foldl sense_after rs replies) t.
Proof.
  induction replies as [|reply replies IH]; intros n rest tr data_ rs t Ht.
  - simpl. rewrite app_nil_r. reflexivity.
  - simpl in Ht. apply andb_prop in Ht as [Hr Hrest].
    unfold transient_reply in Hr.
    apply andb_prop in Hr as [Hr Htrans]. apply andb_prop in Hr as [Hret Hstatus].
    change (length (reply :: replies) + n)%nat with (S (length replies + n)).
    change ((reply :: replies) ++ rest) with (reply :: (replies ++ rest)).
    rewrite scsi_command_loop_step. cbv zeta.
    rewrite Hret, Hstatus, Htrans. cbn [negb].
    rewrite scsi_command_loop_timeout.
    rewrite IH by exact Hrest.
    rewrite attempt_data_after.
    change (length (reply :: replies)) with (S (length replies)).
    rewrite retried_snoc, <- !app_assoc. reflexivity.
Qed.

(** C6: on a SCSI-generic device, for every command, (1) four transient
    check-conditions followed by a good reply make [scsi_command] return 0
    after five ioctls with a pause of 3 seconds after each of the first
    four; (2) five transient check-conditions make it return 2 after five
    ioctls, each followed by a pause of 3 seconds, and the device's next
    reply is not consumed (no sixth attempt); (3) a check-condition that is
    not transient, after at most four transient ones, makes it return 2
    at once: no pause and no further ioctl follow it. *)
Theorem scsi_command_retry_budget
    (data_ : option (list Z)) (requestsense : list Z) (timeout_ : Z)
    (tr : list ScriptedSg.event) (rest : list sg_reply) :
  let ev := attempt direction command data_ data_length in
  let run replies :=
    @scsi_command _ (ScriptedSg.sgio h ind) (ScriptedSg.Dev (replies ++ rest) tr)
      direction command command_length data_ data_length requestsense timeout_ in
  let data_after_all replies := foldl (data_after direction data_length) data_ replies in
  let sense_after_all replies := foldl sense_after requestsense replies in
  (forall replies reply,
      length replies = 4%nat ->
      transient_replies requestsense replies = true ->
      good_reply reply = true ->
      run (replies ++ [reply])
      = (0, data_after_all (replies ++ [reply]), sense_after_all (replies ++ [reply]),
         ScriptedSg.Dev rest (tr ++ retried 4 ev ++ [ev]))) /\
  (forall replies,
      length replies = 5%nat ->
      transient_replies requestsense replies = true ->
      run replies
      = (2, data_after_all replies, sense_after_all replies,
         ScriptedSg.Dev rest (tr ++ retried 5 ev))) /\
  (forall replies reply,
      (length replies <= 4)%nat ->
      transient_replies requestsense replies = true ->
      check_condition_reply (sense_after_all replies) reply = true ->
      run (replies ++ [reply])
      = (2, data_after_all (replies ++ [reply]), sense_after_all (replies ++ [reply]),
         ScriptedSg.Dev rest (tr ++ retried (length replies) ev ++ [ev]))).
Proof.
  intros ev run data_after_all sense_after_all. subst run. cbv beta.
  unfold scsi_command. split; [|split].
  - intros replies reply Hlen Ht Hgood.
    rewrite <- app_assoc. change ([reply] ++ rest) with (reply :: rest).
    change 5%nat with (4 + 1)%nat. rewrite <- Hlen.
    rewrite scsi_command_loop_retries by exact Ht.
    rewrite scsi_command_loop_step. cbv zeta.
    unfold good_reply in Hgood. apply andb_prop in Hgood as [Hret Hstatus].
    rewrite Hret, Hstatus. cbn [negb].
    subst data_after_all sense_after_all. cbv beta.
    rewrite !foldl_app. cbn [foldl].
    rewrite <- app_assoc. fold ev.
    replace (attempt direction command
               (foldl (data_after direction data_length) data_ replies) data_length)
      with ev; [reflexivity|].
    subst ev. clear. induction replies as [|r replies IH] using rev_ind; [reflexivity|].
    rewrite foldl_app. cbn [foldl]. rewrite attempt_data_after. exact IH.
  - intros replies Hlen Ht.
    assert (E5 : 5%nat = (length replies + 0)%nat) by lia.
    rewrite E5 at 1.
    rewrite scsi_command_loop_retries by exact Ht.
    rewrite Hlen. reflexivity.
  - intros replies reply Hlen Ht Hcc.
    rewrite <- app_assoc. change ([reply] ++ rest) with (reply :: rest).
    replace 5%nat with (length replies + S (4 - length replies))%nat by lia.
    rewrite scsi_command_loop_retries by exact Ht.
    rewrite scsi_command_loop_step. cbv zeta.
    unfold check_condition_reply in Hcc.
    apply andb_prop in Hcc as [Hcc Hnt]. apply andb_prop in Hcc as [Hret Hstatus].
    subst sense_after_all. cbv beta in Hnt.
    rewrite Hret, Hstatus, Hnt. cbn [negb].
    subst data_after_all. cbv beta.
    rewrite !foldl_app. cbn [foldl].
    rewrite <- app_assoc. fold ev.
    replace (attempt direction command
               (foldl (data_after direction data_length) data_ replies) data_length)
      with ev; [reflexivity|].
    subst ev. clear. induction replies as [|r replies IH] using rev_ind; [reflexivity|].
    rewrite foldl_app. cbn [foldl]. rewrite attempt_data_after. exact IH.
Qed.

End Retries.

Lemma scsi_command_retry_budget_witness :
  let run replies :=
    @KVSS905C.scsi_command _ (ScriptedSg.sgio LittleEndian (fun _ => []))
      (ScriptedSg.Dev (replies ++ [good_status_reply]) [])
      SG_DXFER_TO_DEV scan_command 6 None 0 (replicate 20 0) 0 in
  let ua := unit_attention_reply in
  (run [ua; ua; ua; ua; good_status_reply]).1.1.1 = 0 /\
  (run [ua; ua; ua; ua; ua]).1.1.1 = 2 /\
  ScriptedSg.script (run [ua; ua; ua; ua; ua]).2 = [good_status_reply] /\
  (run [ua; no_paper_reply]).1.1.1 = 2 /\
  ScriptedSg.trace (run [ua; no_paper_reply]).2
  = [ScriptedSg.Ioctl scan_command None; ScriptedSg.Sleep 3;
     ScriptedSg.Ioctl scan_command None].
Proof.
  intros run ua. subst run. cbv beta.
  destruct (scsi_command_retry_budget LittleEndian (fun _ => []) SG_DXFER_TO_DEV
              scan_command 6 0 None (replicate 20 0) 0 [] [good_status_reply])
    as (Hgood & Hfive & Hfatal).
  pose proof (Hgood [ua; ua; ua; ua] good_status_reply eq_refl eq_refl eq_refl) as H1.
  pose proof (Hfive [ua; ua; ua; ua; ua] eq_refl eq_refl) as H2.
  assert (Hone : (length [ua] <= 4)%nat) by (simpl; lia).
  pose proof (Hfatal [ua] no_paper_reply Hone eq_refl eq_refl) as H3.
  split; [exact (f_equal (fun r => r.1.1.1) H1)|].
  split; [exact (f_equal (fun r => r.1.1.1) H2)|].
  split; [exact (f_equal (fun r => ScriptedSg.script r.2) H2)|].
  split; [exact (f_equal (fun r => r.1.1.1) H3)|].
  exact (f_equal (fun r => ScriptedSg.trace r.2) H3).
Defined.

(** ** Waiting for the buffer *)

(** A scanner with nothing to deliver answers GET DATA BUFFER STATUS with
    good status and length 0, and is afterwards as it was before. *)
Lemma usb_empty_scanner_status h ind sense e rs :
  @KVS3105.get_data_buffer_status _ (Scanner.Usb.libusb h ind)
     (Scanner.Usb.Bus [] sense Scanner.Usb.Idle e) rs
  = (0, Some (0, 0), memset rs 0 0 18, Scanner.Usb.Bus [] sense Scanner.Usb.Idle e).
Proof. destruct h; vm_compute; reflexivity. Qed.

Lemma sg_empty_scanner_status h ind e rs :
  @KVSS905C.get_data_buffer_status _ (Scanner.Sg.sgio h ind) (Scanner.Sg.Dev [] e) rs
  = (0, Some (0, 0), rs, Scanner.Sg.Dev [] e).
Proof. destruct h; vm_compute; reflexivity. Qed.

Lemma usb_empty_scanner_waits h ind sense fuel :
  forall e rs,
    @KVS3105.kvs3105_data_buffer_wait _ (Scanner.Usb.libusb h ind) fuel
       (Scanner.Usb.Bus [] sense Scanner.Usb.Idle e) rs = None.
Proof.
  induction fuel as [|fuel IH]; intros e rs; [reflexivity|].
  cbn [KVS3105.kvs3105_data_buffer_wait].
  rewrite usb_empty_scanner_status. apply IH.
Qed.

Lemma sg_empty_scanner_waits h ind fuel :
  forall e rs,
    @KVSS905C.kvss905c_data_buffer_wait _ (Scanner.Sg.sgio h ind) fuel
       (Scanner.Sg.Dev [] e) rs = None.
Proof.
  induction fuel as [|fuel IH]; intros e rs; [reflexivity|].
  cbn [KVSS905C.kvss905c_data_buffer_wait].
  rewrite sg_empty_scanner_status. apply IH.
Qed.

(** C8 as stated does not hold: neither wait takes a cancellation signal
    (their only inputs are the device handle and the request-sense
    buffer), and against a scanner that keeps reporting a zero buffer
    length neither has returned after a thousand polls.  The lemmas
    [usb_empty_scanner_waits] and [sg_empty_scanner_waits] give the same
    for any number of polls. *)
Lemma buffer_wait_cannot_be_cancelled :
  @KVS3105.kvs3105_data_buffer_wait _ (Scanner.Usb.libusb LittleEndian (fun _ => []))
     1000 (Scanner.Usb.Bus [] (replicate 18 0) Scanner.Usb.Idle 0) (replicate 20 0)
  = None /\
  @KVSS905C.kvss905c_data_buffer_wait _ (Scanner.Sg.sgio LittleEndian (fun _ => []))
     1000 (Scanner.Sg.Dev [] 0) (replicate 20 0)
  = None.
Proof.
  split; [apply usb_empty_scanner_waits | apply sg_empty_scanner_waits].
Qed.

Lemma kvs3105_wait_after_zero_polls `{KVS3105.Libusb bus} n :
  forall (b : bus) rs rs1 b1 fuel,
    kvs3105_zero_polls n b rs = Some (rs1, b1) ->
    KVS3105.kvs3105_data_buffer_wait (n + fuel) b rs
    = KVS3105.kvs3105_data_buffer_wait fuel b1 rs1.
Proof.
  induction n as [|n IH]; intros b rs rs1 b1 fuel Hz.
  - simpl in Hz. injection Hz as <- <-. reflexivity.
  - cbn [kvs3105_zero_polls] in Hz.
    cbn [Nat.add KVS3105.kvs3105_data_buffer_wait].
    destruct (KVS3105.get_data_buffer_status b rs) as [[[r out] rs'] b'].
    destruct (r =? 0); [|discriminate Hz].
    destruct (default 0 (snd <$> out) =? 0); [|discriminate Hz].
    apply IH. exact Hz.
Qed.

Lemma kvss905c_wait_after_zero_polls `{KVSS905C.SgIo sg} n :
  forall (g : sg) rs rs1 g1 fuel,
    kvss905c_zero_polls n g rs = Some (rs1, g1) ->
    KVSS905C.kvss905c_data_buffer_wait (n + fuel) g rs
    = KVSS905C.kvss905c_data_buffer_wait fuel g1 rs1.
Proof.
  induction n as [|n IH]; intros g rs rs1 g1 fuel Hz.
  - simpl in Hz. injection Hz as <- <-. reflexivity.
  - cbn [kvss905c_zero_polls] in Hz.
    cbn [Nat.add KVSS905C.kvss905c_data_buffer_wait].
    destruct (KVSS905C.get_data_buffer_status g rs) as [[[r out] rs'] g'].
    destruct (r =? 0); [|discriminate Hz].
    destruct (default 0 (snd <$> out) =? 0); [|discriminate Hz].
    apply IH. exact Hz.
Qed.

(** C8, as the drivers are: the buffer waits take no cancellation signal
    and follow the device alone.  After [n] polls that succeed with length
    0 (each followed by a pause of 50 ms, 5 ms in the SCSI-generic driver)
    the wait is still polling; the poll after them decides: an error is
    returned (as it is by [kvs3105_data_buffer_wait], as 1 by
    [kvss905c_data_buffer_wait]), a non-zero length returns 0, a zero
    length makes the wait pause and poll again. *)
Theorem buffer_wait_follows_the_device
    `{KVS3105.Libusb bus} `{KVSS905C.SgIo sg} (n fuel : nat)
    (b b1 : bus) (g g1 : sg) (rs rs1 rs' rs1' : list Z) :
  kvs3105_zero_polls n b rs = Some (rs1, b1) ->
  kvss905c_zero_polls n g rs' = Some (rs1', g1) ->
  KVS3105.kvs3105_data_buffer_wait n b rs = None /\
  KVSS905C.kvss905c_data_buffer_wait n g rs' = None /\
  KVS3105.kvs3105_data_buffer_wait (n + S fuel) b rs
  = (let '(r, out, rs2, b2) := KVS3105.get_data_buffer_status b1 rs1 in
     if negb (r =? 0) then Some (r, rs2, b2)
     else if negb (default 0 (snd <$> out) =? 0) then Some (0, rs2, b2)
     else KVS3105.kvs3105_data_buffer_wait fuel (KVS3105.usleep b2 50000) rs2) /\
  KVSS905C.kvss905c_data_buffer_wait (n + S fuel) g rs'
  = (let '(r, out, rs2, g2) := KVSS905C.get_data_buffer_status g1 rs1' in
     if negb (r =? 0) then Some (1, rs2, g2)
     else if negb (default 0 (snd <$> out) =? 0) then Some (0, rs2, g2)
     else KVSS905C.kvss905c_data_buffer_wait fuel (KVSS905C.usleep g2 5000) rs2).
Proof.
  intros Hu Hs.
  split.
  { rewrite <- (Nat.add_0_r n) at 1.
    rewrite (kvs3105_wait_after_zero_polls n b rs rs1 b1 0 Hu). reflexivity. }
  split.
  { rewrite <- (Nat.add_0_r n) at 1.
    rewrite (kvss905c_wait_after_zero_polls n g rs' rs1' g1 0 Hs). reflexivity. }
  split.
  - rewrite (kvs3105_wait_after_zero_polls n b rs rs1 b1 (S fuel) Hu). reflexivity.
  - rewrite (kvss905c_wait_after_zero_polls n g rs' rs1' g1 (S fuel) Hs). reflexivity.
Qed.

Lemma buffer_wait_follows_the_device_witness :
  let usbhost := Scanner.Usb.libusb LittleEndian (fun _ => []) in
  let sghost := Scanner.Sg.sgio LittleEndian (fun _ => []) in
  let usb := Scanner.Usb.Bus [] (replicate 18 0) Scanner.Usb.Idle 0 in
  let scsi := Scanner.Sg.Dev [] 0 in
  @KVS3105.kvs3105_data_buffer_wait _ usbhost 2 usb (replicate 20 0) = None /\
  @KVSS905C.kvss905c_data_buffer_wait _ sghost 2 scsi (replicate 20 0) = None.
Proof.
  intros usbhost sghost usb scsi.
  destruct (@buffer_wait_follows_the_device _ usbhost _ sghost 2 0 usb
              (Scanner.Usb.Bus [] (replicate 18 0) Scanner.Usb.Idle 100000)
              scsi (Scanner.Sg.Dev [] 10000)
              (replicate 20 0) (replicate 20 0) (replicate 20 0) (replicate 20 0))
    as (Hu & Hs & _).
  - vm_compute. reflexivity.
  - vm_compute. reflexivity.
  - split; [exact Hu | exact Hs].
Defined.

(** ** Order of retrieval in a block *)

Lemma sides_left_done duplex K page side :
  K <= page -> sides_left duplex K page side = [].
Proof.
  intros. unfold sides_left.
  destruct (duplex =? 0).
  - rewrite seqZ_nil by lia. reflexivity.
  - destruct (Z.leb_spec K page); [reflexivity | lia].
Qed.

Lemma sides_left_simplex K page side :
  page < K ->
  sides_left 0 K page side = (page, side) :: sides_left 0 K (page + 1) side.
Proof.
  intros. unfold sides_left. simpl.
  rewrite (seqZ_cons page (K - page)) by lia. simpl.
  replace (Z.succ page) with (page + 1) by lia.
  replace (Z.pred (K - page)) with (K - (page + 1)) by lia. reflexivity.
Qed.

Lemma sides_left_front duplex K page :
  duplex <> 0 -> page < K ->
  sides_left duplex K page 0 = (page, 0) :: sides_left duplex K page 1.
Proof.
  intros Hd Hp. unfold sides_left.
  destruct (Z.eqb_spec duplex 0); [contradiction|].
  destruct (Z.leb_spec K page); [lia|]. reflexivity.
Qed.

Lemma sides_left_back duplex K page :
  duplex <> 0 -> page < K ->
  sides_left duplex K page 1 = (page, 1) :: sides_left duplex K (page + 1) 0.
Proof.
  intros Hd Hp. unfold sides_left.
  destruct (Z.eqb_spec duplex 0); [contradiction|].
  destruct (Z.leb_spec K page); [lia|].
  simpl. f_equal.
  destruct (Z.leb_spec K (page + 1)).
  - rewrite seqZ_nil by lia. reflexivity.
  - rewrite (seqZ_cons (page + 1) (K - page - 1)) by lia. simpl.
    replace (Z.succ (page + 1)) with (page + 1 + 1) by lia.
    replace (Z.pred (K - page - 1)) with (K - (page + 1) - 1) by lia.
    reflexivity.
Qed.

Lemma sides_left_start_duplex duplex K :
  duplex <> 0 -> sides_left duplex K 0 0 = duplex_order K.
Proof.
  intros Hd. unfold sides_left, duplex_order.
  destruct (Z.eqb_spec duplex 0); [contradiction|].
  destruct (Z.leb_spec K 0).
  - rewrite seqZ_nil by lia. reflexivity.
  - rewrite (seqZ_cons 0 K) by lia. simpl.
    replace (K - 0 - 1) with (Z.pred K) by lia. reflexivity.
Qed.

Lemma sides_left_start_simplex K : sides_left 0 K 0 0 = simplex_order K.
Proof. unfold sides_left, simplex_order. simpl. rewrite Z.sub_0_r. reflexivity. Qed.

Section Kvs3105Order.
Import KVS3105.
Context `{Libusb bus}.

(** The image reads of one side are all made with that page and side, and
    there is at least one. *)
Lemma kvs3105_main_drain_log fuel :
  forall (b : bus) page side buffer rs log reads r buffer' rs' log' reads' b',
    main_drain fuel b page side buffer rs log reads
    = Some (r, buffer', rs', log', reads', b') ->
    exists n, log' = log ++ replicate (S n) (ReadData page side).
Proof.
  induction fuel as [|fuel IH];
    intros b page side buffer rs log reads r buffer' rs' log' reads' b' Hd;
    [discriminate Hd|].
  cbn [main_drain] in Hd.
  destruct (kvs3105_read_data b page side buffer KVS3105_BUFFER_SIZE rs)
    as [[[[r1 out] buffer1] rs1] b1].
  destruct (negb (r1 =? 0)).
  - injection Hd as <- <- <- <- <- <-. exists 0%nat. reflexivity.
  - destruct (default (0, 0) out) as [written end_of_page].
    destruct (negb (end_of_page =? 0)).
    + injection Hd as <- <- <- <- <- <-. exists 0%nat. reflexivity.
    + apply IH in Hd as [n ->]. exists (S n).
      rewrite <- app_assoc. reflexivity.
Qed.

Lemma kvs3105_main_block_log (K duplex : Z) fuel :
  0 <= K < 4294967296 ->
  forall (b : bus) page side rs log rs' log' b',
    0 <= page -> side = 0 \/ side = 1 ->
    main_block fuel b K duplex page side rs log = Some (0, rs', log', b') ->
    exists reads : list nat,
      length reads = length (sides_left duplex K page side) /\
      log' = log ++ concat (zip_with kvs3105_retrieval
                                     (sides_left duplex K page side) reads).
Proof.
  intros HK.
  induction fuel as [|fuel IH]; intros b page side rs log rs' log' b' Hp Hside Hm;
    [discriminate Hm|].
  cbn [main_block] in Hm.
  destruct (Z.ltb_spec page K) as [Hlt|Hge]; cbn [negb] in Hm.
  2:{ injection Hm as <- <- <-. exists [].
      rewrite sides_left_done by lia. split; [reflexivity|].
      simpl. rewrite app_nil_r. reflexivity. }
  destruct (kvs3105_picture_size b page side rs) as [[[r1 o1] rs1] b1].
  destruct (negb (r1 =? 0)); [discriminate Hm|].
  destruct (kvs3105_data_buffer_wait fuel b1 rs1) as [[[ws rs2] b2]|];
    [|discriminate Hm].
  destruct (negb (ws =? 0)); [discriminate Hm|].
  destruct (main_drain fuel b2 page side (alloca KVS3105_BUFFER_SIZE) rs2
              ((log ++ [PictureSize page side]) ++ [DataBufferWait]) [])
    as [[[[[[r3 buf3] rs3] log3] reads3] b3]|] eqn:Ed; [|discriminate Hm].
  apply kvs3105_main_drain_log in Ed as [n ->].
  destruct (negb (r3 =? 0)); [discriminate Hm|].
  assert (Hnext : u32 (page + 1) = page + 1) by (apply u32_small; lia).
  rewrite Hnext in Hm.
  destruct (Z.eqb_spec duplex 0) as [Hd|Hd]; cbn [negb] in Hm.
  - apply IH in Hm as (reads & Hlen & ->); [|lia|exact Hside].
    exists (n :: reads). subst duplex.
    rewrite sides_left_simplex by lia. split; [simpl; lia|].
    simpl. rewrite <- !app_assoc. reflexivity.
  - destruct Hside as [-> | ->]; cbn [Z.eqb negb] in Hm.
    + apply IH in Hm as (reads & Hlen & ->); [|lia|right; reflexivity].
      exists (n :: reads).
      rewrite sides_left_front by (assumption || lia). split; [simpl; lia|].
      simpl. rewrite <- !app_assoc. reflexivity.
    + apply IH in Hm as (reads & Hlen & ->); [|lia|left; reflexivity].
      exists (n :: reads).
      rewrite sides_left_back by (assumption || lia). split; [simpl; lia|].
      simpl. rewrite <- !app_assoc. reflexivity.
Qed.

End Kvs3105Order.

Section Kvss905cOrder.
Import KVSS905C.
Context `{SgIo sg}.

(** The image reads of one side are all made with that page and side, and
    there is at least one. *)
Lemma kvss905c_main_drain_log fuel :
  forall (b : sg) page side buffer rs log reads r buffer' rs' log' reads' b',
    main_drain fuel b page side buffer rs log reads
    = Some (r, buffer', rs', log', reads', b') ->
    exists n, log' = log ++ replicate (S n) (ReadData page side).
Proof.
  induction fuel as [|fuel IH];
    intros b page side buffer rs log reads r buffer' rs' log' reads' b' Hd;
    [discriminate Hd|].
  cbn [main_drain] in Hd.
  destruct (kvss905c_read_data b page side buffer KVSS905C_BUFFER_SIZE rs)
    as [[[[r1 out] buffer1] rs1] b1].
  destruct (negb (r1 =? 0)).
  - injection Hd as <- <- <- <- <- <-. exists 0%nat. reflexivity.
  - destruct (default (0, 0) out) as [written end_of_page].
    destruct (negb (end_of_page =? 0)).
    + injection Hd as <- <- <- <- <- <-. exists 0%nat. reflexivity.
    + apply IH in Hd as [n ->]. exists (S n).
      rewrite <- app_assoc. reflexivity.
Qed.

Lemma kvss905c_main_block_log (K duplex : Z) fuel :
  0 <= K < 4294967296 ->
  forall (b : sg) page side rs log rs' log' b',
    0 <= page -> side = 0 \/ side = 1 ->
    main_block fuel b K duplex page side rs log = Some (0, rs', log', b') ->
    exists reads : list nat,
      length reads = length (sides_left duplex K page side) /\
      log' = log ++ concat (zip_with kvss905c_retrieval
                                     (sides_left duplex K page side) reads).
Proof.
  intros HK.
  induction fuel as [|fuel IH]; intros b page side rs log rs' log' b' Hp Hside Hm;
    [discriminate Hm|].
  cbn [main_block] in Hm.
  destruct (Z.ltb_spec page K) as [Hlt|Hge]; cbn [negb] in Hm.
  2:{ injection Hm as <- <- <-. exists [].
      rewrite sides_left_done by lia. split; [reflexivity|].
      simpl. rewrite app_nil_r. reflexivity. }
  destruct (kvss905c_picture_size b page side rs) as [[[r1 o1] rs1] b1].
  destruct (negb (r1 =? 0)); [discriminate Hm|].
  destruct (kvss905c_data_buffer_wait fuel b1 rs1) as [[[ws rs2] b2]|];
    [|discriminate Hm].
  destruct (negb (ws =? 0)); [discriminate Hm|].
  destruct (main_drain fuel b2 page side (alloca KVSS905C_BUFFER_SIZE) rs2
              ((log ++ [PictureSize page side]) ++ [DataBufferWait]) [])
    as [[[[[[r3 buf3] rs3] log3] reads3] b3]|] eqn:Ed; [|discriminate Hm].
  apply kvss905c_main_drain_log in Ed as [n ->].
  destruct (negb (r3 =? 0)); [discriminate Hm|].
  assert (Hnext : u32 (page + 1) = page + 1) by (apply u32_small; lia).
  rewrite Hnext in Hm.
  destruct (Z.eqb_spec duplex 0) as [Hd|Hd]; cbn [negb] in Hm.
  - apply IH in Hm as (reads & Hlen & ->); [|lia|exact Hside].
    exists (n :: reads). subst duplex.
    rewrite sides_left_simplex by lia. split; [simpl; lia|].
    simpl. rewrite <- !app_assoc. reflexivity.
  - destruct Hside as [-> | ->]; cbn [Z.eqb negb] in Hm.
    + apply IH in Hm as (reads & Hlen & ->); [|lia|right; reflexivity].
      exists (n :: reads).
      rewrite sides_left_front by (assumption || lia). split; [simpl; lia|].
      simpl. rewrite <- !app_assoc. reflexivity.
    + apply IH in Hm as (reads & Hlen & ->); [|lia|left; reflexivity].
      exists (n :: reads).
      rewrite sides_left_back by (assumption || lia). split; [simpl; lia|].
      simpl. rewrite <- !app_assoc. reflexivity.
Qed.

End Kvss905cOrder.

(** ** The scanner of the specification, behind USB *)

Lemma be_bytes_value d :
  0 <= d < 4294967296 ->
  byte_n d 3 * 16777216 + byte_n d 2 * 65536 + byte_n d 1 * 256 + byte_n d 0 = d.
Proof. intros. rewrite byte_n_0, byte_n_1, byte_n_2, byte_n_3. euclid. Qed.

Section ScannerUsb.
Import KVS3105.
Variables (h : endianness) (ind : nat -> list Z).

Local Abbreviation usbhost := (Scanner.Usb.libusb h ind).

Lemma scanner_status_word st :
  st = 0 \/ st = 2 ->
  let delivered := Scanner.Usb.response_header 16
                   ++ [byte_n st 3; byte_n st 2; byte_n st 1; byte_n st 0] in
  let received := take (Z.to_nat 16) (u8 <$> delivered) in
  be32 (memcpy (@alloca _ usbhost 16) 0 received (length received)) 12 = st.
Proof. intros [-> | ->]; vm_compute; reflexivity. Qed.

Lemma length_received sz (p : list Z) len :
  0 <= sz ->
  (12 <= length (take (Z.to_nat (12 + sz))
                      (u8 <$> (Scanner.Usb.response_header len ++ p))))%nat.
Proof.
  intros. rewrite length_take, length_fmap, length_app.
  change (length (Scanner.Usb.response_header len)) with 12%nat. lia.
Qed.

(** One command with a data-in phase against the scanner at rest: the
    command block is taken, the data block and the status block are
    delivered, and the scanner is at rest again. *)
Lemma scanner_exchange sides sense e command n dptr dsz r buf t p st sides' sense' :
  (24 <= length buf)%nat -> Z.to_nat n = length command ->
  (length command <= 12)%nat -> 0 <= dsz ->
  Scanner.react sides sense (drop 12 (command_block command))
  = (Some p, st, sides', sense') ->
  st = 0 \/ st = 2 ->
  let received := take (Z.to_nat (12 + dsz))
                       (u8 <$> (Scanner.Usb.response_header (12 + Z.of_nat (length p)) ++ p)) in
  let h' := memcpy (command_buffer h buf command (Z.to_nat n)) 0 received (length received) in
  @usb_send_command _ usbhost (Scanner.Usb.Bus sides sense Scanner.Usb.Idle e)
     (Cmd command n dptr dsz CMD_IN) r buf t
  = (0, Cmd command n (Some (drop 12 h')) dsz CMD_IN, Response st (response_data r), h',
     Scanner.Usb.Bus sides' sense' Scanner.Usb.Idle e).
Proof.
  intros Hbuf Hn Hc Hdsz Hreact Hst received h'.
  rewrite usb_send_command_in by assumption.
  cbv zeta. unfold bulk_in.
  change (@libusb_bulk_transfer _ usbhost) with Scanner.Usb.bulk_transfer.
  change (@host _ usbhost) with h.
  unfold Scanner.Usb.bulk_transfer at 1.
  change (CMD_OUT =? CMD_OUT) with true.
  cbn [Scanner.Usb.ph Scanner.Usb.sides Scanner.Usb.sense Scanner.Usb.elapsed].
  rewrite Hreact. change (negb (0 =? 0)) with false. cbv iota.
  unfold Scanner.Usb.bulk_transfer at 1.
  change (CMD_IN =? CMD_OUT) with false.
  cbn [Scanner.Usb.ph Scanner.Usb.sides Scanner.Usb.sense Scanner.Usb.elapsed].
  fold received.
  pose proof (length_received dsz p (12 + Z.of_nat (length p)) Hdsz) as Hlen.
  fold received in Hlen.
  destruct (Z.ltb_spec (Z.of_nat (length received)) 12) as [Hlt|_]; [lia|].
  change (negb (0 =? 0) || false) with false. cbv iota.
  unfold Scanner.Usb.bulk_transfer.
  change (CMD_IN =? CMD_OUT) with false.
  cbn [Scanner.Usb.ph Scanner.Usb.sides Scanner.Usb.sense Scanner.Usb.elapsed].
  change (negb (0 =? 0)) with false. cbv iota.
  rewrite (scanner_status_word st Hst). reflexivity.
Qed.
End ScannerUsb.

Lemma react_read_image img rest sense q1 q2 :
  Scanner.react (img :: rest) sense
    (drop 12 (command_block (read_command 0 q1 q2 0x10000)))
  = if 0x10000 <? Z.of_nat (length img)
    then (Some (take (Z.to_nat 0x10000) img), 0,
          drop (Z.to_nat 0x10000) img :: rest, sense)
    else (Some img, 2, rest, Scanner.eom_sense (0x10000 - Z.of_nat (length img))).
Proof. reflexivity. Qed.

Lemma react_request_sense sides sense :
  Scanner.react sides sense (drop 12 (command_block request_sense_command))
  = (Some sense, 0, sides, sense).
Proof. reflexivity. Qed.

(** The residual read back from the sense data of a short read. *)
Lemma eom_sense_residual d tail :
  0 <= d < 4294967296 ->
  be32 ((u8 <$> Scanner.eom_sense d) ++ tail) 3 = d.
Proof.
  intros Hd. unfold be32, rd.
  change (nth 3 ((u8 <$> Scanner.eom_sense d) ++ tail) 0) with (u8 (byte_n d 3)).
  change (nth (3 + 1) ((u8 <$> Scanner.eom_sense d) ++ tail) 0) with (u8 (byte_n d 2)).
  change (nth (3 + 2) ((u8 <$> Scanner.eom_sense d) ++ tail) 0) with (u8 (byte_n d 1)).
  change (nth (3 + 3) ((u8 <$> Scanner.eom_sense d) ++ tail) 0) with (u8 (byte_n d 0)).
  rewrite !u8_u8.
  rewrite !u8_small by (apply byte_n_range; lia).
  apply be_bytes_value. exact Hd.
Qed.

Section ScannerUsbRead.
Import KVS3105.
Variables (h : endianness) (ind : nat -> list Z).

Local Abbreviation usbhost := (Scanner.Usb.libusb h ind).

Lemma length_alloca_scanner n : 0 <= n -> length (@alloca _ usbhost n) = Z.to_nat n.
Proof. intros. unfold alloca. apply length_resize. Qed.

(** [send_command] for a command with a data-in phase against the scanner
    at rest: it returns the status the scanner gave (0 or 2), and after a
    check condition the request-sense buffer holds the scanner's sense
    data. *)
Lemma scanner_send_command_in sides sense e command clen buffer dsz rs
    p st sides' sense' :
  Z.to_nat clen = length command -> (length command <= 12)%nat -> 0 < dsz ->
  Scanner.react sides sense (drop 12 (command_block command))
  = (Some p, st, sides', sense') ->
  st = 0 \/ st = 2 -> (st = 2 -> length sense' = 18%nat) ->
  exists buffer',
    @send_command _ usbhost (Scanner.Usb.Bus sides sense Scanner.Usb.Idle e)
       SG_DXFER_FROM_DEV command clen (Some buffer) dsz rs 0
    = (st, Some buffer',
       (if st =? 0 then memset rs 0 0 18 else (u8 <$> sense') ++ drop 18 rs),
       Scanner.Usb.Bus sides' sense' Scanner.Usb.Idle e).
Proof.
  intros Hn Hc Hdsz Hreact Hst Hsense.
  unfold send_command.
  assert (Hdir : (if (if Some buffer is None then true else false) || (dsz =? 0)
                  then CMD_NONE
                  else if SG_DXFER_FROM_DEV =? SG_DXFER_TO_DEV then CMD_OUT else CMD_IN)
                 = CMD_IN).
  { destruct (Z.eqb_spec dsz 0); [lia | reflexivity]. }
  rewrite Hdir. clear Hdir.
  rewrite (scanner_exchange h ind sides sense e command clen (Some buffer) dsz _ _ 0
             p st sides' sense'); try assumption; try lia.
  2:{ rewrite length_alloca_scanner; unfold sizeof_bulk_header, MAX_CMD_SIZE;
      destruct (dsz >? 12) eqn:E; lia. }
  cbv zeta. cbn [status dir data data_size].
  change (CMD_IN =? CMD_IN) with true. cbv iota.
  destruct Hst as [-> | ->].
  - change (0 =? -2) with false. change (0 <? -1) with false.
    change (negb (0 =? 0)) with false. cbv iota.
    eexists. reflexivity.
  - change (0 =? -2) with false. change (0 <? -1) with false.
    change (negb (2 =? 0)) with true. cbv iota.
    assert (H24 : (24 <= length (@alloca _ usbhost (sizeof_bulk_header + RESPONSE_SIZE)))%nat).
    { rewrite length_alloca_scanner; unfold sizeof_bulk_header, RESPONSE_SIZE; lia. }
    assert (H12 : (length request_sense_command <= 12)%nat) by (simpl; lia).
    assert (H0 : 0 <= RESPONSE_SIZE) by (unfold RESPONSE_SIZE; lia).
    change [REQUEST_SENSE; 0; 0; 0; RESPONSE_SIZE; 0] with request_sense_command.
    rewrite (scanner_exchange h ind sides' sense' e request_sense_command 6 None
               RESPONSE_SIZE _ _ 0 sense' 0 sides' sense' H24 eq_refl H12 H0
               (react_request_sense sides' sense') (or_introl eq_refl)).
    cbv zeta. cbn [data_size].
    change ((0 <? -1) || (RESPONSE_SIZE =? 0)) with false. cbv iota.
    change (12 + RESPONSE_SIZE) with 30.
    rewrite sense_copied by (reflexivity || exact (Hsense eq_refl)).
    eexists. reflexivity.
Qed.

(** A read of 64 KiB while more than 64 KiB of the side remain: good
    status, and the scanner keeps the rest of the side. *)
Lemma scanner_read_full img rest sense e q1 q2 buffer rs :
  0x10000 < Z.of_nat (length img) ->
  exists buffer',
    @kvs3105_read _ usbhost (Scanner.Usb.Bus (img :: rest) sense Scanner.Usb.Idle e)
       KVS3105_READ_IMAGE q1 q2 buffer 0x10000 rs
    = (0, buffer', memset rs 0 0 18,
       Scanner.Usb.Bus (drop (Z.to_nat 0x10000) img :: rest) sense Scanner.Usb.Idle e).
Proof.
  intros HN. unfold kvs3105_read.
  fold (read_command KVS3105_READ_IMAGE q1 q2 0x10000).
  pose proof (react_read_image img rest sense q1 q2) as Hreact.
  destruct (Z.ltb_spec 0x10000 (Z.of_nat (length img))) as [_|]; [|lia].
  destruct (scanner_send_command_in (img :: rest) sense e
              (read_command KVS3105_READ_IMAGE q1 q2 0x10000) 10 buffer 0x10000 rs
              (take (Z.to_nat 0x10000) img) 0 (drop (Z.to_nat 0x10000) img :: rest)
              sense eq_refl) as [buffer' ->];
    [simpl; lia | lia | exact Hreact | left; reflexivity | discriminate |].
  eexists. reflexivity.
Qed.

(** A read of 64 KiB when at most 64 KiB of the side remain: check
    condition, the sense data of the short read in the request-sense
    buffer, and the scanner is done with the side. *)
Lemma scanner_read_last img rest sense e q1 q2 buffer rs :
  Z.of_nat (length img) <= 0x10000 ->
  let sense' := Scanner.eom_sense (0x10000 - Z.of_nat (length img)) in
  exists buffer',
    @kvs3105_read _ usbhost (Scanner.Usb.Bus (img :: rest) sense Scanner.Usb.Idle e)
       KVS3105_READ_IMAGE q1 q2 buffer 0x10000 rs
    = (2, buffer', (u8 <$> sense') ++ drop 18 rs,
       Scanner.Usb.Bus rest sense' Scanner.Usb.Idle e).
Proof.
  intros HN sense'. unfold kvs3105_read.
  fold (read_command KVS3105_READ_IMAGE q1 q2 0x10000).
  pose proof (react_read_image img rest sense q1 q2) as Hreact.
  destruct (Z.ltb_spec 0x10000 (Z.of_nat (length img))) as [|_]; [lia|].
  destruct (scanner_send_command_in (img :: rest) sense e
              (read_command KVS3105_READ_IMAGE q1 q2 0x10000) 10 buffer 0x10000 rs
              img 2 rest sense' eq_refl) as [buffer' ->];
    [simpl; lia | lia | exact Hreact | right; reflexivity | reflexivity |].
  eexists. reflexivity.
Qed.

Lemma scanner_read_data_full img rest sense e page back buffer rs :
  0x10000 < Z.of_nat (length img) ->
  exists buffer',
    @kvs3105_read_data _ usbhost (Scanner.Usb.Bus (img :: rest) sense Scanner.Usb.Idle e)
       page back buffer KVS3105_BUFFER_SIZE rs
    = (0, Some (0x10000, 0), buffer', memset rs 0 0 18,
       Scanner.Usb.Bus (drop (Z.to_nat 0x10000) img :: rest) sense Scanner.Usb.Idle e).
Proof.
  intros HN. unfold kvs3105_read_data.
  change (if kMaxBuffer <? KVS3105_BUFFER_SIZE then kMaxBuffer else KVS3105_BUFFER_SIZE)
    with 0x10000.
  destruct (scanner_read_full img rest sense e (u8 page)
              (if u8 back =? 0 then 0 else 0x80) buffer rs HN) as [buffer' ->].
  eexists. reflexivity.
Qed.

Lemma scanner_read_data_last img rest sense e page back buffer rs :
  0 < Z.of_nat (length img) <= 0x10000 ->
  let sense' := Scanner.eom_sense (0x10000 - Z.of_nat (length img)) in
  exists buffer',
    @kvs3105_read_data _ usbhost (Scanner.Usb.Bus (img :: rest) sense Scanner.Usb.Idle e)
       page back buffer KVS3105_BUFFER_SIZE rs
    = (0, Some (Z.of_nat (length img), 1), buffer', (u8 <$> sense') ++ drop 18 rs,
       Scanner.Usb.Bus rest sense' Scanner.Usb.Idle e).
Proof.
  intros HN sense'.
  destruct (scanner_read_last img rest sense e (u8 page)
              (if u8 back =? 0 then 0 else 0x80) buffer rs) as [buffer' E]; [lia|].
  fold sense' in E.
  exists buffer'.
  rewrite (kvs3105_read_data_short _ page back buffer KVS3105_BUFFER_SIZE rs
             2 buffer' ((u8 <$> sense') ++ drop 18 rs)
             (Scanner.Usb.Bus rest sense' Scanner.Usb.Idle e)).
  - change (if kMaxBuffer <? KVS3105_BUFFER_SIZE then kMaxBuffer else KVS3105_BUFFER_SIZE)
      with 0x10000.
    rewrite (eom_sense_residual (0x10000 - Z.of_nat (length img))) by lia.
    rewrite u32_small by lia.
    replace (0x10000 - (0x10000 - Z.of_nat (length img))) with (Z.of_nat (length img))
      by lia.
    reflexivity.
  - exact E.
  - discriminate.
  - reflexivity.
  - reflexivity.
Qed.

(** Draining a side of [N] bytes, [k-1] full chunks short of its end. *)
Lemma scanner_drain (k : nat) :
  forall img rest sense e page side buffer rs log reads fuel,
    (1 <= k <= fuel)%nat ->
    (Z.of_nat k - 1) * 0x10000 < Z.of_nat (length img) <= Z.of_nat k * 0x10000 ->
    let last := Z.of_nat (length img) - (Z.of_nat k - 1) * 0x10000 in
    exists buffer' rs',
      @main_drain _ usbhost fuel (Scanner.Usb.Bus (img :: rest) sense Scanner.Usb.Idle e)
         page side buffer rs log reads
      = Some (0, buffer', rs', log ++ replicate k (ReadData page side),
              reads ++ replicate (k - 1) (0x10000, 0) ++ [(last, 1)],
              Scanner.Usb.Bus rest (Scanner.eom_sense (0x10000 - last))
                              Scanner.Usb.Idle e).
Proof.
  induction k as [|k IH];
    intros img rest sense e page side buffer rs log reads fuel Hk HN last; [lia|].
  destruct fuel as [|fuel]; [lia|].
  cbn [main_drain].
  destruct k as [|k].
  - (* the last chunk *)
    destruct (scanner_read_data_last img rest sense e page side buffer rs)
      as [buffer' ->]; [lia|].
    unfold default, from_option, id. cbv beta iota zeta.
    change (negb (1 =? 0)) with true. cbv iota. subst last.
    replace (Z.of_nat (length img) - (Z.of_nat 1 - 1) * 0x10000)
      with (Z.of_nat (length img)) by lia.
    eexists _, _. reflexivity.
  - (* a full chunk, then the rest *)
    destruct (scanner_read_data_full img rest sense e page side buffer rs)
      as [buffer' ->]; [lia|].
    unfold default, from_option, id. cbv beta iota zeta.
    change (negb (0 =? 0)) with false. cbv iota.
    destruct (IH (drop (Z.to_nat 0x10000) img) rest sense e page side buffer'
                (memset rs 0 0 18) (log ++ [ReadData page side])
                (reads ++ [(0x10000, 0)]) fuel) as (buffer'' & rs'' & ->).
    + lia.
    + rewrite length_drop. lia.
    + rewrite length_drop. subst last.
      replace (Z.of_nat (length img - Z.to_nat 0x10000) - (Z.of_nat (S k) - 1) * 0x10000)
        with (Z.of_nat (length img) - (Z.of_nat (S (S k)) - 1) * 0x10000) by lia.
      eexists _, _. rewrite <- !app_assoc.
      replace (S (S k) - 1)%nat with (S (S k - 1)) by lia.
      reflexivity.
Qed.

End ScannerUsbRead.

(** ** The scanner of the specification, behind the SCSI-generic ioctl *)

Lemma react_read_image_sg img rest sense q1 q2 :
  Scanner.react (img :: rest) sense (read_command 0 q1 q2 0x10000)
  = if 0x10000 <? Z.of_nat (length img)
    then (Some (take (Z.to_nat 0x10000) img), 0,
          drop (Z.to_nat 0x10000) img :: rest, sense)
    else (Some img, 2, rest, Scanner.eom_sense (0x10000 - Z.of_nat (length img))).
Proof. reflexivity. Qed.

Section ScannerSgRead.
Import KVSS905C.
Variables (h : endianness) (ind : nat -> list Z).

Local Abbreviation G := (Scanner.Sg.sgio h ind).

Lemma sg_scanner_read_full img rest e q1 q2 buffer rs :
  0x10000 < Z.of_nat (length img) ->
  exists buffer',
    @kvss905c_read _ G (Scanner.Sg.Dev (img :: rest) e)
       KVSS905C_READ_IMAGE q1 q2 buffer 0x10000 rs
    = (0, buffer', rs, Scanner.Sg.Dev (drop (Z.to_nat 0x10000) img :: rest) e).
Proof.
  intros HN. unfold kvss905c_read, scsi_command.
  fold (read_command KVSS905C_READ_IMAGE q1 q2 0x10000).
  cbn [scsi_command_loop]. unfold ioctl_SG_IO at 1.
  change (@ioctl _ G) with Scanner.Sg.do_ioctl.
  unfold Scanner.Sg.do_ioctl at 1.
  cbn [cmdp Scanner.Sg.sides Scanner.Sg.elapsed].
  rewrite react_read_image_sg.
  destruct (Z.ltb_spec 0x10000 (Z.of_nat (length img))) as [_|]; [|lia].
  cbn [io_ret io_masked_status io_sense io_data mx_sb_len dxfer_len dxfer_direction dxferp].
  change (negb (0 =? 0)) with false. cbv iota.
  change (negb (u8 (Z.shiftr 0 1) =? 0)) with false. cbv iota.
  eexists. reflexivity.
Qed.

Lemma sg_scanner_read_last img rest e q1 q2 buffer rs :
  Z.of_nat (length img) <= 0x10000 ->
  let sense' := Scanner.eom_sense (0x10000 - Z.of_nat (length img)) in
  exists buffer',
    @kvss905c_read _ G (Scanner.Sg.Dev (img :: rest) e)
       KVSS905C_READ_IMAGE q1 q2 buffer 0x10000 rs
    = (2, buffer', (u8 <$> sense') ++ drop 18 rs, Scanner.Sg.Dev rest e).
Proof.
  intros HN sense'. unfold kvss905c_read, scsi_command.
  fold (read_command KVSS905C_READ_IMAGE q1 q2 0x10000).
  cbn [scsi_command_loop]. unfold ioctl_SG_IO at 1.
  change (@ioctl _ G) with Scanner.Sg.do_ioctl.
  unfold Scanner.Sg.do_ioctl at 1.
  cbn [cmdp Scanner.Sg.sides Scanner.Sg.elapsed].
  rewrite react_read_image_sg.
  destruct (Z.ltb_spec 0x10000 (Z.of_nat (length img))) as [|_]; [lia|].
  fold sense'.
  cbn [io_ret io_masked_status io_sense io_data mx_sb_len dxfer_len dxfer_direction dxferp].
  change (negb (0 =? 0)) with false. cbv iota.
  change (negb (u8 (Z.shiftr 2 1) =? 0)) with true. cbv iota.
  match goal with
  | |- context [negb (scsi_transient_error ?x =? 0)] =>
      change (negb (scsi_transient_error x =? 0)) with false
  end.
  cbv iota.
  eexists. reflexivity.
Qed.

Lemma sg_scanner_read_data_full img rest e page back buffer rs :
  0x10000 < Z.of_nat (length img) ->
  exists buffer',
    @kvss905c_read_data _ G (Scanner.Sg.Dev (img :: rest) e)
       page back buffer KVSS905C_BUFFER_SIZE rs
    = (0, Some (0x10000, 0), buffer', rs,
       Scanner.Sg.Dev (drop (Z.to_nat 0x10000) img :: rest) e).
Proof.
  intros HN. unfold kvss905c_read_data.
  change (if kMaxBuffer <? KVSS905C_BUFFER_SIZE then kMaxBuffer else KVSS905C_BUFFER_SIZE)
    with 0x10000.
  destruct (sg_scanner_read_full img rest e (u8 page)
              (if u8 back =? 0 then 0 else 0x80) buffer rs HN) as [buffer' ->].
  eexists. reflexivity.
Qed.

Lemma sg_scanner_read_data_last img rest e page back buffer rs :
  0 < Z.of_nat (length img) <= 0x10000 ->
  let sense' := Scanner.eom_sense (0x10000 - Z.of_nat (length img)) in
  exists buffer',
    @kvss905c_read_data _ G (Scanner.Sg.Dev (img :: rest) e)
       page back buffer KVSS905C_BUFFER_SIZE rs
    = (0, Some (Z.of_nat (length img), 1), buffer', (u8 <$> sense') ++ drop 18 rs,
       Scanner.Sg.Dev rest e).
Proof.
  intros HN sense'.
  destruct (sg_scanner_read_last img rest e (u8 page)
              (if u8 back =? 0 then 0 else 0x80) buffer rs) as [buffer' E]; [lia|].
  fold sense' in E.
  exists buffer'.
  rewrite (kvss905c_read_data_failed _ page back buffer KVSS905C_BUFFER_SIZE rs
             2 buffer' ((u8 <$> sense') ++ drop 18 rs) (Scanner.Sg.Dev rest e)).
  - change (rd ((u8 <$> sense') ++ drop 18 rs) 2 =? 0x60) with true. cbv iota.
    change (if kMaxBuffer <? KVSS905C_BUFFER_SIZE then kMaxBuffer else KVSS905C_BUFFER_SIZE)
      with 0x10000.
    subst sense'.
    rewrite (eom_sense_residual (0x10000 - Z.of_nat (length img))) by lia.
    rewrite u32_small by lia.
    replace (0x10000 - (0x10000 - Z.of_nat (length img))) with (Z.of_nat (length img))
      by lia.
    reflexivity.
  - exact E.
  - discriminate.
  - reflexivity.
Qed.

Lemma sg_scanner_drain (k : nat) :
  forall img rest e page side buffer rs log reads fuel,
    (1 <= k <= fuel)%nat ->
    (Z.of_nat k - 1) * 0x10000 < Z.of_nat (length img) <= Z.of_nat k * 0x10000 ->
    let last := Z.of_nat (length img) - (Z.of_nat k - 1) * 0x10000 in
    exists buffer' rs',
      @main_drain _ G fuel (Scanner.Sg.Dev (img :: rest) e)
         page side buffer rs log reads
      = Some (0, buffer', rs', log ++ replicate k (ReadData page side),
              reads ++ replicate (k - 1) (0x10000, 0) ++ [(last, 1)],
              Scanner.Sg.Dev rest e).
Proof.
  induction k as [|k IH];
    intros img rest e page side buffer rs log reads fuel Hk HN last; [lia|].
  destruct fuel as [|fuel]; [lia|].
  cbn [main_drain].
  destruct k as [|k].
  - destruct (sg_scanner_read_data_last img rest e page side buffer rs)
      as [buffer' ->]; [lia|].
    unfold default, from_option, id. cbv beta iota zeta.
    change (negb (1 =? 0)) with true. cbv iota. subst last.
    replace (Z.of_nat (length img) - (Z.of_nat 1 - 1) * 0x10000)
      with (Z.of_nat (length img)) by lia.
    eexists _, _. reflexivity.
  - destruct (sg_scanner_read_data_full img rest e page side buffer rs)
      as [buffer' ->]; [lia|].
    unfold default, from_option, id. cbv beta iota zeta.
    change (negb (0 =? 0)) with false. cbv iota.
    destruct (IH (drop (Z.to_nat 0x10000) img) rest e page side buffer'
                rs (log ++ [ReadData page side])
                (reads ++ [(0x10000, 0)]) fuel) as (buffer'' & rs'' & ->).
    + lia.
    + rewrite length_drop. lia.
    + rewrite length_drop. subst last.
      replace (Z.of_nat (length img - Z.to_nat 0x10000) - (Z.of_nat (S k) - 1) * 0x10000)
        with (Z.of_nat (length img) - (Z.of_nat (S (S k)) - 1) * 0x10000) by lia.
      eexists _, _. rewrite <- !app_assoc.
      replace (S (S k) - 1)%nat with (S (S k - 1)) by lia.
      reflexivity.
Qed.

End ScannerSgRead.

(** ** Draining a page *)

Lemma chunks_bounds N :
  0 < N ->
  (1 <= chunks N)%nat /\
  (Z.of_nat (chunks N) - 1) * 0x10000 < N <= Z.of_nat (chunks N) * 0x10000.
Proof.
  intros HN. unfold chunks.
  assert (Hq : 1 <= (N + 0x10000 - 1) / 0x10000) by euclid.
  rewrite Z2Nat.id by lia. split; [lia | euclid].
Qed.

Lemma total_full_chunks (k : nat) (last : Z) :
  total (replicate k (0x10000, 0) ++ [(last, 1)]) = Z.of_nat k * 0x10000 + last.
Proof.
  unfold total. induction k as [|k IH].
  - simpl. lia.
  - cbn [replicate app fmap list_fmap foldr fst] in *. rewrite IH. lia.
Qed.

Section Kvs3105DrainStops.
Import KVS3105.
Context `{Libusb bus}.

(** The drain loop is left with 0 at the first read that reports
    end-of-page: the reads before it reported none. *)
Lemma kvs3105_drain_stops fuel :
  forall (b : bus) page side buffer rs log reads buffer' rs' log' reads' b',
    main_drain fuel b page side buffer rs log reads
    = Some (0, buffer', rs', log', reads', b') ->
    exists init n eop,
      reads' = reads ++ init ++ [(n, eop)] /\
      Forall (fun r => r.2 = 0) init /\ eop <> 0 /\
      log' = log ++ replicate (S (length init)) (ReadData page side).
Proof.
  induction fuel as [|fuel IH];
    intros b page side buffer rs log reads buffer' rs' log' reads' b' Hm;
    [discriminate Hm|].
  cbn [main_drain] in Hm.
  destruct (kvs3105_read_data b page side buffer KVS3105_BUFFER_SIZE rs)
    as [[[[r out] buffer1] rs1] b1].
  destruct (negb (r =? 0)); [discriminate Hm|].
  destruct (default (0, 0) out) as [written eop].
  destruct (Z.eqb_spec eop 0) as [E0|Heop]; cbn [negb] in Hm.
  - subst eop.
    apply IH in Hm as (init & n & eop & -> & Hinit & Heop & ->).
    exists ((written, 0) :: init), n, eop.
    rewrite <- !app_assoc. cbn [app length replicate].
    repeat split; [constructor; [reflexivity | exact Hinit] | exact Heop].
  - injection Hm as <- <- <- <- <-.
    exists [], written, eop. repeat split; [constructor | exact Heop].
Qed.

End Kvs3105DrainStops.

Section Kvss905cDrainStops.
Import KVSS905C.
Context `{SgIo sg}.

Lemma kvss905c_drain_stops fuel :
  forall (g : sg) page side buffer rs log reads buffer' rs' log' reads' g',
    main_drain fuel g page side buffer rs log reads
    = Some (0, buffer', rs', log', reads', g') ->
    exists init n eop,
      reads' = reads ++ init ++ [(n, eop)] /\
      Forall (fun r => r.2 = 0) init /\ eop <> 0 /\
      log' = log ++ replicate (S (length init)) (ReadData page side).
Proof.
  induction fuel as [|fuel IH];
    intros g page side buffer rs log reads buffer' rs' log' reads' g' Hm;
    [discriminate Hm|].
  cbn [main_drain] in Hm.
  destruct (kvss905c_read_data g page side buffer KVSS905C_BUFFER_SIZE rs)
    as [[[[r out] buffer1] rs1] g1].
  destruct (negb (r =? 0)); [discriminate Hm|].
  destruct (default (0, 0) out) as [written eop].
  destruct (Z.eqb_spec eop 0) as [E0|Heop]; cbn [negb] in Hm.
  - subst eop.
    apply IH in Hm as (init & n & eop & -> & Hinit & Heop & ->).
    exists ((written, 0) :: init), n, eop.
    rewrite <- !app_assoc. cbn [app length replicate].
    repeat split; [constructor; [reflexivity | exact Hinit] | exact Heop].
  - injection Hm as <- <- <- <- <-.
    exists [], written, eop. repeat split; [constructor | exact Heop].
Qed.

End Kvss905cDrainStops.

(** C1, as the drivers are.  On every device, in both drivers, the drain
    loop of [main] that is left with 0 stopped at the first read that
    reported end-of-page, whatever the byte counts: every read before it
    reported none, and one [read_data] call was made per read.  Against the
    scanner of the specification, which ends a side on the read that takes
    its last byte (end-of-medium and incorrect-length sense with the
    residual, 0 when that read is a full chunk), a side of [N > 0] bytes is
    drained in exactly ceil(N / 64 KiB) calls of [read_data]; the byte
    counts returned add up to [N]; every read but the last returns a full
    64 KiB chunk without end-of-page; the last read returns the
    [N - (k - 1) * 64 KiB] bytes that are left with end-of-page set, and
    the scanner has nothing left of that side.  The last read is short
    exactly when [N] is not a multiple of 64 KiB; when it is a multiple,
    no read is short. *)
Theorem drain_page_in_chunks
    (h : endianness) (ind : nat -> list Z) (img : list Z) (rest : list (list Z))
    (sense : list Z) (e page side : Z) (buffer requestsense : list Z) :
  let N := Z.of_nat (length img) in
  let k := chunks N in
  0 < N ->
  (exists reads : list (Z * Z),
    (exists buffer' rs' b',
        @KVS3105.main_drain _ (Scanner.Usb.libusb h ind) k
           (Scanner.Usb.Bus (img :: rest) sense Scanner.Usb.Idle e)
           page side buffer requestsense [] []
        = Some (0, buffer', rs', replicate k (KVS3105.ReadData page side), reads, b') /\
        Scanner.Usb.sides b' = rest) /\
    (exists buffer' rs' g',
        @KVSS905C.main_drain _ (Scanner.Sg.sgio h ind) k
           (Scanner.Sg.Dev (img :: rest) e)
           page side buffer requestsense [] []
        = Some (0, buffer', rs', replicate k (KVSS905C.ReadData page side), reads, g') /\
        Scanner.Sg.sides g' = rest) /\
    length reads = k /\
    total reads = N /\
    (exists last,
        reads = replicate (k - 1) (0x10000, 0) ++ [(last, 1)] /\
        last = N - (Z.of_nat k - 1) * 0x10000 /\
        0 < last <= 0x10000 /\
        (last < 0x10000 <-> N mod 0x10000 <> 0))) /\
  (forall (bus : Type) (L : KVS3105.Libusb bus) fuel (b : bus) page side buffer rs
          buffer' rs' log' reads' b',
      KVS3105.main_drain fuel b page side buffer rs [] []
      = Some (0, buffer', rs', log', reads', b') ->
      exists init n eop,
        reads' = init ++ [(n, eop)] /\ Forall (fun r => r.2 = 0) init /\ eop <> 0 /\
        log' = replicate (length reads') (KVS3105.ReadData page side)) /\
  (forall (sg : Type) (G : KVSS905C.SgIo sg) fuel (g : sg) page side buffer rs
          buffer' rs' log' reads' g',
      KVSS905C.main_drain fuel g page side buffer rs [] []
      = Some (0, buffer', rs', log', reads', g') ->
      exists init n eop,
        reads' = init ++ [(n, eop)] /\ Forall (fun r => r.2 = 0) init /\ eop <> 0 /\
        log' = replicate (length reads') (KVSS905C.ReadData page side)).
Proof.
  intros N k HN.
  destruct (chunks_bounds N HN) as [Hk1 Hk]. fold k in Hk1, Hk.
  set (last := N - (Z.of_nat k - 1) * 0x10000).
  split; [|split].
  - exists (replicate (k - 1) (0x10000, 0) ++ [(last, 1)]).
    split; [|split; [|split; [|split]]].
    + destruct (scanner_drain h ind k img rest sense e page side buffer requestsense
                  [] [] k) as (buffer' & rs' & E); [lia | exact Hk |].
      exists buffer', rs'. eexists. split; [exact E | reflexivity].
    + destruct (sg_scanner_drain h ind k img rest e page side buffer requestsense
                  [] [] k) as (buffer' & rs' & E); [lia | exact Hk |].
      exists buffer', rs'. eexists. split; [exact E | reflexivity].
    + rewrite length_app, length_replicate. simpl. lia.
    + rewrite total_full_chunks. subst last. lia.
    + exists last. split; [reflexivity|]. split; [reflexivity|].
      split; [subst last; lia|].
      subst last. split; intros Hl; euclid.
  - intros bus L fuel b page0 side0 buffer0 rs buffer' rs' log' reads' b' Hm.
    apply kvs3105_drain_stops in Hm as (init & n & eop & -> & Hinit & Heop & ->).
    exists init, n, eop. cbn [app].
    repeat split; [exact Hinit | exact Heop |].
    rewrite length_app. cbn [length]. f_equal. lia.
  - intros sg G fuel g page0 side0 buffer0 rs buffer' rs' log' reads' g' Hm.
    apply kvss905c_drain_stops in Hm as (init & n & eop & -> & Hinit & Heop & ->).
    exists init, n, eop. cbn [app].
    repeat split; [exact Hinit | exact Heop |].
    rewrite length_app. cbn [length]. f_equal. lia.
Qed.

Lemma drain_page_in_chunks_witness :
  let img := replicate (Z.to_nat 0x10000) 7 ++ [1; 2; 3] in
  exists reads : list (Z * Z),
    (exists buffer' rs' b',
        @KVS3105.main_drain _ (Scanner.Usb.libusb LittleEndian (fun _ => [])) 2
           (Scanner.Usb.Bus [img] (replicate 18 0) Scanner.Usb.Idle 0)
           0 0 (replicate (Z.to_nat 0x10000) 0) (replicate 20 0) [] []
        = Some (0, buffer', rs', replicate 2 (KVS3105.ReadData 0 0), reads, b')) /\
    total reads = 0x10000 + 3.
Proof.
  intros img.
  assert (Hlen : Z.of_nat (length img) = 0x10000 + 3).
  { subst img. rewrite length_app, length_replicate. simpl length. lia. }
  assert (HN : 0 < Z.of_nat (length img)) by lia.
  assert (Hk : chunks (Z.of_nat (length img)) = 2%nat).
  { rewrite Hlen. reflexivity. }
  destruct (drain_page_in_chunks LittleEndian (fun _ => []) img [] (replicate 18 0) 0
              0 0 (replicate (Z.to_nat 0x10000) 0) (replicate 20 0) HN)
    as ((reads & (buffer' & rs' & b' & Hu & _) & _ & _ & Htotal & _) & _).
  rewrite Hk in Hu. rewrite Hlen in Htotal.
  exists reads. split; [|exact Htotal].
  exists buffer', rs', b'. exact Hu.
Defined.

(** C1 as stated does not hold for a side whose size is a multiple of
    64 KiB; here a side of exactly 64 KiB, for which ceil(N / 64 KiB) is 1.
    Against the scanner of the specification both drivers drain it in one
    read, which returns the full 64 KiB with end-of-page: the last read is
    not short.  Against a device that answers the full chunk with good
    status, a full chunk meaning that more data remains, both drivers need
    a second read, which returns no byte: two reads, not one. *)
Lemma drain_page_last_read_not_short :
  chunks (Z.of_nat (length one_chunk_page)) = 1%nat /\
  reads_of (@KVS3105.main_drain _ (Scanner.Usb.libusb LittleEndian (fun _ => [])) 5
              (Scanner.Usb.Bus [one_chunk_page] (replicate 18 0) Scanner.Usb.Idle 0)
              0 0 (replicate (Z.to_nat 0x10000) 0) (replicate 20 0) [] [])
  = [(0x10000, 1)] /\
  reads_of (@KVSS905C.main_drain _ (Scanner.Sg.sgio LittleEndian (fun _ => [])) 5
              (Scanner.Sg.Dev [one_chunk_page] 0)
              0 0 (replicate (Z.to_nat 0x10000) 0) (replicate 20 0) [] [])
  = [(0x10000, 1)] /\
  reads_of (@KVS3105.main_drain _ (ScriptedUsb.libusb LittleEndian (fun _ => [])) 5
              one_chunk_then_empty_usb
              0 0 (replicate (Z.to_nat 0x10000) 0) (replicate 20 0) [] [])
  = [(0x10000, 0); (0, 1)] /\
  reads_of (@KVSS905C.main_drain _ (ScriptedSg.sgio LittleEndian (fun _ => [])) 5
              one_chunk_then_empty_sg
              0 0 (replicate (Z.to_nat 0x10000) 0) (replicate 20 0) [] [])
  = [(0x10000, 0); (0, 1)].
Proof.
  split; [|split; [|split; [|split]]]; vm_compute; reflexivity.
Qed.

(** ** A block against the scanner of the specification *)

(** Three bytes assembled most significant first. *)
Lemma tribyte_value n :
  0 <= n < 16777216 ->
  Z.lor (Z.lor (Z.shiftl (byte_n n 2) 16) (Z.shiftl (byte_n n 1) 8)) (byte_n n 0) = n.
Proof.
  intros Hn.
  pose proof (byte_n_range n 0). pose proof (byte_n_range n 1).
  pose proof (byte_n_range n 2).
  rewrite !Z.shiftl_mul_pow2 by lia.
  change (2 ^ 16) with 65536. change (2 ^ 8) with 256.
  rewrite (lor_disjoint (byte_n n 2 * 65536) (byte_n n 1 * 256) 16)
    by (change (2 ^ 16) with 65536; euclid).
  rewrite (lor_disjoint _ (byte_n n 0) 8) by (change (2 ^ 8) with 256; euclid).
  rewrite byte_n_0, byte_n_1, byte_n_2. euclid.
Qed.

(** The data a command block leaves in the caller's buffer when its data
    phase delivers exactly the bytes asked for. *)
Lemma data_copied (buffer cb header p : list Z) (dsz : Z) :
  length header = 12%nat -> length p = Z.to_nat dsz -> 0 <= dsz ->
  let received := take (Z.to_nat (12 + dsz)) (u8 <$> (header ++ p)) in
  memcpy buffer 0 (drop 12 (memcpy cb 0 received (length received))) (Z.to_nat dsz)
  = (u8 <$> p) ++ drop (Z.to_nat dsz) buffer.
Proof.
  intros Hh Hp Hdsz received.
  assert (Hr : received = (u8 <$> header) ++ (u8 <$> p)).
  { subst received. rewrite fmap_app. apply take_ge.
    rewrite length_app, !length_fmap, Hh, Hp. lia. }
  rewrite Hr. clear Hr received.
  unfold memcpy. rewrite !take_0, !app_nil_l.
  rewrite (take_ge ((u8 <$> header) ++ (u8 <$> p))) by lia.
  rewrite <- (app_assoc (u8 <$> header)).
  rewrite (drop_app_length' (u8 <$> header)) by (rewrite length_fmap; symmetry; exact Hh).
  rewrite (take_app_length' (u8 <$> p)) by (rewrite length_fmap; symmetry; exact Hp).
  reflexivity.
Qed.

Section ScannerUsbBlock.
Import KVS3105.
Variables (h : endianness) (ind : nat -> list Z).

Local Abbreviation usbhost := (Scanner.Usb.libusb h ind).

(** [send_command] for a command whose data phase the scanner answers in
    full with good status. *)
Lemma scanner_send_command_good sides sense e command clen buffer dsz rs
    p sides' sense' :
  Z.to_nat clen = length command -> (length command <= 12)%nat -> 0 < dsz ->
  length p = Z.to_nat dsz ->
  Scanner.react sides sense (drop 12 (command_block command))
  = (Some p, 0, sides', sense') ->
  @send_command _ usbhost (Scanner.Usb.Bus sides sense Scanner.Usb.Idle e)
     SG_DXFER_FROM_DEV command clen (Some buffer) dsz rs 0
  = (0, Some ((u8 <$> p) ++ drop (Z.to_nat dsz) buffer), memset rs 0 0 18,
     Scanner.Usb.Bus sides' sense' Scanner.Usb.Idle e).
Proof.
  intros Hn Hc Hdsz Hp Hreact.
  unfold send_command.
  assert (Hdir : (if (if Some buffer is None then true else false) || (dsz =? 0)
                  then CMD_NONE
                  else if SG_DXFER_FROM_DEV =? SG_DXFER_TO_DEV then CMD_OUT else CMD_IN)
                 = CMD_IN).
  { destruct (Z.eqb_spec dsz 0); [lia | reflexivity]. }
  rewrite Hdir. clear Hdir.
  assert (Hbuf : (24 <= length (@alloca _ usbhost
                      (sizeof_bulk_header +
                       (if dsz >? MAX_CMD_SIZE then dsz else MAX_CMD_SIZE))))%nat).
  { rewrite length_alloca_scanner; unfold sizeof_bulk_header, MAX_CMD_SIZE;
      destruct (dsz >? 12) eqn:E; lia. }
  rewrite (scanner_exchange h ind sides sense e command clen (Some buffer) dsz _ _ 0
             p 0 sides' sense' Hbuf Hn Hc (Z.lt_le_incl _ _ Hdsz) Hreact
             (or_introl eq_refl)).
  cbv zeta. cbn [status dir data data_size].
  change (CMD_IN =? CMD_IN) with true. cbv iota.
  change (0 =? -2) with false. change (0 <? -1) with false.
  change (negb (0 =? 0)) with false. cbv iota.
  unfold default, from_option, id. cbv beta iota.
  rewrite data_copied; [reflexivity | reflexivity | exact Hp | lia].
Qed.

(** GET DATA BUFFER STATUS reports the bytes left of the side the scanner
    is at, up to what 24 bits hold. *)
Lemma scanner_buffer_status sides sense e rs :
  @get_data_buffer_status _ usbhost (Scanner.Usb.Bus sides sense Scanner.Usb.Idle e) rs
  = (0, Some (0, Z.min (Z.of_nat (length (default [] (head sides)))) 0xffffff),
     memset rs 0 0 18, Scanner.Usb.Bus sides sense Scanner.Usb.Idle e).
Proof.
  set (n := Z.min (Z.of_nat (length (default [] (head sides)))) 0xffffff).
  rewrite (kvs3105_buffer_status_decodes _ rs
             ((u8 <$> Scanner.buffer_status sides) ++ drop 12 (@alloca _ usbhost 12))
             (memset rs 0 0 18) (Scanner.Usb.Bus sides sense Scanner.Usb.Idle e)).
  - unfold Scanner.buffer_status. fold n.
    pose proof (byte_n_range n 0). pose proof (byte_n_range n 1).
    pose proof (byte_n_range n 2).
    unfold rd. cbn [fmap list_fmap app nth].
    rewrite !u8_u8, !(u8_small (byte_n n _)), (u8_small 0) by lia.
    rewrite tribyte_value by lia. reflexivity.
  - apply (scanner_send_command_good sides sense e [0x34; 0; 0; 0; 0; 0; 0; 0; 12; 0] 10
             (@alloca _ usbhost 12) 12 rs (Scanner.buffer_status sides) sides sense);
      try reflexivity; simpl; lia.
Qed.

(** With image data waiting, the buffer wait returns at its first poll. *)
Lemma scanner_wait img rest sense e rs fuel :
  img <> [] ->
  @kvs3105_data_buffer_wait _ usbhost (S fuel)
     (Scanner.Usb.Bus (img :: rest) sense Scanner.Usb.Idle e) rs
  = Some (0, memset rs 0 0 18, Scanner.Usb.Bus (img :: rest) sense Scanner.Usb.Idle e).
Proof.
  intros Himg. cbn [kvs3105_data_buffer_wait].
  rewrite scanner_buffer_status.
  change (negb (0 =? 0)) with false. cbv iota.
  cbn [head default from_option fmap option_fmap option_map snd].
  unfold id.
  destruct (Z.eqb_spec (Z.min (Z.of_nat (length img)) 0xffffff) 0) as [E|_];
    [|reflexivity].
  destruct img; [contradiction | simpl in E; lia].
Qed.

Lemma react_picture_size sides sense q1 q2 :
  Scanner.react sides sense
    (drop 12 (command_block (read_command KVS3105_READ_PICTURE_ELEMENT_SIZE q1 q2 16)))
  = (Some (replicate 16 0), 0, sides, sense).
Proof. reflexivity. Qed.

(** The picture size is answered with good status and leaves the scanner
    as it is. *)
Lemma scanner_picture_size sides sense e page back rs :
  exists size,
    @kvs3105_picture_size _ usbhost (Scanner.Usb.Bus sides sense Scanner.Usb.Idle e)
       page back rs
    = (0, Some size, memset rs 0 0 18, Scanner.Usb.Bus sides sense Scanner.Usb.Idle e).
Proof.
  unfold kvs3105_picture_size, kvs3105_read.
  fold (read_command KVS3105_READ_PICTURE_ELEMENT_SIZE (u8 page)
          (if u8 back =? 0 then 0 else 0x80) 16).
  rewrite (scanner_send_command_good sides sense e
             (read_command KVS3105_READ_PICTURE_ELEMENT_SIZE (u8 page)
                (if u8 back =? 0 then 0 else 0x80) 16)
             10 _ 16 rs (replicate 16 0) sides sense eq_refl);
    [|simpl; lia | lia | reflexivity | apply react_picture_size].
  eexists. reflexivity.
Qed.

(** The block loop against a scanner that holds one side that is not
    empty for every side of the block: it retrieves them all and returns
    0, and the scanner has none left.  [M] bounds the reads a side takes. *)
Lemma scanner_block (K duplex : Z) (M : nat) :
  0 <= K < 4294967296 ->
  forall imgs page side sense e rs log fuel,
    0 <= page -> side = 0 \/ side = 1 ->
    length imgs = length (sides_left duplex K page side) ->
    Forall (fun img => img <> [] /\ (chunks (Z.of_nat (length img)) <= M)%nat) imgs ->
    (length imgs + M < fuel)%nat ->
    exists rs' log' sense',
      @main_block _ usbhost fuel (Scanner.Usb.Bus imgs sense Scanner.Usb.Idle e)
         K duplex page side rs log
      = Some (0, rs', log', Scanner.Usb.Bus [] sense' Scanner.Usb.Idle e).
Proof.
  intros HK.
  induction imgs as [|img imgs IH];
    intros page side sense e rs log fuel Hp Hside Hlen Himgs Hfuel.
  - destruct fuel as [|fuel]; [lia|]. cbn [main_block].
    destruct (Z.ltb_spec page K) as [Hlt|Hge]; cbn [negb].
    + exfalso. destruct (Z.eqb_spec duplex 0) as [->|Hd].
      * rewrite sides_left_simplex in Hlen by lia. discriminate.
      * destruct Hside as [-> | ->];
          [rewrite sides_left_front in Hlen by (assumption || lia)
          |rewrite sides_left_back in Hlen by (assumption || lia)]; discriminate.
    + eexists _, _, _. reflexivity.
  - destruct fuel as [|fuel]; [simpl in Hfuel; lia|]. cbn [main_block].
    destruct (Z.ltb_spec page K) as [Hlt|Hge]; cbn [negb].
    2:{ rewrite sides_left_done in Hlen by lia. discriminate. }
    destruct (scanner_picture_size (img :: imgs) sense e page side rs) as [size ->].
    change (negb (0 =? 0)) with false. cbv iota.
    apply Forall_cons in Himgs as [[Hne Hch] Himgs].
    destruct fuel as [|fuel]; [simpl in Hfuel; lia|].
    rewrite scanner_wait by exact Hne.
    change (negb (0 =? 0)) with false. cbv iota.
    destruct (chunks_bounds (Z.of_nat (length img))) as [Hk1 Hk].
    { destruct img; [contradiction | simpl; lia]. }
    destruct (scanner_drain h ind (chunks (Z.of_nat (length img))) img imgs sense e
                page side (@alloca _ usbhost KVS3105_BUFFER_SIZE)
                (memset (memset rs 0 0 18) 0 0 18)
                ((log ++ [PictureSize page side]) ++ [DataBufferWait]) [] (S fuel))
      as (buffer' & rs' & ->); [simpl in Hfuel; lia | exact Hk |].
    change (negb (0 =? 0)) with false. cbv iota.
    rewrite (u32_small (page + 1)) by lia.
    simpl in Hlen, Hfuel.
    destruct (Z.eqb_spec duplex 0) as [Hd|Hd]; cbn [negb].
    + subst duplex. rewrite sides_left_simplex in Hlen by lia. simpl in Hlen.
      apply IH; [lia | exact Hside | lia | exact Himgs | lia].
    + destruct Hside as [-> | ->]; cbn [Z.eqb negb].
      * rewrite sides_left_front in Hlen by (assumption || lia). simpl in Hlen.
        apply IH; [lia | right; reflexivity | lia | exact Himgs | lia].
      * rewrite sides_left_back in Hlen by (assumption || lia). simpl in Hlen.
        apply IH; [lia | left; reflexivity | lia | exact Himgs | lia].
Qed.

End ScannerUsbBlock.

(** [ntohl] of a value that is not zero is not zero, on either host. *)
Lemma ntohl_nonzero host n : 0 < n < 4294967296 -> ntohl host n <> 0.
Proof.
  intros Hn. unfold ntohl, htonl. rewrite u32_small by lia.
  destruct host; [|lia].
  pose proof (byte_n_range n 0). pose proof (byte_n_range n 1).
  pose proof (byte_n_range n 2). pose proof (byte_n_range n 3).
  pose proof (be_bytes_value n) as Hv.
  remember (byte_n n 0) as a. remember (byte_n n 1) as b.
  remember (byte_n n 2) as c. remember (byte_n n 3) as d.
  assert (Hn' : n = a + b * 256 + c * 65536 + d * 16777216) by lia.
  rewrite Hn', bswap32_bytes by lia. lia.
Qed.

Section ScannerSgBlock.
Import KVSS905C.
Variables (h : endianness) (ind : nat -> list Z).

Local Abbreviation sghost := (Scanner.Sg.sgio h ind).

(** [scsi_command] for a command the scanner answers with data and good
    status: one ioctl, no retry. *)
Lemma sg_scanner_command_good sides e command clen buffer dsz rs p sides' sense' :
  Scanner.react sides [] command = (Some p, 0, sides', sense') ->
  let received := take (Z.to_nat dsz) (u8 <$> p) in
  @scsi_command _ sghost (Scanner.Sg.Dev sides e)
     SG_DXFER_FROM_DEV command clen (Some buffer) dsz rs 0
  = (0, Some (memcpy buffer 0 received (length received)), rs, Scanner.Sg.Dev sides' e).
Proof.
  intros Hreact received. unfold scsi_command.
  cbn [scsi_command_loop]. unfold ioctl_SG_IO at 1.
  change (@ioctl _ sghost) with Scanner.Sg.do_ioctl.
  unfold Scanner.Sg.do_ioctl at 1.
  cbn [cmdp Scanner.Sg.sides Scanner.Sg.elapsed].
  rewrite Hreact.
  cbn [io_ret io_masked_status io_sense io_data mx_sb_len dxfer_len dxfer_direction dxferp].
  change (negb (0 =? 0)) with false. cbv iota.
  change (negb (u8 (Z.shiftr 0 1) =? 0)) with false. cbv iota.
  reflexivity.
Qed.

Lemma sg_scanner_buffer_status sides e rs :
  @get_data_buffer_status _ sghost (Scanner.Sg.Dev sides e) rs
  = (0, Some (0, ntohl h (Z.min (Z.of_nat (length (default [] (head sides)))) 0xffffff)),
     rs, Scanner.Sg.Dev sides e).
Proof.
  set (n := Z.min (Z.of_nat (length (default [] (head sides)))) 0xffffff).
  rewrite (kvss905c_buffer_status_decodes _ rs
             ((u8 <$> Scanner.buffer_status sides) ++ drop 12 (@alloca _ sghost 12))
             rs (Scanner.Sg.Dev sides e)).
  - unfold Scanner.buffer_status. fold n.
    pose proof (byte_n_range n 0). pose proof (byte_n_range n 1).
    pose proof (byte_n_range n 2).
    unfold rd. cbn [fmap list_fmap app nth].
    rewrite !u8_u8, !(u8_small (byte_n n _)), (u8_small 0) by lia.
    rewrite tribyte_value by lia. reflexivity.
  - rewrite (sg_scanner_command_good sides e [0x34; 0; 0; 0; 0; 0; 0; 0; 12; 0] 10
               (@alloca _ sghost 12) 12 rs (Scanner.buffer_status sides) sides [])
      by reflexivity.
    reflexivity.
Qed.

Lemma sg_scanner_wait img rest e rs fuel :
  img <> [] ->
  @kvss905c_data_buffer_wait _ sghost (S fuel) (Scanner.Sg.Dev (img :: rest) e) rs
  = Some (0, rs, Scanner.Sg.Dev (img :: rest) e).
Proof.
  intros Himg. cbn [kvss905c_data_buffer_wait].
  rewrite sg_scanner_buffer_status.
  change (negb (0 =? 0)) with false. cbv iota.
  cbn [head default from_option fmap option_fmap option_map snd].
  unfold id.
  destruct (Z.eqb_spec (ntohl h (Z.min (Z.of_nat (length img)) 0xffffff)) 0) as [E|_];
    [|reflexivity].
  apply ntohl_nonzero in E; [contradiction|].
  destruct img; [contradiction | simpl; lia].
Qed.

Lemma sg_scanner_picture_size sides e page back rs :
  exists size,
    @kvss905c_picture_size _ sghost (Scanner.Sg.Dev sides e) page back rs
    = (0, Some size, rs, Scanner.Sg.Dev sides e).
Proof.
  unfold kvss905c_picture_size, kvss905c_read.
  fold (read_command KVSS905C_READ_PICTURE_ELEMENT_SIZE (u8 page)
          (if u8 back =? 0 then 0 else 0x80) 16).
  rewrite (sg_scanner_command_good sides e
             (read_command KVSS905C_READ_PICTURE_ELEMENT_SIZE (u8 page)
                (if u8 back =? 0 then 0 else 0x80) 16)
             10 _ 16 rs (replicate 16 0) sides []) by reflexivity.
  eexists. reflexivity.
Qed.

Lemma sg_scanner_block (K duplex : Z) (M : nat) :
  0 <= K < 4294967296 ->
  forall imgs page side e rs log fuel,
    0 <= page -> side = 0 \/ side = 1 ->
    length imgs = length (sides_left duplex K page side) ->
    Forall (fun img => img <> [] /\ (chunks (Z.of_nat (length img)) <= M)%nat) imgs ->
    (length imgs + M < fuel)%nat ->
    exists rs' log',
      @main_block _ sghost fuel (Scanner.Sg.Dev imgs e) K duplex page side rs log
      = Some (0, rs', log', Scanner.Sg.Dev [] e).
Proof.
  intros HK.
  induction imgs as [|img imgs IH];
    intros page side e rs log fuel Hp Hside Hlen Himgs Hfuel.
  - destruct fuel as [|fuel]; [lia|]. cbn [main_block].
    destruct (Z.ltb_spec page K) as [Hlt|Hge]; cbn [negb].
    + exfalso. destruct (Z.eqb_spec duplex 0) as [->|Hd].
      * rewrite sides_left_simplex in Hlen by lia. discriminate.
      * destruct Hside as [-> | ->];
          [rewrite sides_left_front in Hlen by (assumption || lia)
          |rewrite sides_left_back in Hlen by (assumption || lia)]; discriminate.
    + eexists _, _. reflexivity.
  - destruct fuel as [|fuel]; [simpl in Hfuel; lia|]. cbn [main_block].
    destruct (Z.ltb_spec page K) as [Hlt|Hge]; cbn [negb].
    2:{ rewrite sides_left_done in Hlen by lia. discriminate. }
    destruct (sg_scanner_picture_size (img :: imgs) e page side rs) as [size ->].
    change (negb (0 =? 0)) with false. cbv iota.
    apply Forall_cons in Himgs as [[Hne Hch] Himgs].
    destruct fuel as [|fuel]; [simpl in Hfuel; lia|].
    rewrite sg_scanner_wait by exact Hne.
    change (negb (0 =? 0)) with false. cbv iota.
    destruct (chunks_bounds (Z.of_nat (length img))) as [Hk1 Hk].
    { destruct img; [contradiction | simpl; lia]. }
    destruct (sg_scanner_drain h ind (chunks (Z.of_nat (length img))) img imgs e
                page side (@alloca _ sghost KVSS905C_BUFFER_SIZE) rs
                ((log ++ [PictureSize page side]) ++ [DataBufferWait]) [] (S fuel))
      as (buffer' & rs' & ->); [simpl in Hfuel; lia | exact Hk |].
    change (negb (0 =? 0)) with false. cbv iota.
    rewrite (u32_small (page + 1)) by lia.
    simpl in Hlen, Hfuel.
    destruct (Z.eqb_spec duplex 0) as [Hd|Hd]; cbn [negb].
    + subst duplex. rewrite sides_left_simplex in Hlen by lia. simpl in Hlen.
      apply IH; [lia | exact Hside | lia | exact Himgs | lia].
    + destruct Hside as [-> | ->]; cbn [Z.eqb negb].
      * rewrite sides_left_front in Hlen by (assumption || lia). simpl in Hlen.
        apply IH; [lia | right; reflexivity | lia | exact Himgs | lia].
      * rewrite sides_left_back in Hlen by (assumption || lia). simpl in Hlen.
        apply IH; [lia | left; reflexivity | lia | exact Himgs | lia].
Qed.

End ScannerSgBlock.

(** The reads the longest of the sides takes. *)
Lemma chunks_max (imgs : list (list Z)) :
  Forall (fun img => img <> []) imgs ->
  Forall (fun img => img <> [] /\
                     (chunks (Z.of_nat (length img))
                      <= max_list ((fun img => chunks (Z.of_nat (length img))) <$> imgs))%nat)
         imgs.
Proof.
  intros Hne. apply Forall_forall. intros img Himg. split.
  - rewrite Forall_forall in Hne. apply Hne. exact Himg.
  - apply max_list_elem_of_le.
    apply (list_elem_of_fmap_2 (fun img => chunks (Z.of_nat (length img)))). exact Himg.
Qed.

(** C7: the calls the block loop of [main] makes for a block of [K] pages
    are, side after side, one picture-size call, one buffer wait and at
    least one image read, and the (page, side) written in the picture-size
    and read calls run through
    (0, front), (0, back), (1, front), (1, back), ..., (K-1, back) under
    duplex and through (0, front), (1, front), ..., (K-1, front)
    otherwise, in this order and with nothing left out or added.  This
    holds in both drivers for every device with which the loop finishes the
    block; with the scanner of the specification holding a side that is
    not empty for every side of the block, the loop does finish it.  The
    functions called then take the page as a [uint8_t]: they see it
    modulo 256. *)
Theorem block_retrieval_order
    `{KVS3105.Libusb bus} `{KVSS905C.SgIo sg} (K duplex : Z) :
  0 <= K < 4294967296 ->
  let order := if duplex =? 0 then simplex_order K else duplex_order K in
  (forall fuel (b : bus) rs rs1 log1 b1,
      KVS3105.main_block fuel b K duplex 0 0 rs [] = Some (0, rs1, log1, b1) ->
      exists reads : list nat,
        length reads = length order /\
        log1 = concat (zip_with kvs3105_retrieval order reads)) /\
  (forall fuel (g : sg) rs rs2 log2 g2,
      KVSS905C.main_block fuel g K duplex 0 0 rs [] = Some (0, rs2, log2, g2) ->
      exists reads : list nat,
        length reads = length order /\
        log2 = concat (zip_with kvss905c_retrieval order reads)) /\
  (forall h ind (imgs : list (list Z)) sense e rs,
      length imgs = length order ->
      Forall (fun img => img <> []) imgs ->
      exists enough : nat,
        forall fuel, (enough <= fuel)%nat ->
          (exists rs1 log1 b1,
              @KVS3105.main_block _ (Scanner.Usb.libusb h ind) fuel
                 (Scanner.Usb.Bus imgs sense Scanner.Usb.Idle e) K duplex 0 0 rs []
              = Some (0, rs1, log1, b1) /\ Scanner.Usb.sides b1 = []) /\
          (exists rs2 log2 g2,
              @KVSS905C.main_block _ (Scanner.Sg.sgio h ind) fuel
                 (Scanner.Sg.Dev imgs e) K duplex 0 0 rs []
              = Some (0, rs2, log2, g2) /\ Scanner.Sg.sides g2 = [])) /\
  (forall (b : bus) (g : sg) page side buffer blen rs,
      KVS3105.kvs3105_picture_size b page side rs
      = KVS3105.kvs3105_picture_size b (page mod 256) side rs /\
      KVS3105.kvs3105_read_data b page side buffer blen rs
      = KVS3105.kvs3105_read_data b (page mod 256) side buffer blen rs /\
      KVSS905C.kvss905c_picture_size g page side rs
      = KVSS905C.kvss905c_picture_size g (page mod 256) side rs /\
      KVSS905C.kvss905c_read_data g page side buffer blen rs
      = KVSS905C.kvss905c_read_data g (page mod 256) side buffer blen rs).
Proof.
  intros HK order.
  assert (Horder : sides_left duplex K 0 0 = order).
  { subst order. destruct (Z.eqb_spec duplex 0) as [->|Hd].
    - apply sides_left_start_simplex.
    - apply sides_left_start_duplex. exact Hd. }
  split; [|split; [|split]].
  - intros fuel b rs rs1 log1 b1 Hu.
    apply (kvs3105_main_block_log K duplex fuel HK) in Hu as (reads & Hlen & ->);
      [|lia|left; reflexivity].
    rewrite Horder in *. exists reads. split; [exact Hlen | reflexivity].
  - intros fuel g rs rs2 log2 g2 Hs.
    apply (kvss905c_main_block_log K duplex fuel HK) in Hs as (reads & Hlen & ->);
      [|lia|left; reflexivity].
    rewrite Horder in *. exists reads. split; [exact Hlen | reflexivity].
  - intros h ind imgs sense e rs Hlen Hne.
    rewrite <- Horder in Hlen.
    pose proof (chunks_max imgs Hne) as Hmax.
    set (M := max_list ((fun img => chunks (Z.of_nat (length img))) <$> imgs)) in Hmax.
    exists (S (length imgs + M)). intros fuel Hfuel. split.
    + destruct (scanner_block h ind K duplex M HK imgs 0 0 sense e rs [] fuel)
        as (rs1 & log1 & sense1 & E); [lia | left; reflexivity | exact Hlen | exact Hmax | lia |].
      eexists _, _, _. split; [exact E | reflexivity].
    + destruct (sg_scanner_block h ind K duplex M HK imgs 0 0 e rs [] fuel)
        as (rs2 & log2 & E); [lia | left; reflexivity | exact Hlen | exact Hmax | lia |].
      eexists _, _, _. split; [exact E | reflexivity].
  - intros b g page side buffer blen rs.
    unfold KVS3105.kvs3105_picture_size, KVS3105.kvs3105_read_data,
      KVSS905C.kvss905c_picture_size, KVSS905C.kvss905c_read_data.
    fold (u8 page). rewrite !u8_u8. repeat split; reflexivity.
Qed.

Lemma block_retrieval_order_witness :
  let usbhost := Scanner.Usb.libusb LittleEndian (fun _ => []) in
  let sghost := Scanner.Sg.sgio LittleEndian (fun _ => []) in
  let usb := Scanner.Usb.Bus two_pages (replicate 18 0) Scanner.Usb.Idle 0 in
  let scsi := Scanner.Sg.Dev two_pages 0 in
  exists fuel : nat,
    (exists reads : list nat,
        length reads = length (duplex_order 2) /\
        calls_of (@KVS3105.main_block _ usbhost fuel usb 2 1 0 0 (replicate 20 0) [])
        = concat (zip_with kvs3105_retrieval (duplex_order 2) reads)) /\
    (exists reads : list nat,
        length reads = length (duplex_order 2) /\
        calls_of (@KVSS905C.main_block _ sghost fuel scsi 2 1 0 0 (replicate 20 0) [])
        = concat (zip_with kvss905c_retrieval (duplex_order 2) reads)).
Proof.
  intros usbhost sghost usb scsi.
  assert (HK : 0 <= 2 < 4294967296) by lia.
  destruct (@block_retrieval_order _ usbhost _ sghost 2 1 HK)
    as (Hu & Hs & Hscanner & _).
  destruct (Hscanner LittleEndian (fun _ => []) two_pages (replicate 18 0) 0
              (replicate 20 0)) as [enough Hruns].
  - reflexivity.
  - unfold two_pages. repeat constructor; discriminate.
  - exists enough.
    destruct (Hruns enough (le_n enough))
      as [(rs1 & log1 & b1 & Eu & _) (rs2 & log2 & g2 & Es & _)].
    split.
    + fold usbhost usb in Eu. rewrite Eu. exact (Hu _ _ _ _ _ _ Eu).
    + fold sghost scsi in Es. rewrite Es. exact (Hs _ _ _ _ _ _ Es).
Defined.

(** * Further properties of the drivers *)

(** ** Return codes and the request-sense buffer *)

Lemma length_memcpy (dst src : list Z) off n :
  (off + n <= length dst)%nat -> (n <= length src)%nat ->
  length (memcpy dst off src n) = length dst.
Proof.
  intros Hd Hs. unfold memcpy.
  rewrite !length_app, !length_take, length_drop. lia.
Qed.

Lemma length_memset (dst : list Z) off v n :
  (off + n <= length dst)%nat -> length (memset dst off v n) = length dst.
Proof.
  intros Hd. unfold memset.
  rewrite !length_app, length_take, length_replicate, length_drop. lia.
Qed.

Lemma length_command_buffer h buf command n :
  (24 <= length buf)%nat -> (n <= 12)%nat -> (n <= length command)%nat ->
  length (command_buffer h buf command n) = length buf.
Proof.
  intros Hb Hn Hc. unfold command_buffer.
  assert (H4 : forall x, length (bytes_of_u32 h x) = 4%nat) by (destruct h; reflexivity).
  assert (H2 : forall x, length (bytes_of_u16 h x) = 2%nat) by (destruct h; reflexivity).
  assert (L0 : length (memset buf 0 0 24) = length buf) by (apply length_memset; lia).
  assert (L1 : length (memcpy (memset buf 0 0 24) 0 (bytes_of_u32 h (htonl h 24)) 4)
               = length buf).
  { rewrite length_memcpy; rewrite ?H4; lia. }
  assert (L2 : length (memcpy (memcpy (memset buf 0 0 24) 0
                                 (bytes_of_u32 h (htonl h 24)) 4)
                         4 (bytes_of_u16 h (htons h 1)) 2) = length buf).
  { rewrite length_memcpy; rewrite ?H2; lia. }
  assert (L3 : length (memcpy (memcpy (memcpy (memset buf 0 0 24) 0
                                         (bytes_of_u32 h (htonl h 24)) 4)
                                 4 (bytes_of_u16 h (htons h 1)) 2)
                         6 (bytes_of_u16 h (htons h 0x9000)) 2) = length buf).
  { rewrite length_memcpy; rewrite ?H2; lia. }
  rewrite length_memcpy; lia.
Qed.

Section SendCommandCodes.
Import KVS3105.
Context `{Libusb bus}.

Lemma length_bulk_in (b : bus) buf sz t :
  0 <= sz -> (Z.to_nat sz <= length buf)%nat ->
  length (bulk_in b buf sz t).1.2 = length buf.
Proof.
  intros Hsz Hb. unfold bulk_in.
  destruct (libusb_bulk_transfer b CMD_IN [] sz t) as [[ret delivered] b'].
  cbn [fst snd]. apply length_memcpy; [|lia].
  rewrite length_take. lia.
Qed.

(** The sense bytes [send_command] stores after a REQUEST SENSE: they
    replace the first 18 bytes of the buffer and nothing else. *)
Lemma sense_stored (rs b_ : list Z) :
  (18 <= length rs)%nat -> length b_ = 30%nat ->
  let rs' := memcpy (memset rs 0 0 (Z.to_nat RESPONSE_SIZE)) 0
                    (drop (Z.to_nat sizeof_bulk_header) b_) (Z.to_nat RESPONSE_SIZE) in
  length rs' = length rs /\ drop 18 rs' = drop 18 rs.
Proof.
  intros Hrs Hb rs'. subst rs'.
  change (Z.to_nat RESPONSE_SIZE) with 18%nat.
  change (Z.to_nat sizeof_bulk_header) with 12%nat.
  split.
  - rewrite length_memcpy; rewrite ?length_memset, ?length_drop; lia.
  - unfold memcpy, memset. rewrite !take_0, !app_nil_l. cbn [Nat.add].
    rewrite drop_app_length' by (rewrite length_take, length_drop; lia).
    rewrite drop_app_length' by (rewrite length_replicate; reflexivity).
    reflexivity.
Qed.

Lemma sense_cleared (rs : list Z) :
  (18 <= length rs)%nat ->
  let rs' := memset rs 0 0 (Z.to_nat RESPONSE_SIZE) in
  length rs' = length rs /\ drop 18 rs' = drop 18 rs /\ take 18 rs' = replicate 18 0.
Proof.
  intros Hrs rs'. subst rs'. change (Z.to_nat RESPONSE_SIZE) with 18%nat.
  split; [apply length_memset; lia|].
  unfold memset. rewrite take_0, app_nil_l. cbn [Nat.add].
  split.
  - apply drop_app_length'. rewrite length_replicate. reflexivity.
  - apply take_app_length'. rewrite length_replicate. reflexivity.
Qed.

(** X1: [send_command] returns 0, 1, 2 or 3 and nothing else.  It writes
    to the first 18 bytes of the caller's request-sense buffer only: they
    are all zero whenever the code returned is not 2 (sense data of an
    earlier command never survive a call), and the bytes from 18 on and the
    length of the buffer are as the caller had them. *)
Theorem send_command_codes_and_sense
    (b : bus) (direction : Z) (command : list Z) (command_length : Z)
    (data_ : option (list Z)) (data_length : Z) (requestsense : list Z) (timeout : Z) :
  (18 <= length requestsense)%nat ->
  let res := send_command b direction command command_length data_ data_length
                          requestsense timeout in
  let r := res.1.1.1 in
  let rs' := res.1.2 in
  (r = 0 \/ r = 1 \/ r = 2 \/ r = 3) /\
  length rs' = length requestsense /\
  drop 18 rs' = drop 18 requestsense /\
  (r <> 2 -> take 18 rs' = replicate 18 0).
Proof.
  intros Hrs.
  destruct (sense_cleared requestsense Hrs) as (Hlen & Hdrop & Htake).
  unfold send_command.
  destruct (usb_send_command b _ _ _ timeout) as [[[[st c] r] bb] b1].
  destruct (st =? -2); [cbn; auto 10|].
  destruct (st <? -1); [cbn; auto 10|].
  destruct (negb (status r =? 0)); [|cbn; auto 10].
  rewrite usb_send_command_in;
    [| rewrite length_alloca; unfold sizeof_bulk_header, RESPONSE_SIZE; lia
     | reflexivity | simpl; lia].
  cbv zeta.
  destruct (libusb_bulk_transfer b1 CMD_OUT _ _ _) as [[ret1 x1] b2].
  destruct (negb (ret1 =? 0)); [cbn; auto 10|].
  assert (Hb : length (bulk_in b2
                (command_buffer host (alloca (sizeof_bulk_header + RESPONSE_SIZE))
                   [REQUEST_SENSE; 0; 0; 0; RESPONSE_SIZE; 0] (Z.to_nat 6))
                (12 + RESPONSE_SIZE) (if timeout =? 0 then 10000 else timeout)).1.2
               = 30%nat).
  { assert (La : length (alloca (sizeof_bulk_header + RESPONSE_SIZE)) = 30%nat)
      by (rewrite length_alloca; unfold sizeof_bulk_header, RESPONSE_SIZE; lia).
    assert (Lc : length (command_buffer host (alloca (sizeof_bulk_header + RESPONSE_SIZE))
                           [REQUEST_SENSE; 0; 0; 0; RESPONSE_SIZE; 0] (Z.to_nat 6))
                 = 30%nat).
    { rewrite length_command_buffer; [exact La | rewrite La; lia | | ];
        change (Z.to_nat 6) with 6%nat; cbn [length]; lia. }
    rewrite length_bulk_in; [exact Lc | unfold RESPONSE_SIZE; lia |].
    rewrite Lc. unfold RESPONSE_SIZE. lia. }
  destruct (bulk_in b2 _ (12 + RESPONSE_SIZE) _) as [[[ret2 tr2] h2] b3].
  cbn [fst snd] in Hb.
  destruct (sense_stored requestsense h2 Hrs Hb) as (Hlen2 & Hdrop2).
  destruct (negb (ret2 =? 0) || (tr2 <? 12)); [cbn; auto 10|].
  destruct (bulk_in b3 _ 16 _) as [[[ret3 tr3] resp] b4].
  destruct (negb (ret3 =? 0)); cbn [data_size fst snd];
    change ((-1 <? -1) || (RESPONSE_SIZE =? 0)) with false;
    change ((0 <? -1) || (RESPONSE_SIZE =? 0)) with false; cbv iota; cbn [fst snd];
    (split; [auto|split; [exact Hlen2|split; [exact Hdrop2|intros Hr; contradiction]]]).
Qed.

End SendCommandCodes.

Lemma send_command_codes_and_sense_witness :
  let res := @KVS3105.send_command _ (ScriptedUsb.libusb LittleEndian (fun _ => []))
               (usb_check_condition [(0, []); (-7, [])])
               SG_DXFER_TO_DEV scan_command 6 None 0 (replicate 20 7) 0 in
  res.1.1.1 = 1 /\ take 18 res.1.2 = replicate 18 0 /\ drop 18 res.1.2 = [7; 7].
Proof.
  intros res.
  assert (Hrs : (18 <= length (replicate 20 7))%nat) by (simpl; lia).
  destruct (@send_command_codes_and_sense _ (ScriptedUsb.libusb LittleEndian (fun _ => []))
              (usb_check_condition [(0, []); (-7, [])])
              SG_DXFER_TO_DEV scan_command 6 None 0 (replicate 20 7) 0 Hrs)
    as (_ & _ & Hdrop & Htake).
  assert (Hr : res.1.1.1 = 1) by (vm_compute; reflexivity).
  split; [exact Hr|]. split; [|exact Hdrop].
  apply Htake. fold res. rewrite Hr. discriminate.
Defined.

(** ** Byte order of the host *)

Lemma byte_n_bswap32 y :
  0 <= y < 4294967296 ->
  byte_n (bswap32 y) 0 = byte_n y 3 /\ byte_n (bswap32 y) 1 = byte_n y 2 /\
  byte_n (bswap32 y) 2 = byte_n y 1 /\ byte_n (bswap32 y) 3 = byte_n y 0.
Proof.
  intros Hy. unfold bswap32.
  pose proof (byte_n_range y 0). pose proof (byte_n_range y 1).
  pose proof (byte_n_range y 2). pose proof (byte_n_range y 3).
  rewrite be_bytes_lor by lia.
  remember (byte_n y 0) as a. remember (byte_n y 1) as b.
  remember (byte_n y 2) as c. remember (byte_n y 3) as d.
  rewrite byte_n_0, byte_n_1, byte_n_2, byte_n_3.
  repeat split; euclid.
Qed.

Lemma byte_n_bswap16 y :
  0 <= y < 65536 ->
  byte_n (bswap16 y) 0 = byte_n y 1 /\ byte_n (bswap16 y) 1 = byte_n y 0.
Proof.
  intros Hy. unfold bswap16.
  pose proof (byte_n_range y 0). pose proof (byte_n_range y 1).
  rewrite lor_add_shiftl by (change (2 ^ 8) with 256; lia).
  change (2 ^ 8) with 256.
  remember (byte_n y 0) as a. remember (byte_n y 1) as b.
  rewrite byte_n_0, byte_n_1.
  split; euclid.
Qed.

(** What [htonl] leaves in memory is the value most significant byte
    first, whatever the byte order of the host; the same for [htons]. *)
Lemma bytes_of_htonl h x :
  bytes_of_u32 h (htonl h x)
  = [byte_n (u32 x) 3; byte_n (u32 x) 2; byte_n (u32 x) 1; byte_n (u32 x) 0].
Proof.
  destruct h; [|reflexivity]. unfold htonl, bytes_of_u32.
  destruct (byte_n_bswap32 (u32 x)) as (-> & -> & -> & ->);
    [unfold u32; apply Z.mod_pos_bound; lia | reflexivity].
Qed.

Lemma bytes_of_htons h x :
  bytes_of_u16 h (htons h x) = [byte_n (u16 x) 1; byte_n (u16 x) 0].
Proof.
  destruct h; [|reflexivity]. unfold htons, bytes_of_u16.
  destruct (byte_n_bswap16 (u16 x)) as (-> & ->);
    [unfold u16; apply Z.mod_pos_bound; lia | reflexivity].
Qed.

Lemma U16_host output x s : U16 LittleEndian output x s = U16 BigEndian output x s.
Proof. unfold U16. cbv zeta. rewrite !bytes_of_htons. reflexivity. Qed.

Lemma U32_host output x s : U32 LittleEndian output x s = U32 BigEndian output x s.
Proof. unfold U32. cbv zeta. rewrite !bytes_of_htonl. reflexivity. Qed.

(** The serialised window is the same on either host. *)
Lemma window_serialise_host h mem output w :
  window_serialise h mem output w = window_serialise BigEndian mem output w.
Proof.
  destruct h; [|reflexivity].
  unfold window_serialise, window_serialise_body. cbn [foldl].
  rewrite !U16_host, !U32_host. reflexivity.
Qed.

Section UsbHostOrder.
Import KVS3105.
Context {bus : Type}.
Variables (transfer : bus -> Z -> list Z -> Z -> Z -> Z * list Z * bus)
          (pause : bus -> Z -> bus) (ind : nat -> list Z).

Local Abbreviation on h := (usb_on_host transfer pause ind h).

Lemma usb_send_command_host h (b : bus) c r buf t :
  @usb_send_command _ (on h) b c r buf t
  = @usb_send_command _ (on BigEndian) b c r buf t.
Proof.
  destruct h; [|reflexivity].
  unfold usb_send_command, bulk_out, bulk_in, alloca.
  cbn [host libusb_bulk_transfer indeterminate usb_on_host].
  cbv zeta.
  rewrite !bytes_of_htonl, !bytes_of_htons.
  rewrite ?(bytes_of_htonl BigEndian), ?(bytes_of_htons BigEndian).
  destruct (transfer b CMD_OUT _ _ _) as [[ret1 x1] b1].
  destruct (negb (ret1 =? 0)); [reflexivity|].
  destruct (dir c =? CMD_IN).
  - destruct (transfer b1 CMD_IN _ _ _) as [[ret2 x2] b2].
    destruct (negb (ret2 =? 0) || _); [reflexivity|].
    destruct (transfer b2 CMD_IN _ _ _) as [[ret3 x3] b3].
    destruct (negb (ret3 =? 0)); [reflexivity|].
    rewrite !ntohl_load_u32. reflexivity.
  - destruct (dir c =? CMD_OUT).
    + destruct (transfer b1 CMD_OUT _ _ _) as [[ret2 x2] b2].
      destruct (negb (ret2 =? 0)); [reflexivity|].
      destruct (transfer b2 CMD_IN _ _ _) as [[ret3 x3] b3].
      destruct (negb (ret3 =? 0)); [reflexivity|].
      rewrite !ntohl_load_u32. reflexivity.
    + destruct (transfer b1 CMD_IN _ _ _) as [[ret3 x3] b3].
      destruct (negb (ret3 =? 0)); [reflexivity|].
      rewrite !ntohl_load_u32. reflexivity.
Qed.

Lemma send_command_host h (b : bus) direction command clen data_ dlen rs t :
  @send_command _ (on h) b direction command clen data_ dlen rs t
  = @send_command _ (on BigEndian) b direction command clen data_ dlen rs t.
Proof.
  destruct h; [|reflexivity].
  unfold send_command.
  rewrite (usb_send_command_host LittleEndian).
  change (@alloca _ (on LittleEndian)) with (@alloca _ (on BigEndian)).
  destruct (usb_send_command b _ _ _ t) as [[[[st c] r] bb] b1].
  destruct (st =? -2); [reflexivity|].
  destruct (st <? -1); [reflexivity|].
  destruct (negb (status r =? 0)); [|reflexivity].
  rewrite (usb_send_command_host LittleEndian). reflexivity.
Qed.

Lemma kvs3105_set_windows_host h (b : bus) w duplex rs :
  @kvs3105_set_windows _ (on h) b w duplex rs
  = @kvs3105_set_windows _ (on BigEndian) b w duplex rs.
Proof.
  destruct h; [|reflexivity].
  unfold kvs3105_set_windows, kvs3105_window_serialise.
  cbn [host usb_on_host].
  rewrite (window_serialise_host LittleEndian).
  change (@alloca _ (on LittleEndian)) with (@alloca _ (on BigEndian)).
  destruct (window_serialise BigEndian _ 8 w) as [windowbytes bytes_written].
  destruct (negb (bytes_written =? WINDOW_SIZE)); [reflexivity|].
  rewrite !bytes_of_htons, !(send_command_host LittleEndian).
  destruct (send_command b _ _ _ _ _ _ _) as [[[r d] rs1] b1].
  destruct (negb (r =? 0)); [reflexivity|].
  destruct (negb (duplex =? 0)); [|reflexivity].
  rewrite (send_command_host LittleEndian). reflexivity.
Qed.

Lemma get_data_buffer_status_host h (b : bus) rs :
  @get_data_buffer_status _ (on h) b rs = @get_data_buffer_status _ (on BigEndian) b rs.
Proof.
  destruct h; [|reflexivity].
  unfold get_data_buffer_status. rewrite (send_command_host LittleEndian). reflexivity.
Qed.

Lemma kvs3105_read_host h (b : bus) type q1 q2 buffer len rs :
  @kvs3105_read _ (on h) b type q1 q2 buffer len rs
  = @kvs3105_read _ (on BigEndian) b type q1 q2 buffer len rs.
Proof.
  destruct h; [|reflexivity].
  unfold kvs3105_read. rewrite (send_command_host LittleEndian). reflexivity.
Qed.

Lemma kvs3105_picture_size_host h (b : bus) page back rs :
  @kvs3105_picture_size _ (on h) b page back rs
  = @kvs3105_picture_size _ (on BigEndian) b page back rs.
Proof.
  destruct h; [|reflexivity].
  unfold kvs3105_picture_size. rewrite (kvs3105_read_host LittleEndian).
  change (@alloca _ (on LittleEndian)) with (@alloca _ (on BigEndian)).
  destruct (kvs3105_read b _ _ _ _ _ _) as [[[r buffer] rs1] b1].
  destruct (negb (r =? 0)); [reflexivity|].
  rewrite !ntohl_load_u32. reflexivity.
Qed.

Lemma kvs3105_read_data_host h (b : bus) page back buffer blen rs :
  @kvs3105_read_data _ (on h) b page back buffer blen rs
  = @kvs3105_read_data _ (on BigEndian) b page back buffer blen rs.
Proof.
  destruct h; [|reflexivity].
  unfold kvs3105_read_data. rewrite (kvs3105_read_host LittleEndian).
  destruct (kvs3105_read b _ _ _ _ _ _) as [[[r buffer'] rs1] b1].
  destruct (negb (r =? 0)); [|reflexivity].
  rewrite !ntohl_load_u32. reflexivity.
Qed.

Lemma kvs3105_data_buffer_wait_host h fuel :
  forall (b : bus) rs,
    @kvs3105_data_buffer_wait _ (on h) fuel b rs
    = @kvs3105_data_buffer_wait _ (on BigEndian) fuel b rs.
Proof.
  induction fuel as [|fuel IH]; intros b rs; [reflexivity|].
  cbn [kvs3105_data_buffer_wait].
  rewrite (get_data_buffer_status_host h).
  destruct (get_data_buffer_status b rs) as [[[r out] rs1] b1].
  destruct (negb (r =? 0)); [reflexivity|].
  destruct (negb (default 0 (snd <$> out) =? 0)); [reflexivity|].
  apply IH.
Qed.

Lemma alloca_host h n : @alloca _ (on h) n = @alloca _ (on BigEndian) n.
Proof. reflexivity. Qed.

Lemma kvs3105_main_drain_host h fuel :
  forall (b : bus) page side buffer rs log reads,
    @main_drain _ (on h) fuel b page side buffer rs log reads
    = @main_drain _ (on BigEndian) fuel b page side buffer rs log reads.
Proof.
  induction fuel as [|fuel IH]; intros b page side buffer rs log reads; [reflexivity|].
  cbn [main_drain]. rewrite (kvs3105_read_data_host h).
  destruct (kvs3105_read_data b page side buffer KVS3105_BUFFER_SIZE rs)
    as [[[[r out] buffer1] rs1] b1].
  destruct (negb (r =? 0)); [reflexivity|].
  destruct (default (0, 0) out) as [written end_of_page].
  destruct (negb (end_of_page =? 0)); [reflexivity|]. apply IH.
Qed.

Lemma kvs3105_main_block_host h fuel :
  forall (b : bus) block_size duplex page side rs log,
    @main_block _ (on h) fuel b block_size duplex page side rs log
    = @main_block _ (on BigEndian) fuel b block_size duplex page side rs log.
Proof.
  induction fuel as [|fuel IH]; intros b block_size duplex page side rs log;
    [reflexivity|].
  cbn [main_block].
  destruct (negb (page <? block_size)); [reflexivity|].
  rewrite (kvs3105_picture_size_host h).
  destruct (kvs3105_picture_size b page side rs) as [[[r1 o1] rs1] b1].
  destruct (negb (r1 =? 0)); [reflexivity|].
  rewrite (kvs3105_data_buffer_wait_host h).
  destruct (kvs3105_data_buffer_wait fuel b1 rs1) as [[[ws rs2] b2]|]; [|reflexivity].
  destruct (negb (ws =? 0)); [reflexivity|].
  rewrite (kvs3105_main_drain_host h), (alloca_host h).
  destruct (main_drain fuel b2 page side _ rs2 _ [])
    as [[[[[[r3 buf3] rs3] log3] reads3] b3]|]; [|reflexivity].
  destruct (negb (r3 =? 0)); [reflexivity|].
  destruct (negb (duplex =? 0)); [destruct (negb (side =? 0))|]; apply IH.
Qed.

(** X2: the USB driver behaves the same on a little-endian and on a
    big-endian host: with the same device and the same arguments, the
    transport ([send_command]), SET WINDOW, GET DATA BUFFER STATUS, the
    picture size, an image read, the buffer wait and the retrieval of a
    whole block return the same results, leave the same bytes in the
    caller's buffers and put the same transfers on the bus. *)
Theorem usb_driver_byte_order (b : bus) :
  (forall direction command clen data_ dlen rs t,
      @send_command _ (on LittleEndian) b direction command clen data_ dlen rs t
      = @send_command _ (on BigEndian) b direction command clen data_ dlen rs t) /\
  (forall w duplex rs,
      @kvs3105_set_windows _ (on LittleEndian) b w duplex rs
      = @kvs3105_set_windows _ (on BigEndian) b w duplex rs) /\
  (forall rs,
      @get_data_buffer_status _ (on LittleEndian) b rs
      = @get_data_buffer_status _ (on BigEndian) b rs) /\
  (forall page back rs,
      @kvs3105_picture_size _ (on LittleEndian) b page back rs
      = @kvs3105_picture_size _ (on BigEndian) b page back rs) /\
  (forall page back buffer blen rs,
      @kvs3105_read_data _ (on LittleEndian) b page back buffer blen rs
      = @kvs3105_read_data _ (on BigEndian) b page back buffer blen rs) /\
  (forall fuel rs,
      @kvs3105_data_buffer_wait _ (on LittleEndian) fuel b rs
      = @kvs3105_data_buffer_wait _ (on BigEndian) fuel b rs) /\
  (forall fuel block_size duplex page side rs log,
      @main_block _ (on LittleEndian) fuel b block_size duplex page side rs log
      = @main_block _ (on BigEndian) fuel b block_size duplex page side rs log).
Proof.
  split; [intros; apply send_command_host|].
  split; [intros; apply kvs3105_set_windows_host|].
  split; [intros; apply get_data_buffer_status_host|].
  split; [intros; apply kvs3105_picture_size_host|].
  split; [intros; apply kvs3105_read_data_host|].
  split; [intros; apply kvs3105_data_buffer_wait_host|].
  intros; apply kvs3105_main_block_host.
Qed.

End UsbHostOrder.

Section SgHostOrder.
Import KVSS905C.
Context {sg : Type}.
Variables (do_ioctl : sg -> sg_io_hdr -> sg_reply * sg)
          (pause_s pause_us : sg -> Z -> sg) (ind : nat -> list Z).

Local Abbreviation on h := (sg_on_host do_ioctl pause_s pause_us ind h).

Lemma scsi_command_host h (g : sg) direction command clen data_ dlen rs t :
  @scsi_command _ (on h) g direction command clen data_ dlen rs t
  = @scsi_command _ (on BigEndian) g direction command clen data_ dlen rs t.
Proof. reflexivity. Qed.

Lemma kvss905c_set_windows_host h (g : sg) w duplex rs :
  @kvss905c_set_windows _ (on h) g w duplex rs
  = @kvss905c_set_windows _ (on BigEndian) g w duplex rs.
Proof.
  destruct h; [|reflexivity].
  unfold kvss905c_set_windows, kvss905c_window_serialise.
  cbn [host sg_on_host].
  rewrite (window_serialise_host LittleEndian).
  change (@alloca _ (on LittleEndian)) with (@alloca _ (on BigEndian)).
  destruct (window_serialise BigEndian _ 8 w) as [windowbytes bytes_written].
  destruct (negb (bytes_written =? WINDOW_SIZE)); [reflexivity|].
  rewrite !bytes_of_htons. reflexivity.
Qed.

Lemma kvss905c_picture_size_host h (g : sg) page back rs :
  @kvss905c_picture_size _ (on h) g page back rs
  = @kvss905c_picture_size _ (on BigEndian) g page back rs.
Proof.
  destruct h; [|reflexivity].
  unfold kvss905c_picture_size.
  change (@kvss905c_read _ (on LittleEndian)) with (@kvss905c_read _ (on BigEndian)).
  change (@alloca _ (on LittleEndian)) with (@alloca _ (on BigEndian)).
  destruct (kvss905c_read g _ _ _ _ _ _) as [[[r buffer] rs1] g1].
  destruct (negb (r =? 0)); [reflexivity|].
  cbn [host sg_on_host]. rewrite !ntohl_load_u32. reflexivity.
Qed.

Lemma kvss905c_read_data_host h (g : sg) page back buffer blen rs :
  @kvss905c_read_data _ (on h) g page back buffer blen rs
  = @kvss905c_read_data _ (on BigEndian) g page back buffer blen rs.
Proof.
  destruct h; [|reflexivity].
  unfold kvss905c_read_data.
  change (@kvss905c_read _ (on LittleEndian)) with (@kvss905c_read _ (on BigEndian)).
  destruct (kvss905c_read g _ _ _ _ _ _) as [[[r buffer'] rs1] g1].
  destruct (negb (r =? 0)); [|reflexivity].
  destruct ((rd rs1 0 =? 0xf0) && (rd rs1 2 =? 0x60)); [|reflexivity].
  cbn [host sg_on_host]. rewrite !ntohl_load_u32. reflexivity.
Qed.

Lemma kvss905c_main_drain_host h fuel :
  forall (g : sg) page side buffer rs log reads,
    @main_drain _ (on h) fuel g page side buffer rs log reads
    = @main_drain _ (on BigEndian) fuel g page side buffer rs log reads.
Proof.
  induction fuel as [|fuel IH]; intros g page side buffer rs log reads; [reflexivity|].
  cbn [main_drain]. rewrite (kvss905c_read_data_host h).
  destruct (kvss905c_read_data g page side buffer KVSS905C_BUFFER_SIZE rs)
    as [[[[r out] buffer1] rs1] g1].
  destruct (negb (r =? 0)); [reflexivity|].
  destruct (default (0, 0) out) as [written eof].
  destruct (negb (eof =? 0)); [reflexivity|]. apply IH.
Qed.

(** X3: in the SCSI-generic driver the transport ([scsi_command]),
    SET WINDOW, the picture size, an image read and the draining of a side
    behave the same on a little-endian and on a big-endian host. *)
Theorem sg_driver_byte_order (g : sg) :
  (forall direction command clen data_ dlen rs t,
      @scsi_command _ (on LittleEndian) g direction command clen data_ dlen rs t
      = @scsi_command _ (on BigEndian) g direction command clen data_ dlen rs t) /\
  (forall w duplex rs,
      @kvss905c_set_windows _ (on LittleEndian) g w duplex rs
      = @kvss905c_set_windows _ (on BigEndian) g w duplex rs) /\
  (forall page back rs,
      @kvss905c_picture_size _ (on LittleEndian) g page back rs
      = @kvss905c_picture_size _ (on BigEndian) g page back rs) /\
  (forall page back buffer blen rs,
      @kvss905c_read_data _ (on LittleEndian) g page back buffer blen rs
      = @kvss905c_read_data _ (on BigEndian) g page back buffer blen rs) /\
  (forall fuel page side buffer rs log reads,
      @main_drain _ (on LittleEndian) fuel g page side buffer rs log reads
      = @main_drain _ (on BigEndian) fuel g page side buffer rs log reads).
Proof.
  split; [intros; apply scsi_command_host|].
  split; [intros; apply kvss905c_set_windows_host|].
  split; [intros; apply kvss905c_picture_size_host|].
  split; [intros; apply kvss905c_read_data_host|].
  intros; apply kvss905c_main_drain_host.
Qed.

End SgHostOrder.

(** ** Framing on the USB bus *)

Lemma memcpy_app_l (p t src : list Z) off n :
  (off + n <= length p)%nat ->
  memcpy (p ++ t) off src n = memcpy p off src n ++ t.
Proof.
  intros Hp. unfold memcpy.
  rewrite take_app_le by lia. rewrite drop_app_le by lia.
  rewrite <- !app_assoc. reflexivity.
Qed.

Lemma memcpy_app_r (p t src : list Z) n :
  (n <= length src)%nat -> (n <= length t)%nat ->
  memcpy (p ++ t) (length p) src n = p ++ take n src ++ drop n t.
Proof.
  intros Hs Ht. unfold memcpy.
  rewrite take_app_length. rewrite drop_app_add'; reflexivity.
Qed.

(** The data block [usb_send_command] builds in its buffer. *)
Lemma data_block_built h (buf d : list Z) (dsz : Z) :
  0 <= dsz < 4294967296 - 12 ->
  (12 + Z.to_nat dsz <= length buf)%nat -> (Z.to_nat dsz <= length d)%nat ->
  take (Z.to_nat (12 + dsz))
    (memcpy
       (memcpy
          (memcpy
             (memcpy (memset buf 0 0 12) 0 (bytes_of_u32 h (htonl h (12 + dsz))) 4)
             4 (bytes_of_u16 h (htons h 2)) 2)
          6 (bytes_of_u16 h (htons h 0xb000)) 2)
       12 d (Z.to_nat dsz))
  = data_block (take (Z.to_nat dsz) d).
Proof.
  intros Hdsz Hbuf Hd.
  rewrite bytes_of_htonl, !bytes_of_htons.
  rewrite u32_small by lia.
  assert (Hm : memset buf 0 0 12 = replicate 12 0 ++ drop 12 buf) by reflexivity.
  rewrite Hm.
  rewrite (memcpy_app_l (replicate 12 0)) by (simpl; lia).
  rewrite (memcpy_app_l (memcpy (replicate 12 0) 0 _ 4)) by (simpl; lia).
  rewrite (memcpy_app_l (memcpy (memcpy (replicate 12 0) 0 _ 4) 4 _ 2)) by (simpl; lia).
  set (hdr := memcpy (memcpy (memcpy (replicate 12 0) 0 _ 4) 4 _ 2) 6 _ 2).
  assert (Hhdr : hdr = [byte_n (12 + dsz) 3; byte_n (12 + dsz) 2; byte_n (12 + dsz) 1;
                        byte_n (12 + dsz) 0; 0; 2; 0xb0; 0; 0; 0; 0; 0])
    by reflexivity.
  clearbody hdr.
  assert (Hl : length hdr = 12%nat) by (rewrite Hhdr; reflexivity).
  rewrite <- Hl at 2.
  rewrite memcpy_app_r by (rewrite ?length_drop; lia).
  replace (Z.to_nat (12 + dsz)) with (length hdr + Z.to_nat dsz)%nat by lia.
  rewrite take_app_add'. 2: reflexivity.
  rewrite take_app_length' by (rewrite length_take; lia).
  unfold data_block. rewrite length_take.
  replace (Z.of_nat (Z.to_nat dsz `min` length d)) with dsz by lia.
  rewrite Hhdr. reflexivity.
Qed.

Section UsbFraming.
Import KVS3105.
Context `{Libusb bus}.

(** [usb_send_command] for a command without data phase: the command
    block out, the status in. *)
Lemma usb_send_command_none (b : bus) command n dptr dsz r buf t :
  (24 <= length buf)%nat -> Z.to_nat n = length command ->
  (length command <= 12)%nat ->
  usb_send_command b (Cmd command n dptr dsz CMD_NONE) r buf t
  = let t' := if t =? 0 then 10000 else t in
    let h := command_buffer host buf command (Z.to_nat n) in
    let '(ret1, _, b) := libusb_bulk_transfer b CMD_OUT (command_block command) 24 t' in
    if negb (ret1 =? 0) then (-3, Cmd command n dptr dsz CMD_NONE, r, h, b)
    else
      let '(ret1, _, resp, b) := bulk_in b (alloca 16) 16 t' in
      if negb (ret1 =? 0)
      then (-1, Cmd command n dptr dsz CMD_NONE, Response 2 (response_data r), h, b)
      else (0, Cmd command n dptr dsz CMD_NONE,
            Response (be32 resp 12) (response_data r), h, b).
Proof.
  intros Hbuf Hn Hc.
  unfold usb_send_command, bulk_out.
  change (Z.to_nat (sizeof_bulk_header + MAX_CMD_SIZE)) with 24%nat.
  change (sizeof_bulk_header + MAX_CMD_SIZE) with 24.
  change (sizeof_bulk_header + STATUS_SIZE) with 16.
  change COMMAND_BLOCK with 1. change COMMAND_CODE with 0x9000.
  change CHECK_CONDITION with 2.
  cbn [cmd_bytes cmd_size dir data_size data].
  fold (command_buffer host buf command (Z.to_nat n)).
  unfold command_buffer at 1.
  rewrite command_block_sent by (assumption || lia).
  cbv zeta.
  destruct (libusb_bulk_transfer b CMD_OUT _ _ _) as [[ret1 x1] b1].
  destruct (negb (ret1 =? 0)); [reflexivity|].
  change (CMD_NONE =? CMD_IN) with false. change (CMD_NONE =? CMD_OUT) with false.
  cbv iota.
  destruct (bulk_in b1 _ _ _) as [[[ret3 tr3] resp] b3].
  rewrite ntohl_load_u32. reflexivity.
Qed.

(** [usb_send_command] for a command with a data-out phase: the command
    block out, the data block out, the status in. *)
Lemma usb_send_command_out (b : bus) command n d dsz r buf t :
  (24 <= length buf)%nat -> Z.to_nat n = length command ->
  (length command <= 12)%nat ->
  0 <= dsz < 4294967296 - 12 ->
  (12 + Z.to_nat dsz <= length buf)%nat -> (Z.to_nat dsz <= length d)%nat ->
  exists h',
    usb_send_command b (Cmd command n (Some d) dsz CMD_OUT) r buf t
    = let t' := if t =? 0 then 10000 else t in
      let c := Cmd command n (Some d) dsz CMD_OUT in
      let '(ret1, _, b) := libusb_bulk_transfer b CMD_OUT (command_block command) 24 t' in
      if negb (ret1 =? 0)
      then (-3, c, r, command_buffer host buf command (Z.to_nat n), b)
      else
        let '(ret1, _, b) :=
          libusb_bulk_transfer b CMD_OUT (data_block (take (Z.to_nat dsz) d))
                               (12 + dsz) t' in
        if negb (ret1 =? 0) then (-2, c, r, h', b)
        else
          let '(ret1, _, resp, b) := bulk_in b (alloca 16) 16 t' in
          if negb (ret1 =? 0)
          then (-1, c, Response 2 (response_data r), h', b)
          else (0, c, Response (be32 resp 12) (response_data r), h', b).
Proof.
  intros Hbuf Hn Hc Hdsz Hlen Hd.
  unfold usb_send_command, bulk_out.
  change (Z.to_nat (sizeof_bulk_header + MAX_CMD_SIZE)) with 24%nat.
  change (sizeof_bulk_header + MAX_CMD_SIZE) with 24.
  change (sizeof_bulk_header + STATUS_SIZE) with 16.
  change sizeof_bulk_header with 12.
  change COMMAND_BLOCK with 1. change COMMAND_CODE with 0x9000.
  change DATA_BLOCK with 2. change DATA_CODE with 0xb000.
  change CHECK_CONDITION with 2.
  cbn [cmd_bytes cmd_size dir data_size data].
  fold (command_buffer host buf command (Z.to_nat n)).
  unfold command_buffer at 1.
  rewrite command_block_sent by (assumption || lia).
  cbv zeta.
  change (CMD_OUT =? CMD_IN) with false. change (CMD_OUT =? CMD_OUT) with true.
  cbv iota. unfold default, from_option, id. cbv beta iota.
  rewrite data_block_built;
    [| exact Hdsz | rewrite length_command_buffer; lia | exact Hd].
  eexists.
  destruct (libusb_bulk_transfer b CMD_OUT _ _ _) as [[ret1 x1] b1].
  destruct (negb (ret1 =? 0)); [reflexivity|].
  destruct (libusb_bulk_transfer b1 CMD_OUT _ _ _) as [[ret2 x2] b2].
  destruct (negb (ret2 =? 0)); [reflexivity|].
  destruct (bulk_in b2 _ _ _) as [[[ret3 tr3] resp] b3].
  rewrite ntohl_load_u32. reflexivity.
Qed.

End UsbFraming.

Section ScriptedFraming.
Import KVS3105.
Variables (h : endianness) (ind : nat -> list Z).

Local Abbreviation usbhost := (ScriptedUsb.libusb h ind).

Lemma scripted_good_status (rest : list (Z * list Z)) tr t :
  @bulk_in _ usbhost (ScriptedUsb.Bus (good_status :: rest) tr) (@alloca _ usbhost 16) 16 t
  = (0, 16, replicate 16 0, ScriptedUsb.Bus rest (tr ++ [ScriptedUsb.BulkIn 16])).
Proof.
  unfold bulk_in.
  change (@libusb_bulk_transfer _ usbhost) with ScriptedUsb.bulk_transfer.
  unfold ScriptedUsb.bulk_transfer, good_status.
  change (CMD_IN =? CMD_OUT) with false.
  cbn [ScriptedUsb.script ScriptedUsb.trace].
  change (take (Z.to_nat 16) (u8 <$> replicate 16 0)) with (replicate 16 0).
  unfold memcpy. cbn [length replicate Nat.add take app].
  rewrite drop_ge by (unfold alloca; rewrite length_resize; simpl; lia).
  reflexivity.
Qed.

Lemma length_bb dlen :
  0 <= dlen ->
  length (@alloca _ usbhost
            (sizeof_bulk_header + (if dlen >? MAX_CMD_SIZE then dlen else MAX_CMD_SIZE)))
  = (12 + Z.to_nat (Z.max dlen 12))%nat.
Proof.
  intros Hd. unfold alloca. rewrite length_resize.
  unfold sizeof_bulk_header, MAX_CMD_SIZE. destruct (dlen >? 12) eqn:E; lia.
Qed.

(** A command without data, every transfer succeeding, good status. *)
Lemma scripted_send_none command clen rest tr rs t direction dlen x1 :
  Z.to_nat clen = length command -> (length command <= 12)%nat -> 0 <= dlen ->
  @send_command _ usbhost (ScriptedUsb.Bus ((0, x1) :: good_status :: rest) tr)
     direction command clen None dlen rs t
  = (0, None, memset rs 0 0 18,
     ScriptedUsb.Bus rest
       (tr ++ [ScriptedUsb.BulkOut (command_block command); ScriptedUsb.BulkIn 16])).
Proof.
  intros Hn Hc Hd. unfold send_command.
  cbn [orb]. cbv iota.
  rewrite usb_send_command_none; [| rewrite length_bb; lia | exact Hn | exact Hc].
  cbv zeta.
  change (@libusb_bulk_transfer _ usbhost) with ScriptedUsb.bulk_transfer.
  unfold ScriptedUsb.bulk_transfer at 1.
  change (CMD_OUT =? CMD_OUT) with true.
  cbn [ScriptedUsb.script ScriptedUsb.trace].
  change (negb (0 =? 0)) with false. cbv iota.
  rewrite scripted_good_status.
  change (negb (0 =? 0)) with false. cbv iota.
  cbn [status dir]. change (be32 (replicate 16 0) 12) with 0.
  change (0 =? -2) with false. change (0 <? -1) with false.
  change (CMD_NONE =? CMD_IN) with false.
  change (negb (0 =? 0)) with false. cbv iota.
  rewrite <- app_assoc. reflexivity.
Qed.

(** A command with data to the device, every transfer succeeding, good
    status. *)
Lemma scripted_send_out command clen rest tr rs t d dlen x1 x2 :
  Z.to_nat clen = length command -> (length command <= 12)%nat ->
  0 < dlen < 4294967296 - 12 -> (Z.to_nat dlen <= length d)%nat ->
  @send_command _ usbhost
     (ScriptedUsb.Bus ((0, x1) :: (0, x2) :: good_status :: rest) tr)
     SG_DXFER_TO_DEV command clen (Some d) dlen rs t
  = (0, Some d, memset rs 0 0 18,
     ScriptedUsb.Bus rest
       (tr ++ [ScriptedUsb.BulkOut (command_block command);
               ScriptedUsb.BulkOut (data_block (take (Z.to_nat dlen) d));
               ScriptedUsb.BulkIn 16])).
Proof.
  intros Hn Hc Hd Hl. unfold send_command.
  assert (Hdir : (if (if Some d is None then true else false) || (dlen =? 0)
                  then CMD_NONE
                  else if SG_DXFER_TO_DEV =? SG_DXFER_TO_DEV then CMD_OUT else CMD_IN)
                 = CMD_OUT).
  { destruct (Z.eqb_spec dlen 0); [lia | reflexivity]. }
  rewrite Hdir. clear Hdir.
  destruct (@usb_send_command_out _ usbhost
              (ScriptedUsb.Bus ((0, x1) :: (0, x2) :: good_status :: rest) tr)
              command clen d dlen
              (Response 0 (replicate (Z.to_nat RESPONSE_SIZE) 0))
              (@alloca _ usbhost
                 (sizeof_bulk_header +
                  (if dlen >? MAX_CMD_SIZE then dlen else MAX_CMD_SIZE))) t)
    as [h' ->]; [rewrite length_bb; lia | exact Hn | exact Hc | lia | rewrite length_bb; lia
                | exact Hl |].
  cbv zeta.
  change (@libusb_bulk_transfer _ usbhost) with ScriptedUsb.bulk_transfer.
  unfold ScriptedUsb.bulk_transfer at 1.
  change (CMD_OUT =? CMD_OUT) with true.
  cbn [ScriptedUsb.script ScriptedUsb.trace].
  change (negb (0 =? 0)) with false. cbv iota.
  unfold ScriptedUsb.bulk_transfer at 1.
  change (CMD_OUT =? CMD_OUT) with true.
  cbn [ScriptedUsb.script ScriptedUsb.trace].
  change (negb (0 =? 0)) with false. cbv iota.
  rewrite scripted_good_status.
  change (negb (0 =? 0)) with false. cbv iota.
  cbn [status dir]. change (be32 (replicate 16 0) 12) with 0.
  change (0 =? -2) with false. change (0 <? -1) with false.
  change (CMD_OUT =? CMD_IN) with false.
  change (negb (0 =? 0)) with false. cbv iota.
  rewrite <- !app_assoc. reflexivity.
Qed.

(** A command with data from the device, every transfer succeeding, the
    data delivered in full, good status. *)
Lemma scripted_send_in command clen rest tr rs t direction buffer dlen x1 header payload :
  Z.to_nat clen = length command -> (length command <= 12)%nat ->
  direction <> SG_DXFER_TO_DEV -> 0 < dlen ->
  length header = 12%nat -> length payload = Z.to_nat dlen ->
  @send_command _ usbhost
     (ScriptedUsb.Bus ((0, x1) :: (0, header ++ payload) :: good_status :: rest) tr)
     direction command clen (Some buffer) dlen rs t
  = (0, Some ((u8 <$> payload) ++ drop (Z.to_nat dlen) buffer), memset rs 0 0 18,
     ScriptedUsb.Bus rest
       (tr ++ [ScriptedUsb.BulkOut (command_block command);
               ScriptedUsb.BulkIn (12 + dlen); ScriptedUsb.BulkIn 16])).
Proof.
  intros Hn Hc Hdir Hd Hh Hp. unfold send_command.
  assert (Edir : (if (if Some buffer is None then true else false) || (dlen =? 0)
                  then CMD_NONE
                  else if direction =? SG_DXFER_TO_DEV then CMD_OUT else CMD_IN)
                 = CMD_IN).
  { destruct (Z.eqb_spec dlen 0); [lia|].
    destruct (Z.eqb_spec direction SG_DXFER_TO_DEV); [contradiction | reflexivity]. }
  rewrite Edir. clear Edir.
  rewrite usb_send_command_in; [| rewrite length_bb; lia | exact Hn | exact Hc].
  cbv zeta.
  change (@libusb_bulk_transfer _ usbhost) with ScriptedUsb.bulk_transfer.
  unfold ScriptedUsb.bulk_transfer at 1.
  change (CMD_OUT =? CMD_OUT) with true.
  cbn [ScriptedUsb.script ScriptedUsb.trace].
  change (negb (0 =? 0)) with false. cbv iota.
  unfold bulk_in at 1.
  change (@libusb_bulk_transfer _ usbhost) with ScriptedUsb.bulk_transfer.
  unfold ScriptedUsb.bulk_transfer at 1.
  change (CMD_IN =? CMD_OUT) with false.
  cbn [ScriptedUsb.script ScriptedUsb.trace].
  assert (Hrec : length (take (Z.to_nat (12 + dlen)) (u8 <$> header ++ payload))
                 = (12 + Z.to_nat dlen)%nat).
  { rewrite length_take, length_fmap, length_app. lia. }
  rewrite Hrec at 1.
  destruct (Z.ltb_spec (Z.of_nat (12 + Z.to_nat dlen)) 12) as [Hlt|_]; [lia|].
  change (negb (0 =? 0) || false) with false. cbv iota.
  rewrite scripted_good_status.
  change (negb (0 =? 0)) with false. cbv iota.
  cbn [status dir data data_size]. change (be32 (replicate 16 0) 12) with 0.
  change (0 =? -2) with false. change (0 <? -1) with false.
  change (CMD_IN =? CMD_IN) with true.
  change (negb (0 =? 0)) with false. cbv iota.
  unfold default, from_option, id. cbv beta iota.
  rewrite data_copied; [| exact Hh | exact Hp | lia].
  rewrite <- !app_assoc. reflexivity.
Qed.

(** X4: what [send_command] puts on the bus when every transfer succeeds
    and the device reports good status.  A command without data (a null
    data pointer, whatever the direction and the length given) takes the
    24-byte command block out and 16 bytes of status in.  A command with
    data to the device takes the command block, then one data block (the
    12-byte header with the length of the block, type 2 and code 0xb000,
    then the first [data_length] bytes of the data), then the status.  A
    command with data and any other direction takes the command block, a
    read of 12 + [data_length] bytes, then the status; the bytes after the
    12-byte header, which the driver does not look at, land at the start
    of the caller's buffer. *)
Theorem usb_framing (command : list Z) (clen : Z) (rest : list (Z * list Z))
    (tr : list ScriptedUsb.event) (rs : list Z) (t : Z) :
  Z.to_nat clen = length command -> (length command <= 12)%nat ->
  (forall direction dlen x1,
      0 <= dlen ->
      @send_command _ usbhost (ScriptedUsb.Bus ((0, x1) :: good_status :: rest) tr)
         direction command clen None dlen rs t
      = (0, None, memset rs 0 0 18,
         ScriptedUsb.Bus rest
           (tr ++ [ScriptedUsb.BulkOut (command_block command); ScriptedUsb.BulkIn 16]))) /\
  (forall d dlen x1 x2,
      0 < dlen < 4294967296 - 12 -> (Z.to_nat dlen <= length d)%nat ->
      @send_command _ usbhost
         (ScriptedUsb.Bus ((0, x1) :: (0, x2) :: good_status :: rest) tr)
         SG_DXFER_TO_DEV command clen (Some d) dlen rs t
      = (0, Some d, memset rs 0 0 18,
         ScriptedUsb.Bus rest
           (tr ++ [ScriptedUsb.BulkOut (command_block command);
                   ScriptedUsb.BulkOut (data_block (take (Z.to_nat dlen) d));
                   ScriptedUsb.BulkIn 16]))) /\
  (forall direction buffer dlen x1 header payload,
      direction <> SG_DXFER_TO_DEV -> 0 < dlen ->
      length header = 12%nat -> length payload = Z.to_nat dlen ->
      @send_command _ usbhost
         (ScriptedUsb.Bus ((0, x1) :: (0, header ++ payload) :: good_status :: rest) tr)
         direction command clen (Some buffer) dlen rs t
      = (0, Some ((u8 <$> payload) ++ drop (Z.to_nat dlen) buffer), memset rs 0 0 18,
         ScriptedUsb.Bus rest
           (tr ++ [ScriptedUsb.BulkOut (command_block command);
                   ScriptedUsb.BulkIn (12 + dlen); ScriptedUsb.BulkIn 16]))).
Proof.
  intros Hn Hc. split; [|split].
  - intros. apply scripted_send_none; assumption.
  - intros. apply scripted_send_out; assumption.
  - intros. apply scripted_send_in; assumption.
Qed.

End ScriptedFraming.

Lemma usb_framing_witness :
  (@KVS3105.send_command _ (ScriptedUsb.libusb LittleEndian (fun _ => []))
     (ScriptedUsb.Bus [(0, []); good_status] [])
     SG_DXFER_FROM_DEV [0; 0; 0; 0; 0; 0] 6 None 0 (replicate 20 0) 0).2
  = ScriptedUsb.Bus []
      [ScriptedUsb.BulkOut (command_block [0; 0; 0; 0; 0; 0]); ScriptedUsb.BulkIn 16].
Proof.
  destruct (usb_framing LittleEndian (fun _ => []) [0; 0; 0; 0; 0; 0] 6 [] []
              (replicate 20 0) 0 eq_refl) as (Hnone & _); [simpl; lia|].
  rewrite Hnone by lia. reflexivity.
Defined.


(** ** The byte count of an image read *)

Lemma be32_range m i : 0 <= be32 m i < 4294967296.
Proof.
  unfold be32.
  pose proof (rd_range m i). pose proof (rd_range m (i + 1)).
  pose proof (rd_range m (i + 2)). pose proof (rd_range m (i + 3)). lia.
Qed.

Lemma requested_min limit blen :
  (if limit <? blen then limit else blen) = Z.min blen limit.
Proof. destruct (Z.ltb_spec limit blen); lia. Qed.

(** The unsigned subtraction [length - delta] of [read_data]. *)
Lemma short_read_count len delta :
  0 <= len < 4294967296 -> 0 <= delta < 4294967296 ->
  0 <= u32 (len - delta) < 4294967296 /\
  (delta <= len -> u32 (len - delta) = len - delta) /\
  (len < delta -> u32 (len - delta) = 4294967296 + len - delta).
Proof. intros Hl Hd. unfold u32. repeat split; try intros; euclid. Qed.

Lemma land_1_cases x : Z.land x 1 = 0 \/ Z.land x 1 = 1.
Proof.
  assert (E : Z.land x 1 = x mod 2) by (apply (Z.land_ones x 1); lia).
  rewrite E. euclid.
Qed.

(** X5: [read_data] returns 0 or 1, never the code of the transport, and
    stores a byte count and an end-of-page flag exactly when it returns 0.
    It asks for [min blen 0x10000] bytes.  The flag is 0 or 1.  The byte
    count is the request after a read that succeeded; after a short read
    it is the request less the residual of the sense data (bytes 3 to 6,
    most significant first) when the residual is at most the request, and
    it wraps around to 2^32 + request - residual, more than was requested,
    when the device reports a larger residual.  This holds in both
    drivers, for every device. *)
Theorem read_data_byte_count
    `{KVS3105.Libusb bus} `{KVSS905C.SgIo sg} (b : bus) (g : sg)
    (page back blen : Z) (buffer rs : list Z) :
  0 <= blen < 4294967296 ->
  let len := Z.min blen 0x10000 in
  let ok (r : Z) (out : option (Z * Z)) (r0 : Z) (rs' : list Z) :=
    (r = 0 \/ r = 1) /\
    (r = 1 -> out = None) /\
    (r = 0 ->
     exists result eop,
       out = Some (result, eop) /\ (eop = 0 \/ eop = 1) /\
       (r0 = 0 -> result = len /\ eop = 0) /\
       (r0 <> 0 ->
        (be32 rs' 3 <= len -> result = len - be32 rs' 3) /\
        (len < be32 rs' 3 -> result = 4294967296 + len - be32 rs' 3 /\ len < result)))
  in
  (let '(r0, _, rs', _) :=
     KVS3105.kvs3105_read b KVS3105.KVS3105_READ_IMAGE (u8 page)
       (if u8 back =? 0 then 0 else 0x80) buffer len rs in
   let '(r, out, _, _, _) := KVS3105.kvs3105_read_data b page back buffer blen rs in
   ok r out r0 rs') /\
  (let '(r0, _, rs', _) :=
     KVSS905C.kvss905c_read g KVSS905C.KVSS905C_READ_IMAGE (u8 page)
       (if u8 back =? 0 then 0 else 0x80) buffer len rs in
   let '(r, out, _, _, _) := KVSS905C.kvss905c_read_data g page back buffer blen rs in
   ok r out r0 rs').
Proof.
  intros Hb len ok.
  assert (Hlen : 0 <= len < 4294967296) by (subst len; lia).
  split.
  - unfold KVS3105.kvs3105_read_data.
    rewrite requested_min. change KVS3105.kMaxBuffer with 0x10000. fold len.
    destruct (KVS3105.kvs3105_read b _ _ _ buffer len rs) as [[[r0 buffer'] rs'] b'].
    destruct (Z.eqb_spec r0 0) as [E0|E0]; cbn [negb].
    + subst ok. cbv beta iota zeta. split; [left; reflexivity|].
      split; [discriminate|]. intros _. exists len, 0.
      split; [reflexivity|]. split; [left; reflexivity|].
      split; [intros _; split; reflexivity | intros E; contradiction].
    + destruct (_ && _).
      * rewrite ntohl_load_u32.
        pose proof (be32_range rs' 3) as Hd.
        destruct (short_read_count len (be32 rs' 3) Hlen Hd) as (Hr & Hle & Hgt).
        subst ok. cbv beta iota zeta. split; [left; reflexivity|].
        split; [discriminate|]. intros _. eexists _, _.
        split; [reflexivity|]. split; [apply land_1_cases|].
        split; [intros E; contradiction|]. intros _.
        split; [exact Hle|]. intros Hlt. rewrite (Hgt Hlt). lia.
      * subst ok. cbv beta iota zeta. split; [right; reflexivity|].
        split; [reflexivity | discriminate].
  - unfold KVSS905C.kvss905c_read_data.
    rewrite requested_min. change KVSS905C.kMaxBuffer with 0x10000. fold len.
    destruct (KVSS905C.kvss905c_read g _ _ _ buffer len rs) as [[[r0 buffer'] rs'] g'].
    destruct (Z.eqb_spec r0 0) as [E0|E0]; cbn [negb].
    + subst ok. cbv beta iota zeta. split; [left; reflexivity|].
      split; [discriminate|]. intros _. exists len, 0.
      split; [reflexivity|]. split; [left; reflexivity|].
      split; [intros _; split; reflexivity | intros E; contradiction].
    + destruct (_ && _).
      * rewrite ntohl_load_u32.
        pose proof (be32_range rs' 3) as Hd.
        destruct (short_read_count len (be32 rs' 3) Hlen Hd) as (Hr & Hle & Hgt).
        subst ok. cbv beta iota zeta. split; [left; reflexivity|].
        split; [discriminate|]. intros _. eexists _, _.
        split; [reflexivity|]. split; [right; reflexivity|].
        split; [intros E; contradiction|]. intros _.
        split; [exact Hle|]. intros Hlt. rewrite (Hgt Hlt). lia.
      * subst ok. cbv beta iota zeta. split; [right; reflexivity|].
        split; [reflexivity | discriminate].
Qed.

Lemma read_data_byte_count_witness :
  let sense := read_sense 0x60 0x20000 in
  let usb := usb_failed_read [1; 2; 3] sense in
  let sg := sg_failed_read [1; 2; 3] sense in
  let buffer := replicate (Z.to_nat 0x10000) 0 in
  let rs := replicate 20 0 in
  exists eop,
    (@KVS3105.kvs3105_read_data _ (ScriptedUsb.libusb LittleEndian (fun _ => []))
       usb 0 0 buffer 0x10000 rs).1.1.1.2
    = Some (4294967296 + 0x10000 - 0x20000, eop).
Proof.
  intros sense usb sg buffer rs.
  set (usbhost := ScriptedUsb.libusb LittleEndian (fun _ => [])).
  set (sghost := ScriptedSg.sgio LittleEndian (fun _ => [])).
  assert (Hb : 0 <= 0x10000 < 4294967296) by lia.
  pose proof (@read_data_byte_count _ usbhost _ sghost usb sg 0 0 0x10000 buffer rs Hb)
    as [Hu _].
  change (Z.min 0x10000 0x10000) with 0x10000 in Hu.
  assert (U1 : (@KVS3105.kvs3105_read _ usbhost usb KVS3105.KVS3105_READ_IMAGE (u8 0)
                  (if u8 0 =? 0 then 0 else 0x80) buffer 0x10000 rs).1.1.1 = 2)
    by (vm_compute; reflexivity).
  assert (U2 : (@KVS3105.kvs3105_read _ usbhost usb KVS3105.KVS3105_READ_IMAGE (u8 0)
                  (if u8 0 =? 0 then 0 else 0x80) buffer 0x10000 rs).1.2 = sense ++ [0; 0])
    by (vm_compute; reflexivity).
  assert (U3 : (@KVS3105.kvs3105_read_data _ usbhost usb 0 0 buffer 0x10000 rs).1.1.1.1 = 0)
    by (vm_compute; reflexivity).
  destruct (@KVS3105.kvs3105_read _ usbhost usb KVS3105.KVS3105_READ_IMAGE (u8 0)
              (if u8 0 =? 0 then 0 else 0x80) buffer 0x10000 rs)
    as [[[r0 buf1] rs1] b1].
  destruct (@KVS3105.kvs3105_read_data _ usbhost usb 0 0 buffer 0x10000 rs)
    as [[[[r out] buf2] rs2] b2].
  simpl in U1, U2, U3. subst r0 rs1 r.
  destruct Hu as (_ & _ & Hsome).
  destruct (Hsome eq_refl) as (result & eop & -> & _ & _ & Hshort).
  destruct Hshort as [_ Hwrap]; [discriminate|].
  destruct Hwrap as [-> _]; [vm_compute; reflexivity|].
  exists eop. reflexivity.
Defined.

(** ** A data phase that delivers less than was asked for *)

Lemma data_copied_short (buffer cb header p : list Z) (dsz : Z) :
  length header = 12%nat -> (length p <= Z.to_nat dsz)%nat -> 0 <= dsz ->
  let received := take (Z.to_nat (12 + dsz)) (u8 <$> (header ++ p)) in
  memcpy buffer 0 (drop 12 (memcpy cb 0 received (length received))) (Z.to_nat dsz)
  = take (Z.to_nat dsz) ((u8 <$> p) ++ drop (12 + length p) cb)
    ++ drop (Z.to_nat dsz) buffer.
Proof.
  intros Hh Hp Hdsz received.
  assert (Hr : received = (u8 <$> header) ++ (u8 <$> p)).
  { subst received. rewrite fmap_app. apply take_ge.
    rewrite length_app, !length_fmap, Hh. lia. }
  rewrite Hr. clear Hr received.
  unfold memcpy. rewrite !take_0, !app_nil_l.
  rewrite (take_ge ((u8 <$> header) ++ (u8 <$> p))) by lia.
  rewrite <- (app_assoc (u8 <$> header)).
  rewrite (drop_app_length' (u8 <$> header)) by (rewrite length_fmap; symmetry; exact Hh).
  rewrite length_app, !length_fmap, Hh. reflexivity.
Qed.

Section ShortDataPhase.
Import KVS3105.
Variables (h : endianness) (ind : nat -> list Z).

Local Abbreviation usbhost := (ScriptedUsb.libusb h ind).

(** A command with data from the device whose data phase delivers the
    header and [payload], at most the bytes asked for. *)
Lemma scripted_send_in_short command clen rest tr rs t direction buffer dlen x1
    header payload :
  Z.to_nat clen = length command -> (length command <= 12)%nat ->
  direction <> SG_DXFER_TO_DEV -> 0 < dlen ->
  length header = 12%nat -> (length payload <= Z.to_nat dlen)%nat ->
  let bb := @alloca _ usbhost
              (sizeof_bulk_header +
               (if dlen >? MAX_CMD_SIZE then dlen else MAX_CMD_SIZE)) in
  let stale := drop (12 + length payload)
                    (command_buffer h bb command (Z.to_nat clen)) in
  @send_command _ usbhost
     (ScriptedUsb.Bus ((0, x1) :: (0, header ++ payload) :: good_status :: rest) tr)
     direction command clen (Some buffer) dlen rs t
  = (0, Some (take (Z.to_nat dlen) ((u8 <$> payload) ++ stale)
              ++ drop (Z.to_nat dlen) buffer),
     memset rs 0 0 18,
     ScriptedUsb.Bus rest
       (tr ++ [ScriptedUsb.BulkOut (command_block command);
               ScriptedUsb.BulkIn (12 + dlen); ScriptedUsb.BulkIn 16])).
Proof.
  intros Hn Hc Hdir Hd Hh Hp bb stale. unfold send_command.
  assert (Edir : (if (if Some buffer is None then true else false) || (dlen =? 0)
                  then CMD_NONE
                  else if direction =? SG_DXFER_TO_DEV then CMD_OUT else CMD_IN)
                 = CMD_IN).
  { destruct (Z.eqb_spec dlen 0); [lia|].
    destruct (Z.eqb_spec direction SG_DXFER_TO_DEV); [contradiction | reflexivity]. }
  rewrite Edir. clear Edir. fold bb.
  rewrite usb_send_command_in;
    [| subst bb; rewrite length_bb; lia | exact Hn | exact Hc].
  cbv zeta.
  change (@libusb_bulk_transfer _ usbhost) with ScriptedUsb.bulk_transfer.
  change (@host _ usbhost) with h.
  unfold ScriptedUsb.bulk_transfer at 1.
  change (CMD_OUT =? CMD_OUT) with true.
  cbn [ScriptedUsb.script ScriptedUsb.trace].
  change (negb (0 =? 0)) with false. cbv iota.
  unfold bulk_in at 1.
  change (@libusb_bulk_transfer _ usbhost) with ScriptedUsb.bulk_transfer.
  unfold ScriptedUsb.bulk_transfer at 1.
  change (CMD_IN =? CMD_OUT) with false.
  cbn [ScriptedUsb.script ScriptedUsb.trace].
  assert (Hrec : length (take (Z.to_nat (12 + dlen)) (u8 <$> header ++ payload))
                 = (12 + length payload)%nat).
  { rewrite length_take, length_fmap, length_app. lia. }
  rewrite Hrec at 1.
  destruct (Z.ltb_spec (Z.of_nat (12 + length payload)) 12) as [Hlt|_]; [lia|].
  change (negb (0 =? 0) || false) with false. cbv iota.
  rewrite scripted_good_status.
  change (negb (0 =? 0)) with false. cbv iota.
  cbn [status dir data data_size]. change (be32 (replicate 16 0) 12) with 0.
  change (0 =? -2) with false. change (0 <? -1) with false.
  change (CMD_IN =? CMD_IN) with true.
  change (negb (0 =? 0)) with false. cbv iota.
  unfold default, from_option, id. cbv beta iota.
  rewrite data_copied_short; [| exact Hh | exact Hp | lia].
  rewrite <- !app_assoc. reflexivity.
Qed.

(** The bytes of the transfer buffer that follow the header, when nothing
    has been received over them: the command, padded with zeros. *)
Lemma stale_command command clen dlen :
  Z.to_nat clen = length command -> (length command <= 12)%nat -> 0 <= dlen <= 12 ->
  take (Z.to_nat dlen)
       (drop 12 (command_buffer h
                   (@alloca _ usbhost
                      (sizeof_bulk_header +
                       (if dlen >? MAX_CMD_SIZE then dlen else MAX_CMD_SIZE)))
                   command (Z.to_nat clen)))
  = take (Z.to_nat dlen) (command ++ replicate 12 0).
Proof.
  intros Hn Hc Hd.
  set (bb := @alloca _ usbhost _).
  assert (Hbb : (24 <= length bb)%nat) by (subst bb; rewrite length_bb; lia).
  pose proof (command_block_sent h bb command (Z.to_nat clen) Hbb Hn
                ltac:(lia)) as Hcb.
  fold (command_buffer h bb command (Z.to_nat clen)) in Hcb.
  assert (E : take 12 (drop 12 (command_buffer h bb command (Z.to_nat clen)))
              = take 12 (command ++ replicate 12 0)).
  { rewrite take_drop_commute. change (12 + 12)%nat with 24%nat.
    rewrite Hcb. reflexivity. }
  replace (Z.to_nat dlen) with (Z.to_nat dlen `min` 12)%nat by lia.
  rewrite <- !take_take. rewrite E. reflexivity.
Qed.

(** X7: the USB transport copies [data_length] bytes out of its transfer
    buffer into the caller's buffer however many bytes the data phase
    delivered.  When the device delivers the 12-byte header and fewer
    bytes than were asked for, and then good status, [send_command]
    returns 0 and the caller's buffer holds the bytes delivered followed
    by what the transfer buffer held behind them.  When only the header
    arrives and at most 12 bytes were asked for, these are the bytes of the
    command itself, padded with zeros: GET DATA BUFFER STATUS then reports
    window 0 and length 0. *)
Theorem usb_short_data_phase (command : list Z) (clen : Z)
    (rest : list (Z * list Z)) (tr : list ScriptedUsb.event) (rs : list Z) (t : Z)
    (direction : Z) (buffer : list Z) (dlen : Z) (x1 header payload : list Z) :
  Z.to_nat clen = length command -> (length command <= 12)%nat ->
  direction <> SG_DXFER_TO_DEV -> 0 < dlen ->
  length header = 12%nat -> (length payload <= Z.to_nat dlen)%nat ->
  let bus := ScriptedUsb.Bus ((0, x1) :: (0, header ++ payload) :: good_status :: rest) tr in
  let res := @send_command _ usbhost bus direction command clen (Some buffer) dlen rs t in
  let stale := drop (12 + length payload)
                    (command_buffer h
                       (@alloca _ usbhost
                          (sizeof_bulk_header +
                           (if dlen >? MAX_CMD_SIZE then dlen else MAX_CMD_SIZE)))
                       command (Z.to_nat clen)) in
  res.1.1.1 = 0 /\
  res.1.1.2 = Some (take (Z.to_nat dlen) ((u8 <$> payload) ++ stale)
                    ++ drop (Z.to_nat dlen) buffer) /\
  (payload = [] -> dlen <= 12 ->
   res.1.1.2 = Some (take (Z.to_nat dlen) (command ++ replicate 12 0)
                     ++ drop (Z.to_nat dlen) buffer)) /\
  (@get_data_buffer_status _ usbhost
     (ScriptedUsb.Bus ((0, x1) :: (0, header) :: good_status :: rest) tr) rs).1.1
  = (0, Some (0, 0)).
Proof.
  intros Hn Hc Hdir Hd Hh Hp bus res stale.
  assert (E : res = (0, Some (take (Z.to_nat dlen) ((u8 <$> payload) ++ stale)
                              ++ drop (Z.to_nat dlen) buffer),
                     memset rs 0 0 18,
                     ScriptedUsb.Bus rest
                       (tr ++ [ScriptedUsb.BulkOut (command_block command);
                               ScriptedUsb.BulkIn (12 + dlen); ScriptedUsb.BulkIn 16])))
    by (apply scripted_send_in_short; assumption).
  rewrite E. cbn [fst snd].
  split; [reflexivity|]. split; [reflexivity|]. split.
  - intros -> Hle. subst stale. cbn [fmap list_fmap app length Nat.add].
    change (12 + 0)%nat with 12%nat.
    rewrite stale_command by (assumption || lia). reflexivity.
  - pose proof (scripted_send_in_short [0x34; 0; 0; 0; 0; 0; 0; 0; 12; 0] 10 rest tr rs 0
                  SG_DXFER_FROM_DEV (@alloca _ usbhost 12) 12 x1 header []
                  eq_refl ltac:(simpl; lia) ltac:(discriminate) ltac:(lia) Hh
                  ltac:(simpl; lia)) as Es.
    cbv zeta in Es. cbn [fmap list_fmap app length] in Es.
    change (12 + 0)%nat with 12%nat in Es.
    rewrite (stale_command [0x34; 0; 0; 0; 0; 0; 0; 0; 12; 0] 10 12 eq_refl
               ltac:(simpl; lia) ltac:(lia)) in Es.
    rewrite app_nil_r in Es.
    rewrite (kvs3105_buffer_status_decodes _ rs _ _ _ Es). reflexivity.
Qed.

End ShortDataPhase.

Lemma usb_short_data_phase_witness :
  (@KVS3105.send_command _ (ScriptedUsb.libusb LittleEndian (fun _ => []))
     (ScriptedUsb.Bus [(0, []); (0, replicate 12 0); good_status] [])
     SG_DXFER_FROM_DEV [0x34; 0; 0; 0; 0; 0; 0; 0; 12; 0] 10
     (Some (replicate 12 7)) 12 (replicate 20 0) 0).1.1.2
  = Some [0x34; 0; 0; 0; 0; 0; 0; 0; 12; 0; 0; 0].
Proof.
  destruct (usb_short_data_phase LittleEndian (fun _ => [])
              [0x34; 0; 0; 0; 0; 0; 0; 0; 12; 0] 10 [] [] (replicate 20 0) 0
              SG_DXFER_FROM_DEV (replicate 12 7) 12 [] (replicate 12 0) [])
    as (_ & _ & Hc & _);
    [reflexivity | simpl; lia | discriminate | lia | reflexivity | simpl; lia |].
  rewrite app_nil_r in Hc. rewrite Hc by (reflexivity || lia). reflexivity.
Defined.

(** ** The picture size *)

Lemma be32_payload (p t : list Z) (i : nat) :
  (i + 3 < length p)%nat -> be32 ((u8 <$> p) ++ t) i = be32 p i.
Proof.
  intros Hi. unfold be32, rd.
  assert (Hnth : forall j, (j < length p)%nat ->
            u8 (nth j ((u8 <$> p) ++ t) 0) = u8 (nth j p 0)).
  { intros j Hj. rewrite app_nth1 by (rewrite length_fmap; lia).
    change 0 with (u8 0) at 1. rewrite (map_nth u8). apply u8_u8. }
  rewrite !Hnth by lia. reflexivity.
Qed.

Section ScriptedSgData.
Import KVSS905C.
Variables (h : endianness) (ind : nat -> list Z).

Local Abbreviation sghost := (ScriptedSg.sgio h ind).

(** A command with data from the device that the device answers in full
    with good status: one ioctl. *)
Lemma sg_scripted_in command clen rest tr rs t buffer dlen sense payload :
  length payload = Z.to_nat dlen ->
  @scsi_command _ sghost (ScriptedSg.Dev (SgReply 0 0 sense payload :: rest) tr)
     SG_DXFER_FROM_DEV command clen (Some buffer) dlen rs t
  = (0, Some ((u8 <$> payload) ++ drop (Z.to_nat dlen) buffer),
     sense_after rs (SgReply 0 0 sense payload),
     ScriptedSg.Dev rest (tr ++ [ScriptedSg.Ioctl command None])).
Proof.
  intros Hp. unfold scsi_command.
  cbn [scsi_command_loop]. unfold ioctl_SG_IO at 1.
  change (@ioctl _ sghost) with ScriptedSg.do_ioctl.
  unfold ScriptedSg.do_ioctl at 1, ScriptedSg.data_out_of.
  cbn [ScriptedSg.script ScriptedSg.trace cmdp dxfer_direction dxfer_len dxferp
       io_ret io_masked_status io_sense io_data mx_sb_len].
  change (SG_DXFER_FROM_DEV =? SG_DXFER_TO_DEV) with false.
  change (SG_DXFER_FROM_DEV =? SG_DXFER_FROM_DEV) with true. cbv iota.
  change (negb (0 =? 0)) with false. cbv iota.
  change (negb (u8 0 =? 0)) with false. cbv iota.
  cbn [fmap option_fmap option_map].
  rewrite (take_ge (u8 <$> payload)) by (rewrite length_fmap; lia).
  unfold memcpy at 1. rewrite take_0, app_nil_l, take_ge by lia.
  rewrite length_fmap, Hp. reflexivity.
Qed.

End ScriptedSgData.

(** X6: the picture size.  Both drivers send READ with data type 0x80,
    the page as a byte, 0x80 for the back side and a length of 16; when the
    device answers 16 bytes and good status they return 0 with the width
    read from bytes 0 to 3 and the height from bytes 4 to 7 of the answer,
    most significant byte first, whatever the byte order of the host; bytes
    8 to 15 are not looked at.  When the READ fails they return its code
    and store nothing. *)
Theorem picture_size_decodes (h : endianness) (ind : nat -> list Z)
    (page back : Z) (rs x1 header sense payload : list Z)
    (rest : list (Z * list Z)) (tr : list ScriptedUsb.event)
    (rest' : list KVSS905C.sg_reply) (tr' : list ScriptedSg.event) :
  length header = 12%nat -> length payload = 16%nat ->
  let command := read_command 0x80 (u8 page) (if u8 back =? 0 then 0 else 0x80) 16 in
  @KVS3105.kvs3105_picture_size _ (ScriptedUsb.libusb h ind)
     (ScriptedUsb.Bus ((0, x1) :: (0, header ++ payload) :: good_status :: rest) tr)
     page back rs
  = (0, Some (be32 payload 0, be32 payload 4), memset rs 0 0 18,
     ScriptedUsb.Bus rest
       (tr ++ [ScriptedUsb.BulkOut (command_block command);
               ScriptedUsb.BulkIn 28; ScriptedUsb.BulkIn 16])) /\
  @KVSS905C.kvss905c_picture_size _ (ScriptedSg.sgio h ind)
     (ScriptedSg.Dev (KVSS905C.SgReply 0 0 sense payload :: rest') tr') page back rs
  = (0, Some (be32 payload 0, be32 payload 4),
     sense_after rs (KVSS905C.SgReply 0 0 sense payload),
     ScriptedSg.Dev rest' (tr' ++ [ScriptedSg.Ioctl command None])) /\
  (forall (bus : Type) (L : KVS3105.Libusb bus) (b : bus) r buffer' rs' b',
      KVS3105.kvs3105_read b 0x80 (u8 page) (if u8 back =? 0 then 0 else 0x80)
        (memset (KVS3105.alloca 16) 0 0 16) 16 rs = (r, buffer', rs', b') ->
      r <> 0 -> KVS3105.kvs3105_picture_size b page back rs = (r, None, rs', b')) /\
  (forall (sg : Type) (G : KVSS905C.SgIo sg) (g : sg) r buffer' rs' g',
      KVSS905C.kvss905c_read g 0x80 (u8 page) (if u8 back =? 0 then 0 else 0x80)
        (memset (KVSS905C.alloca 16) 0 0 16) 16 rs = (r, buffer', rs', g') ->
      r <> 0 -> KVSS905C.kvss905c_picture_size g page back rs = (r, None, rs', g')).
Proof.
  intros Hh Hp command.
  split; [|split; [|split]].
  - unfold KVS3105.kvs3105_picture_size, KVS3105.kvs3105_read.
    change KVS3105.KVS3105_READ_PICTURE_ELEMENT_SIZE with 0x80.
    fold (read_command 0x80 (u8 page) (if u8 back =? 0 then 0 else 0x80) 16).
    fold command.
    rewrite (scripted_send_in h ind command 10 rest tr rs 0 SG_DXFER_FROM_DEV _ 16 x1
               header payload);
      [| reflexivity | simpl; lia | discriminate | lia | exact Hh | exact Hp].
    unfold default, from_option, id. cbv beta iota.
    change (negb (0 =? 0)) with false. cbv iota.
    rewrite !ntohl_load_u32, !be32_payload by (rewrite Hp; lia).
    reflexivity.
  - unfold KVSS905C.kvss905c_picture_size, KVSS905C.kvss905c_read.
    change KVSS905C.KVSS905C_READ_PICTURE_ELEMENT_SIZE with 0x80.
    fold (read_command 0x80 (u8 page) (if u8 back =? 0 then 0 else 0x80) 16).
    fold command.
    rewrite (sg_scripted_in h ind command 10 rest' tr' rs 0 _ 16 sense payload)
      by exact Hp.
    unfold default, from_option, id. cbv beta iota.
    change (negb (0 =? 0)) with false. cbv iota.
    rewrite !ntohl_load_u32, !be32_payload by (rewrite Hp; lia).
    reflexivity.
  - intros bus L b r buffer' rs' b' E Hr.
    unfold KVS3105.kvs3105_picture_size.
    change KVS3105.KVS3105_READ_PICTURE_ELEMENT_SIZE with 0x80.
    rewrite E, (negb_eqb_0 r Hr). reflexivity.
  - intros sg G g r buffer' rs' g' E Hr.
    unfold KVSS905C.kvss905c_picture_size.
    change KVSS905C.KVSS905C_READ_PICTURE_ELEMENT_SIZE with 0x80.
    rewrite E, (negb_eqb_0 r Hr). reflexivity.
Qed.

Lemma picture_size_decodes_witness :
  (@KVS3105.kvs3105_picture_size _ (ScriptedUsb.libusb LittleEndian (fun _ => []))
     (ScriptedUsb.Bus
        [(0, []); (0, replicate 12 0 ++ [0; 0; 0x13; 0xec; 0; 0; 0x19; 0xc8;
                                        0; 0; 0; 0; 0; 0; 0; 0]); good_status] [])
     3 1 (replicate 20 0)).1.1.2
  = Some (5100, 6600).
Proof.
  destruct (picture_size_decodes LittleEndian (fun _ => []) 3 1 (replicate 20 0) []
              (replicate 12 0) []
              [0; 0; 0x13; 0xec; 0; 0; 0x19; 0xc8; 0; 0; 0; 0; 0; 0; 0; 0]
              [] [] [] [] eq_refl eq_refl) as (Hu & _).
  rewrite Hu. reflexivity.
Defined.

(** ** The window record on the wire *)

Lemma window_record_length id gap w :
  length gap = 6%nat -> length (window_record id gap w) = 64%nat.
Proof.
  intros Hg. unfold window_record, be16_bytes, be32_bytes.
  rewrite !length_app, Hg. reflexivity.
Qed.

(** The serialiser on a memory given as what lies before the record, the
    64 bytes of the record and what lies behind it. *)
Lemma window_serialise_big_endian (mid post : list Z) w :
  length mid = 64%nat ->
  (window_serialise BigEndian (mid ++ post) 0 w).1
  = window_record 0 (take 6 (drop 34 mid)) w ++ post.
Proof.
  intros Hm.
  do 64 (destruct mid as [|? mid]; [discriminate Hm|]).
  destruct mid; [|discriminate Hm]. clear Hm.
  destruct w.
  cbv -[u8 u16 u32 byte_n bswap16 bswap32 Z.lor Z.shiftl Z.shiftr Z.land].
  rewrite !Z.shiftl_0_r. change (u8 0) with 0.
  destruct reverse_image0; reflexivity.
Qed.

Lemma memcpy_shifted (pre l src : list Z) j n :
  memcpy (pre ++ l) (length pre + j) src n = pre ++ memcpy l j src n.
Proof.
  unfold memcpy. rewrite take_app_add', <- Nat.add_assoc, drop_app_add' by reflexivity.
  rewrite <- !app_assoc. reflexivity.
Qed.

Lemma U8I_shifted pre x : shifted pre (U8I (length pre) x) (U8I 0 x).
Proof.
  intros l j. unfold U8I, wr. cbn [fst snd Nat.add].
  rewrite insert_app_r. reflexivity.
Qed.

Lemma U16_shifted pre h x : shifted pre (U16 h (length pre) x) (U16 h 0 x).
Proof. intros l j. unfold U16. cbn [fst snd Nat.add]. rewrite memcpy_shifted. reflexivity. Qed.

Lemma U32_shifted pre h x : shifted pre (U32 h (length pre) x) (U32 h 0 x).
Proof. intros l j. unfold U32. cbn [fst snd Nat.add]. rewrite memcpy_shifted. reflexivity. Qed.

Lemma SKIP_shifted pre n : shifted pre (SKIP n) (SKIP n).
Proof. intros l j. reflexivity. Qed.

Lemma foldl_shifted pre (ss ss0 : list (writer -> writer)) :
  Forall2 (shifted pre) ss ss0 ->
  forall l j,
    foldl (fun s stmt => stmt s) (pre ++ l, j) ss
    = (pre ++ (foldl (fun s stmt => stmt s) (l, j) ss0).1,
       (foldl (fun s stmt => stmt s) (l, j) ss0).2).
Proof.
  induction 1 as [|f f0 ss ss0 Hf _ IH]; intros l j; [reflexivity|].
  cbn [foldl]. rewrite Hf.
  destruct (f0 (l, j)) as [l' j']. apply IH.
Qed.

Lemma window_serialise_body_shifted h pre w :
  Forall2 (shifted pre) (window_serialise_body h (length pre) w)
          (window_serialise_body h 0 w).
Proof.
  unfold window_serialise_body.
  repeat (apply Forall2_cons; split;
          [lazymatch goal with
           | |- shifted _ (U8I _ _) _ => apply U8I_shifted
           | |- shifted _ (U8 _ _) _ => apply U8I_shifted
           | |- shifted _ (U16 _ _ _) _ => apply U16_shifted
           | |- shifted _ (U32 _ _ _) _ => apply U32_shifted
           | |- shifted _ (SKIP _) _ => apply SKIP_shifted
           end|]).
  apply Forall2_nil. exact I.
Qed.

Lemma window_serialise_shifted h pre l w :
  window_serialise h (pre ++ l) (length pre) w
  = (pre ++ (window_serialise h l 0 w).1, (window_serialise h l 0 w).2).
Proof.
  unfold window_serialise.
  pose proof (foldl_shifted pre _ _ (window_serialise_body_shifted h pre w) l 0%nat) as E.
  rewrite E.
  destruct (foldl (fun s stmt => stmt s) (l, 0%nat) (window_serialise_body h 0 w))
    as [l' j'].
  reflexivity.
Qed.

(** X8: the serialiser writes the window record at [output] and nothing
    else: the memory before the record and behind its 64 bytes is left as
    it was, and so are the six reserved bytes 34 to 39 of the record.  The
    58 bytes it writes are the same on a little-endian and on a big-endian
    host: two zero bytes, the resolutions, the window geometry and the
    other multi-byte fields most significant byte first, the one-byte
    fields as stored into a [uint8_t], and the flag bytes. *)
Theorem window_serialise_layout (h : endianness) (mem : list Z) (output : nat)
    (w : window) :
  (output + 64 <= length mem)%nat ->
  window_serialise h mem output w
  = (take output mem
       ++ window_record 0 (take 6 (drop (output + 34) mem)) w
       ++ drop (output + 64) mem,
     64).
Proof.
  intros Hm.
  rewrite (window_serialise_host h).
  set (pre := take output mem). set (rest := drop output mem).
  set (mid := take 64 rest). set (post := drop 64 rest).
  assert (Emem : mem = pre ++ mid ++ post).
  { subst pre mid post rest. rewrite (take_drop 64), take_drop. reflexivity. }
  assert (Ho : output = length pre) by (subst pre; rewrite length_take; lia).
  assert (Hmid : length mid = 64%nat).
  { subst mid rest. rewrite length_take, length_drop. lia. }
  assert (Egap : take 6 (drop (output + 34) mem) = take 6 (drop 34 mid)).
  { subst mid rest. change 64%nat with (34 + 30)%nat.
    rewrite <- take_drop_commute, take_take, drop_drop. reflexivity. }
  assert (Epost : drop (output + 64) mem = post).
  { subst post rest. rewrite drop_drop. reflexivity. }
  rewrite Egap, Epost. rewrite Emem at 1. rewrite Ho at 1.
  rewrite window_serialise_shifted, window_serialise_big_endian by exact Hmid.
  rewrite window_serialise_j. reflexivity.
Qed.

Lemma window_serialise_layout_witness :
  let record := drop 8 (window_serialise LittleEndian (replicate 72 7) 8
                          KVS3105.kvs3105_window_init).1 in
  take 6 record = [0; 0; 1; 44; 1; 44] /\ take 6 (drop 34 record) = replicate 6 7.
Proof.
  intros record. subst record.
  rewrite (window_serialise_layout LittleEndian (replicate 72 7) 8
             KVS3105.kvs3105_window_init) by (simpl; lia).
  split; vm_compute; reflexivity.
Defined.

(** ** SET WINDOW on the wire *)

(** The 72 bytes [set_windows] builds for the front side and for the back
    side. *)
Lemma windowbytes_layout h w :
  let wb := memcpy (window_serialise h (replicate 72 0) 8 w).1 6
                   (bytes_of_u16 h (htons h WINDOW_SIZE)) 2 in
  wb = window_parameters 0 w /\ wr wb 8 0x80 = window_parameters 0x80 w.
Proof.
  cbv zeta.
  rewrite (window_serialise_host h).
  change (window_serialise BigEndian (replicate 72 0) 8 w)
    with (window_serialise BigEndian (replicate 8 0 ++ (replicate 64 0 ++ []))
                           (length (replicate 8 0)) w).
  rewrite window_serialise_shifted, window_serialise_big_endian by reflexivity.
  rewrite bytes_of_htons. cbn [fst]. split; reflexivity.
Qed.

Lemma window_parameters_length id w : length (window_parameters id w) = 72%nat.
Proof.
  unfold window_parameters. rewrite !length_app, window_record_length; reflexivity.
Qed.

(** [kvs3105_set_windows] as the commands it sends: SET WINDOW with the
    parameter list of the front side and, under duplex, once more with
    the one of the back side. *)
Lemma kvs3105_set_windows_sends `{KVS3105.Libusb bus} (b : bus) w duplex rs :
  KVS3105.kvs3105_set_windows b w duplex rs
  = let '(r, _, rs1, b1) :=
      KVS3105.send_command b SG_DXFER_TO_DEV set_window_command 10
        (Some (window_parameters 0 w)) 72 rs 0 in
    if negb (r =? 0) then Returned (r, rs1, b1)
    else if negb (duplex =? 0) then
      let '(r, _, rs2, b2) :=
        KVS3105.send_command b1 SG_DXFER_TO_DEV set_window_command 10
          (Some (window_parameters 0x80 w)) 72 rs1 0 in
      Returned (r, rs2, b2)
    else Returned (0, rs1, b1).
Proof.
  unfold KVS3105.kvs3105_set_windows, KVS3105.kvs3105_window_serialise.
  rewrite memset_alloca_usb by (unfold WINDOW_SIZE; lia).
  change (replicate (Z.to_nat (6 + 2 + WINDOW_SIZE)) (u8 0)) with (replicate 72 0).
  destruct (windowbytes_layout KVS3105.host w) as [Hf Hb].
  pose proof (window_serialise_j KVS3105.host (replicate 72 0) 8 w) as Hj.
  destruct (window_serialise KVS3105.host (replicate 72 0) 8 w) as [wb0 j].
  cbn [fst snd] in Hj, Hf, Hb. subst j.
  change (negb (WINDOW_SIZE =? WINDOW_SIZE)) with false. cbv iota.
  rewrite Hb, Hf. reflexivity.
Qed.

Lemma kvss905c_set_windows_sends `{KVSS905C.SgIo sg} (g : sg) w duplex rs :
  KVSS905C.kvss905c_set_windows g w duplex rs
  = let '(r, _, rs1, g1) :=
      KVSS905C.scsi_command g SG_DXFER_TO_DEV set_window_command 10
        (Some (window_parameters 0 w)) 72 rs 0 in
    if negb (r =? 0) then Returned (r, rs1, g1)
    else if negb (duplex =? 0) then
      let '(r, _, rs2, g2) :=
        KVSS905C.scsi_command g1 SG_DXFER_TO_DEV set_window_command 10
          (Some (window_parameters 0x80 w)) 72 rs1 0 in
      Returned (r, rs2, g2)
    else Returned (0, rs1, g1).
Proof.
  unfold KVSS905C.kvss905c_set_windows, KVSS905C.kvss905c_window_serialise.
  rewrite memset_alloca_sg by (unfold WINDOW_SIZE; lia).
  change (replicate (Z.to_nat (6 + 2 + WINDOW_SIZE)) (u8 0)) with (replicate 72 0).
  destruct (windowbytes_layout KVSS905C.host w) as [Hf Hb].
  pose proof (window_serialise_j KVSS905C.host (replicate 72 0) 8 w) as Hj.
  destruct (window_serialise KVSS905C.host (replicate 72 0) 8 w) as [wb0 j].
  cbn [fst snd] in Hj, Hf, Hb. subst j.
  change (negb (WINDOW_SIZE =? WINDOW_SIZE)) with false. cbv iota.
  rewrite Hb, Hf. reflexivity.
Qed.

(** X9: SET WINDOW on the wire.  [kvs3105_set_windows] and
    [kvss905c_set_windows] send the command 24 00 00 00 00 00 00 00 48 00
    with a parameter list of 72 bytes: six zero bytes, the length 64 of the
    record as 00 40, and the window record with zeros in its reserved
    bytes.  Under duplex they send it a second time for the back side,
    with the same bytes except the window identifier, byte 0 of the
    record, which is 0x80 instead of 0.  When the command for the front
    side does not return 0, its code is returned and nothing is sent for
    the back side. *)
Theorem set_windows_on_the_wire (h : endianness) (ind : nat -> list Z) (w : window)
    (rs x1 x2 x3 x4 : list Z) (rest : list (Z * list Z))
    (tr : list ScriptedUsb.event)
    (rest' : list KVSS905C.sg_reply) (tr' : list ScriptedSg.event) :
  let front := [ScriptedUsb.BulkOut (command_block set_window_command);
                ScriptedUsb.BulkOut (data_block (window_parameters 0 w));
                ScriptedUsb.BulkIn 16] in
  let back := [ScriptedUsb.BulkOut (command_block set_window_command);
               ScriptedUsb.BulkOut (data_block (window_parameters 0x80 w));
               ScriptedUsb.BulkIn 16] in
  let accept := [(0, x1); (0, x2); good_status] in
  let accept' := [(0, x3); (0, x4); good_status] in
  let ok := KVSS905C.SgReply 0 0 [] [] in
  @KVS3105.kvs3105_set_windows _ (ScriptedUsb.libusb h ind)
     (ScriptedUsb.Bus (accept ++ rest) tr) w 0 rs
  = Returned (0, memset rs 0 0 18, ScriptedUsb.Bus rest (tr ++ front)) /\
  (forall duplex, duplex <> 0 ->
     @KVS3105.kvs3105_set_windows _ (ScriptedUsb.libusb h ind)
        (ScriptedUsb.Bus (accept ++ accept' ++ rest) tr) w duplex rs
     = Returned (0, memset (memset rs 0 0 18) 0 0 18,
                 ScriptedUsb.Bus rest (tr ++ front ++ back))) /\
  @KVSS905C.kvss905c_set_windows _ (ScriptedSg.sgio h ind)
     (ScriptedSg.Dev (ok :: rest') tr') w 0 rs
  = Returned (0, rs,
              ScriptedSg.Dev rest'
                (tr' ++ [ScriptedSg.Ioctl set_window_command
                           (Some (window_parameters 0 w))])) /\
  (forall duplex, duplex <> 0 ->
     @KVSS905C.kvss905c_set_windows _ (ScriptedSg.sgio h ind)
        (ScriptedSg.Dev (ok :: ok :: rest') tr') w duplex rs
     = Returned (0, rs,
                 ScriptedSg.Dev rest'
                   (tr' ++ [ScriptedSg.Ioctl set_window_command
                              (Some (window_parameters 0 w));
                            ScriptedSg.Ioctl set_window_command
                              (Some (window_parameters 0x80 w))]))) /\
  (forall (bus : Type) (L : KVS3105.Libusb bus) (b : bus) duplex r d rs1 b1,
     KVS3105.send_command b SG_DXFER_TO_DEV set_window_command 10
       (Some (window_parameters 0 w)) 72 rs 0 = (r, d, rs1, b1) ->
     r <> 0 -> KVS3105.kvs3105_set_windows b w duplex rs = Returned (r, rs1, b1)) /\
  (forall (sg : Type) (G : KVSS905C.SgIo sg) (g : sg) duplex r d rs1 g1,
     KVSS905C.scsi_command g SG_DXFER_TO_DEV set_window_command 10
       (Some (window_parameters 0 w)) 72 rs 0 = (r, d, rs1, g1) ->
     r <> 0 -> KVSS905C.kvss905c_set_windows g w duplex rs = Returned (r, rs1, g1)).
Proof.
  intros front back accept accept' ok.
  assert (Hout : forall id rest0 tr0 rs0 y1 y2,
            @KVS3105.send_command _ (ScriptedUsb.libusb h ind)
               (ScriptedUsb.Bus ((0, y1) :: (0, y2) :: good_status :: rest0) tr0)
               SG_DXFER_TO_DEV set_window_command 10
               (Some (window_parameters id w)) 72 rs0 0
            = (0, Some (window_parameters id w), memset rs0 0 0 18,
               ScriptedUsb.Bus rest0
                 (tr0 ++ [ScriptedUsb.BulkOut (command_block set_window_command);
                          ScriptedUsb.BulkOut (data_block (window_parameters id w));
                          ScriptedUsb.BulkIn 16]))).
  { intros id rest0 tr0 rs0 y1 y2.
    rewrite (scripted_send_out h ind set_window_command 10 rest0 tr0 rs0 0
               (window_parameters id w) 72 y1 y2);
      [| reflexivity | simpl; lia | lia | rewrite window_parameters_length; simpl; lia].
    rewrite take_ge by (rewrite window_parameters_length; simpl; lia).
    reflexivity. }
  assert (Hioctl : forall id rest0 tr0 rs0,
            @KVSS905C.scsi_command _ (ScriptedSg.sgio h ind)
               (ScriptedSg.Dev (ok :: rest0) tr0)
               SG_DXFER_TO_DEV set_window_command 10
               (Some (window_parameters id w)) 72 rs0 0
            = (0, Some (window_parameters id w), rs0,
               ScriptedSg.Dev rest0
                 (tr0 ++ [ScriptedSg.Ioctl set_window_command
                            (Some (window_parameters id w))]))).
  { intros id rest0 tr0 rs0. apply send_window_sg. apply window_parameters_length. }
  split; [|split; [|split; [|split; [|split]]]].
  - rewrite kvs3105_set_windows_sends. subst accept. cbn [app]. rewrite Hout. reflexivity.
  - intros duplex Hd. rewrite kvs3105_set_windows_sends. subst accept accept'. cbn [app].
    rewrite Hout. change (negb (0 =? 0)) with false. cbv iota.
    rewrite (negb_eqb_0 duplex Hd), Hout. subst front back.
    rewrite <- app_assoc. reflexivity.
  - rewrite kvss905c_set_windows_sends, Hioctl. reflexivity.
  - intros duplex Hd. rewrite kvss905c_set_windows_sends, Hioctl.
    change (negb (0 =? 0)) with false. cbv iota.
    rewrite (negb_eqb_0 duplex Hd), Hioctl. rewrite <- app_assoc. reflexivity.
  - intros bus L b duplex r d rs1 b1 E Hr.
    rewrite kvs3105_set_windows_sends, E, (negb_eqb_0 r Hr). reflexivity.
  - intros sg G g duplex r d rs1 g1 E Hr.
    rewrite kvss905c_set_windows_sends, E, (negb_eqb_0 r Hr). reflexivity.
Qed.

Lemma set_windows_on_the_wire_witness :
  exists rs' b',
    @KVS3105.kvs3105_set_windows _ (ScriptedUsb.libusb LittleEndian (fun _ => []))
       (ScriptedUsb.Bus (usb_accepts 2) []) KVS3105.kvs3105_window_init 1
       (replicate 20 0)
    = Returned (0, rs', b') /\ length (ScriptedUsb.trace b') = 6%nat.
Proof.
  destruct (set_windows_on_the_wire LittleEndian (fun _ => [])
              KVS3105.kvs3105_window_init (replicate 20 0) [] [] [] [] [] [] [] [])
    as (_ & Hd & _).
  eexists _, _. split; [apply (Hd 1); discriminate | reflexivity].
Defined.

(** ** Return codes of the SCSI-generic transport *)

Section ScsiCommandCodes.
Import KVSS905C.
Context `{SgIo sg}.

Lemma scsi_command_loop_codes todo :
  forall (g : sg) direction command clen data_ dlen rs t,
    let r := (scsi_command_loop todo g direction command clen data_ dlen rs t).1.1.1 in
    r = 0 \/ r = 1 \/ r = 2.
Proof.
  induction todo as [|todo IH]; intros g direction command clen data_ dlen rs t;
    [right; right; reflexivity|].
  cbn [scsi_command_loop].
  destruct (ioctl_SG_IO g _ rs) as [[[[ret ms] d] rs1] g1].
  destruct (negb (ret =? 0)); [right; left; reflexivity|].
  destruct (negb (ms =? 0)); [|left; reflexivity].
  destruct (negb (scsi_transient_error rs1 =? 0)); [apply IH|right; right; reflexivity].
Qed.

End ScsiCommandCodes.

(** X10: [scsi_command] returns 0, 1 or 2 and nothing else, for every
    device.  It never clears the request-sense buffer: when the ioctl
    succeeds with good status and the kernel stores no sense bytes, it
    returns 0 and the buffer is as the caller had it, so sense data of an
    earlier command are still there.  When the ioctl itself fails it
    returns 1 after that one ioctl, without a pause or a retry. *)
Theorem scsi_command_codes_and_sense
    (h : endianness) (ind : nat -> list Z) (direction : Z) (command : list Z)
    (clen : Z) (data_ : option (list Z)) (dlen : Z) (rs : list Z) (t : Z) :
  (forall (sg : Type) (G : KVSS905C.SgIo sg) (g : sg),
     let r := (KVSS905C.scsi_command g direction command clen data_ dlen rs t).1.1.1 in
     r = 0 \/ r = 1 \/ r = 2) /\
  (forall payload rest tr,
     let res := @KVSS905C.scsi_command _ (ScriptedSg.sgio h ind)
                  (ScriptedSg.Dev (KVSS905C.SgReply 0 0 [] payload :: rest) tr)
                  direction command clen data_ dlen rs t in
     res.1.1.1 = 0 /\ res.1.2 = rs /\
     res.2 = ScriptedSg.Dev rest (tr ++ [attempt direction command data_ dlen])) /\
  (forall ret ms sense payload rest tr,
     ret <> 0 ->
     let res := @KVSS905C.scsi_command _ (ScriptedSg.sgio h ind)
                  (ScriptedSg.Dev (KVSS905C.SgReply ret ms sense payload :: rest) tr)
                  direction command clen data_ dlen rs t in
     res.1.1.1 = 1 /\
     res.2 = ScriptedSg.Dev rest (tr ++ [attempt direction command data_ dlen])).
Proof.
  split; [|split].
  - intros sg G g. apply scsi_command_loop_codes.
  - intros payload rest tr. unfold KVSS905C.scsi_command.
    cbn [KVSS905C.scsi_command_loop]. unfold KVSS905C.ioctl_SG_IO at 1.
    change (@KVSS905C.ioctl _ (ScriptedSg.sgio h ind)) with ScriptedSg.do_ioctl.
    unfold ScriptedSg.do_ioctl at 1.
    cbn [ScriptedSg.script ScriptedSg.trace KVSS905C.io_ret KVSS905C.io_masked_status
         KVSS905C.io_sense KVSS905C.io_data].
    change (negb (0 =? 0)) with false. cbv iota.
    change (negb (u8 0 =? 0)) with false. cbv iota.
    cbn [fst snd]. split; [reflexivity|]. split; reflexivity.
  - intros ret ms sense payload rest tr Hret res.
    assert (E : exists d rs',
               res = (1, d, rs',
                      ScriptedSg.Dev rest (tr ++ [attempt direction command data_ dlen]))).
    { subst res. unfold KVSS905C.scsi_command.
      cbn [KVSS905C.scsi_command_loop]. unfold KVSS905C.ioctl_SG_IO at 1.
      change (@KVSS905C.ioctl _ (ScriptedSg.sgio h ind)) with ScriptedSg.do_ioctl.
      unfold ScriptedSg.do_ioctl at 1.
      cbn [ScriptedSg.script ScriptedSg.trace KVSS905C.io_ret KVSS905C.io_masked_status
           KVSS905C.io_sense KVSS905C.io_data].
      rewrite (negb_eqb_0 ret Hret). cbv iota.
      eexists _, _. reflexivity. }
    destruct E as (d & rs' & ->). split; reflexivity.
Qed.

Lemma scsi_command_codes_and_sense_witness :
  (@KVSS905C.scsi_command _ (ScriptedSg.sgio LittleEndian (fun _ => []))
     (ScriptedSg.Dev [KVSS905C.SgReply (-1) 0 [] []; good_status_reply] [])
     SG_DXFER_TO_DEV scan_command 6 None 0 (replicate 20 7) 0).1.1.1 = 1.
Proof.
  destruct (scsi_command_codes_and_sense LittleEndian (fun _ => []) SG_DXFER_TO_DEV
              scan_command 6 None 0 (replicate 20 7) 0) as (_ & _ & Hfail).
  destruct (Hfail (-1) 0 [] [] [good_status_reply] []) as [Hr _]; [discriminate|].
  exact Hr.
Defined.

(** ** The messages for sense data *)

Lemma error_code_value rs :
  KVS3105.scsi_usb_error_code rs = rd rs 12 * 256 + rd rs 13 /\
  KVSS905C.scsi_error_code rs = rd rs 12 * 256 + rd rs 13.
Proof.
  unfold KVS3105.scsi_usb_error_code, KVSS905C.scsi_error_code.
  pose proof (rd_range rs 12). pose proof (rd_range rs 13).
  rewrite lor_add_shiftl by (change (2 ^ 8) with 256; lia).
  change (2 ^ 8) with 256. unfold u16. split; euclid.
Qed.

Lemma sense_key_range rs : 0 <= sense_key rs < 16.
Proof.
  unfold sense_key.
  assert (E : Z.land (rd rs 2) 0x0f = rd rs 2 mod 16) by (apply (Z.land_ones _ 4); lia).
  rewrite E. apply Z.mod_pos_bound. lia.
Qed.

(** The messages and the transient test look at the sense key and at
    bytes 12 and 13 only. *)
Lemma messages_by_key rs :
  let rs' := sense_data (sense_key rs) (rd rs 12) (rd rs 13) in
  KVS3105.kvs3105_strerror rs = KVS3105.kvs3105_strerror rs' /\
  KVSS905C.kvss905c_strerror rs = KVSS905C.kvss905c_strerror rs' /\
  KVSS905C.scsi_transient_error rs = KVSS905C.scsi_transient_error rs'.
Proof.
  intros rs'.
  assert (H2 : Z.land (rd rs' 2) 0x0f = Z.land (rd rs 2) 0x0f).
  { subst rs'. unfold sense_data, rd at 1. cbn [nth]. fold (sense_key rs).
    rewrite u8_small by (pose proof (sense_key_range rs); lia).
    unfold sense_key.
    rewrite <- Z.land_assoc. reflexivity. }
  assert (H12 : rd rs' 12 = rd rs 12).
  { subst rs'. unfold sense_data, rd at 1. cbn [nth]. apply u8_small, rd_range. }
  assert (H13 : rd rs' 13 = rd rs 13).
  { subst rs'. unfold sense_data, rd at 1. cbn [nth]. apply u8_small, rd_range. }
  unfold KVS3105.kvs3105_strerror, KVSS905C.kvss905c_strerror,
    KVSS905C.scsi_transient_error, KVS3105.scsi_usb_error_code,
    KVSS905C.scsi_error_code.
  rewrite H2, H12, H13. repeat split; reflexivity.
Qed.

(** The two tables, checked at every sense key, ASC and ASCQ. *)
Lemma tables_checked_everywhere :
  forallb (fun key =>
    forallb (fun asc =>
      forallb (fun ascq => tables_checked key asc ascq) (seqZ 0 256))
      (seqZ 0 256)) (seqZ 0 16) = true.
Proof. vm_compute. reflexivity. Qed.

Lemma tables_checked_at rs :
  tables_checked (sense_key rs) (rd rs 12) (rd rs 13) = true.
Proof.
  pose proof tables_checked_everywhere as Hall.
  rewrite forallb_forall in Hall.
  assert (In16 : In (sense_key rs) (seqZ 0 16)).
  { apply list_elem_of_In, elem_of_seqZ. pose proof (sense_key_range rs). lia. }
  specialize (Hall _ In16). rewrite forallb_forall in Hall.
  assert (In12 : In (rd rs 12) (seqZ 0 256)).
  { apply list_elem_of_In, elem_of_seqZ. pose proof (rd_range rs 12). lia. }
  specialize (Hall _ In12). rewrite forallb_forall in Hall.
  apply Hall. apply list_elem_of_In, elem_of_seqZ. pose proof (rd_range rs 13). lia.
Qed.

Lemma same_message_eq a b : same_message a b = true -> a = b.
Proof.
  destruct a as [x|], b as [y|]; cbn; try discriminate; try reflexivity.
  intros E. apply String.eqb_eq in E. congruence.
Qed.

Lemma existsb_pair_In (l : list (Z * Z)) x y :
  existsb (fun p => (p.1 =? x) && (p.2 =? y)) l = true -> In (x, y) l.
Proof.
  rewrite existsb_exists. intros [[p q] [Hin E]]. cbn in E.
  apply andb_true_iff in E. destruct E as [E1 E2].
  apply Z.eqb_eq in E1. apply Z.eqb_eq in E2. subst. exact Hin.
Qed.

Lemma existsb_string_In (l : list string) m :
  existsb (String.eqb m) l = true <-> In m l.
Proof.
  rewrite existsb_exists. split.
  - intros [x [Hin E]]. apply String.eqb_eq in E. subst. exact Hin.
  - intros Hin. exists m. split; [exact Hin | apply String.eqb_refl].
Qed.

(** X11: wherever the USB driver has a message for sense data, the SCSI
    generic driver gives the same message, except at nine pairs of sense key
    and error code, which [messages_differ] lists. *)
Theorem strerror_tables_agree (requestsense : list Z) (m : string)
  (Hm : KVS3105.kvs3105_strerror requestsense = Some m) :
  KVSS905C.kvss905c_strerror requestsense = Some m \/
  In (sense_key requestsense, KVS3105.scsi_usb_error_code requestsense) messages_differ.
Proof.
  pose proof (tables_checked_at requestsense) as Hc.
  destruct (messages_by_key requestsense) as (Eu & Es & _).
  destruct (error_code_value requestsense) as [Ec _].
  unfold tables_checked in Hc. cbv zeta in Hc.
  apply andb_true_iff in Hc. destruct Hc as [Hc _].
  rewrite <- Eu, <- Es, Hm in Hc.
  apply orb_true_iff in Hc. destruct Hc as [Hc|Hc].
  - left. symmetry. apply same_message_eq. exact Hc.
  - right. rewrite Ec. apply existsb_pair_In. exact Hc.
Qed.

Lemma strerror_tables_agree_witness :
  KVSS905C.kvss905c_strerror (sense_data 3 0x80 0x01) = Some "Jammed at document lead"%string \/
  In (sense_key (sense_data 3 0x80 0x01),
      KVS3105.scsi_usb_error_code (sense_data 3 0x80 0x01)) messages_differ.
Proof. apply (strerror_tables_agree (sense_data 3 0x80 0x01)). reflexivity. Defined.

(** X12: of the errors the SCSI generic driver has a message for,
    [scsi_command] retries the three door-open errors and unit attention, and
    no other: [scsi_transient_error] is 1 for those and 0 for every other
    named error. *)
Theorem retried_errors_named (requestsense : list Z) (m : string)
  (Hm : KVSS905C.kvss905c_strerror requestsense = Some m) :
  (KVSS905C.scsi_transient_error requestsense = 1 <-> In m retried_messages) /\
  (KVSS905C.scsi_transient_error requestsense = 0 <-> ~ In m retried_messages).
Proof.
  pose proof (tables_checked_at requestsense) as Hc.
  destruct (messages_by_key requestsense) as (_ & Es & Et).
  unfold tables_checked in Hc. cbv zeta in Hc.
  apply andb_true_iff in Hc. destruct Hc as [_ Hc].
  rewrite <- Es, <- Et, Hm in Hc.
  apply Bool.eqb_prop in Hc.
  assert (T : KVSS905C.scsi_transient_error requestsense = 0 \/
              KVSS905C.scsi_transient_error requestsense = 1).
  { unfold KVSS905C.scsi_transient_error.
    repeat match goal with |- context [if ?c then _ else _] => destruct c end; auto. }
  rewrite <- existsb_string_In.
  destruct (existsb (String.eqb m) retried_messages).
  - apply Z.eqb_eq in Hc. split; split; intros; try exact Hc; try reflexivity; congruence.
  - apply Z.eqb_neq in Hc. split; split; intros; try congruence; lia.
Qed.

Lemma retried_errors_named_witness :
  (KVSS905C.scsi_transient_error (sense_data 2 0x3a 0x00) = 1 <->
   In "Out of paper"%string retried_messages) /\
  (KVSS905C.scsi_transient_error (sense_data 2 0x3a 0x00) = 0 <->
   ~ In "Out of paper"%string retried_messages).
Proof. apply (retried_errors_named (sense_data 2 0x3a 0x00)). reflexivity. Defined.

(** ** Detection of the scanner *)

Lemma rd_tail (a : list Z) (i : nat) : rd (tail a) i = rd a (S i).
Proof. unfold rd. destruct a; [destruct i|]; reflexivity. Qed.

Lemma memcmp_zero (a b : list Z) (n : nat) :
  memcmp a b n = 0 <-> forall i, (i < n)%nat -> rd a i = rd b i.
Proof.
  revert a b. induction n as [|n IH]; intros a b; cbn [memcmp].
  - split; [intros _ i Hi; lia | reflexivity].
  - cbv zeta. destruct (Z.eqb_spec (rd a 0) (rd b 0)) as [E|E].
    + rewrite IH. split.
      * intros Hall [|i] Hi; [exact E|].
        rewrite <- !rd_tail. apply Hall. lia.
      * intros Hall i Hi. rewrite !rd_tail. apply Hall. lia.
    + split; [intros; lia|].
      intros Hall. exfalso. apply E, Hall. lia.
Qed.

Lemma rd_drop (m : list Z) (k i : nat) : rd (drop k m) i = rd m (k + i).
Proof.
  unfold rd. f_equal.
  destruct (decide (k + i < length m)%nat) as [Hlt|Hge].
  - destruct (lookup_lt_is_Some_2 m (k + i) Hlt) as [x Hx].
    rewrite (nth_lookup_Some _ _ _ _ Hx).
    apply nth_lookup_Some. rewrite lookup_drop. exact Hx.
  - rewrite !nth_overflow; [reflexivity | lia | rewrite length_drop; lia].
Qed.

Lemma rd_bytes_app (p t : list Z) (i : nat) :
  (i < length p)%nat -> rd ((u8 <$> p) ++ t) i = rd p i.
Proof.
  intros Hi. unfold rd.
  destruct (lookup_lt_is_Some_2 p i Hi) as [x Hx].
  rewrite (nth_lookup_Some _ _ _ _ Hx).
  rewrite (nth_lookup_Some _ i 0 (u8 x)).
  - apply u8_u8.
  - rewrite lookup_app_l by (rewrite length_fmap; exact Hi).
    rewrite list_lookup_fmap, Hx. reflexivity.
Qed.

(** The model name of the inquiry data begins with "KV-". *)
Lemma kv_prefix (data : list Z) :
  memcmp (drop 16 data) [0x4b; 0x56; 0x2d] 3 = 0 <->
  rd data 16 = 0x4b /\ rd data 17 = 0x56 /\ rd data 18 = 0x2d.
Proof.
  rewrite memcmp_zero. split.
  - intros Hall. repeat split.
    + specialize (Hall 0%nat ltac:(lia)). rewrite rd_drop in Hall. exact Hall.
    + specialize (Hall 1%nat ltac:(lia)). rewrite rd_drop in Hall. exact Hall.
    + specialize (Hall 2%nat ltac:(lia)). rewrite rd_drop in Hall. exact Hall.
  - intros (H0 & H1 & H2) i Hi. rewrite rd_drop.
    destruct i as [|[|[|i]]]; [exact H0 | exact H1 | exact H2 | lia].
Qed.

(** X13: detection.  Both drivers send INQUIRY for 96 bytes; when the
    device answers 96 bytes with good status, they return 0 exactly when
    bytes 16, 17 and 18 of the answer are "KV-", whatever the rest of the
    inquiry data says; when the INQUIRY fails they return its code. *)
Theorem detect_checks_the_model_name (h : endianness) (ind : nat -> list Z)
    (x1 header inquiry sense : list Z)
    (rest : list (Z * list Z)) (tr : list ScriptedUsb.event)
    (rest' : list KVSS905C.sg_reply) (tr' : list ScriptedSg.event) :
  length header = 12%nat -> length inquiry = 96%nat ->
  let command := [0x12; 0; 0; 0; 0x60; 0] in
  let is_kv := rd inquiry 16 = 0x4b /\ rd inquiry 17 = 0x56 /\ rd inquiry 18 = 0x2d in
  (exists r,
     @KVS3105.kvs3105_detect _ (ScriptedUsb.libusb h ind)
        (ScriptedUsb.Bus ((0, x1) :: (0, header ++ inquiry) :: good_status :: rest) tr)
     = (r, ScriptedUsb.Bus rest
             (tr ++ [ScriptedUsb.BulkOut (command_block command);
                     ScriptedUsb.BulkIn 108; ScriptedUsb.BulkIn 16])) /\
     (r = 0 <-> is_kv)) /\
  (exists r,
     @KVSS905C.kvss905c_detect _ (ScriptedSg.sgio h ind)
        (ScriptedSg.Dev (KVSS905C.SgReply 0 0 sense inquiry :: rest') tr')
     = (r, ScriptedSg.Dev rest' (tr' ++ [ScriptedSg.Ioctl command None])) /\
     (r = 0 <-> is_kv)) /\
  (forall (bus : Type) (L : KVS3105.Libusb bus) (b : bus) r data rs b',
      KVS3105.send_command b SG_DXFER_FROM_DEV command 6
        (Some (memset (KVS3105.alloca 96) 0 0 96)) 96
        (KVS3105.alloca KVS3105.KVS3105_REQUEST_SENSE_SIZE) 0 = (r, data, rs, b') ->
      r <> 0 -> KVS3105.kvs3105_detect b = (r, b')) /\
  (forall (sg : Type) (G : KVSS905C.SgIo sg) (g : sg) r data rs g',
      KVSS905C.scsi_command g SG_DXFER_FROM_DEV command 6
        (Some (memset (KVSS905C.alloca 96) 0 0 96)) 96
        (KVSS905C.alloca KVSS905C.REQUEST_SENSE_SIZE) 0 = (r, data, rs, g') ->
      r <> 0 -> KVSS905C.kvss905c_detect g = (r, g')).
Proof.
  intros Hh Hp command is_kv.
  assert (Ekv : forall t, memcmp (drop 16 ((u8 <$> inquiry) ++ t)) [0x4b; 0x56; 0x2d] 3 = 0
                          <-> is_kv).
  { intros t. rewrite kv_prefix. subst is_kv.
    rewrite !rd_bytes_app by (rewrite Hp; lia). reflexivity. }
  split; [|split; [|split]].
  - eexists. unfold KVS3105.kvs3105_detect. fold command.
    rewrite (scripted_send_in h ind command 6 rest tr _ 0 SG_DXFER_FROM_DEV _ 96 x1
               header inquiry);
      [| reflexivity | simpl; lia | discriminate | lia | exact Hh | exact Hp].
    change (negb (0 =? 0)) with false. cbv iota.
    unfold default, from_option, id. cbv beta iota.
    split; [reflexivity | apply Ekv].
  - eexists. unfold KVSS905C.kvss905c_detect. fold command.
    rewrite (sg_scripted_in h ind command 6 rest' tr' _ 0 _ 96 sense inquiry)
      by exact Hp.
    change (negb (0 =? 0)) with false. cbv iota.
    unfold default, from_option, id. cbv beta iota.
    split; [reflexivity | apply Ekv].
  - intros bus L b r data rs b' E Hr.
    unfold KVS3105.kvs3105_detect. fold command.
    rewrite E, (negb_eqb_0 r Hr). reflexivity.
  - intros sg G g r data rs g' E Hr.
    unfold KVSS905C.kvss905c_detect. fold command.
    rewrite E, (negb_eqb_0 r Hr). reflexivity.
Qed.

Lemma detect_checks_the_model_name_witness :
  (@KVSS905C.kvss905c_detect _ (ScriptedSg.sgio LittleEndian (fun _ => []))
     (ScriptedSg.Dev
        [KVSS905C.SgReply 0 0 [] (replicate 16 0x20 ++ [0x4b; 0x56; 0x2d] ++ replicate 77 0x20)]
        [])).1 = 0.
Proof.
  destruct (detect_checks_the_model_name LittleEndian (fun _ => []) [] (replicate 12 0)
              (replicate 16 0x20 ++ [0x4b; 0x56; 0x2d] ++ replicate 77 0x20)
              [] [] [] [] [] eq_refl eq_refl) as (_ & (r & E & Hr) & _).
  rewrite E. apply Hr. repeat split.
Defined.

(** ** The scanning session of the example programs *)








Section Kvs3105Session.
Import KVS3105.
Context `{Libusb bus}.



End Kvs3105Session.

Section Kvss905cSession.
Import KVSS905C.
Context `{SgIo sg}.



End Kvss905cSession.

Section ScannerUsbSession.
Import KVS3105.
Variables (h : endianness) (ind : nat -> list Z).

Local Abbreviation usbhost := (Scanner.Usb.libusb h ind).








End ScannerUsbSession.

Section ScannerSgSession.
Import KVSS905C.
Variables (h : endianness) (ind : nat -> list Z).

Local Abbreviation sghost := (Scanner.Sg.sgio h ind).






End ScannerSgSession.





(** ** A block size of zero *)

Section Kvs3105ZeroBlock.
Import KVS3105.
Context `{Libusb bus}.


End Kvs3105ZeroBlock.

Section Kvss905cZeroBlock.
Import KVSS905C.
Context `{SgIo sg}.


End Kvss905cZeroBlock.

Section ScannerZeroBlock.
Variables (h : endianness) (ind : nat -> list Z).



End ScannerZeroBlock.



(** ** Finding the scanner among the SCSI-generic devices *)

Lemma devicename_inj i j :
  0 <= i < 2147483648 -> 0 <= j < 2147483648 ->
  KVSS905C.devicename i = KVSS905C.devicename j -> i = j.
Proof.
  intros Hi Hj E. unfold KVSS905C.devicename in E.
  destruct (Z.ltb_spec i 2147483648); [|lia].
  destruct (Z.ltb_spec j 2147483648); [|lia].
  cbn in E. injection E as E. apply pretty_Z_inj in E. exact E.
Qed.

Section DevFsDetect.
Import KVSS905C.
Variables (h : endianness) (ind : nat -> list Z).

Local Abbreviation devhost := (ScriptedSg.sgio h ind).

Lemma put_put w path d1 d2 : DevFs.put (DevFs.put w path d1) path d2 = DevFs.put w path d2.
Proof. unfold DevFs.put. cbn. rewrite insert_insert_eq. reflexivity. Qed.

Lemma put_same w path d :
  DevFs.fs w !! path = Some (DevFs.Device d) -> DevFs.put w path d = w.
Proof. intros E. destruct w. unfold DevFs.put. cbn in *. rewrite insert_id by exact E. reflexivity. Qed.

(** [scsi_command] on a descriptor is [scsi_command] on the device behind
    it. *)
Lemma scsi_loop_on_fd fd path todo :
  forall w d direction command clen data dlen rs t r data' rs' d',
    DevFs.fds w !! fd = Some path ->
    DevFs.fs w !! path = Some (DevFs.Device d) ->
    @scsi_command_loop _ devhost todo d direction command clen data dlen rs t
    = (r, data', rs', d') ->
    @scsi_command_loop _ (DevFs.sgio_on h ind fd) todo w direction command clen data dlen rs t
    = (r, data', rs', DevFs.put w path d').
Proof.
  induction todo as [|todo IH];
    intros w d direction command clen data dlen rs t r data' rs' d' Hfd Hfs E.
  - cbn [scsi_command_loop] in *. injection E as <- <- <- <-.
    rewrite put_same by exact Hfs. reflexivity.
  - cbn [scsi_command_loop] in *.
    unfold ioctl_SG_IO in *.
    change (@ioctl _ (DevFs.sgio_on h ind fd)) with (DevFs.do_ioctl fd).
    change (@ioctl _ devhost) with ScriptedSg.do_ioctl in E.
    unfold DevFs.do_ioctl, DevFs.device_of. rewrite Hfd, Hfs.
    destruct (ScriptedSg.do_ioctl d _) as [reply d1].
    assert (Hw : DevFs.with_device w fd d1 = DevFs.put w path d1).
    { unfold DevFs.with_device. rewrite Hfd. reflexivity. }
    rewrite Hw.
    destruct (negb (io_ret reply =? 0)).
    { injection E as <- <- <- <-. reflexivity. }
    destruct (negb (u8 (io_masked_status reply) =? 0)).
    2:{ injection E as <- <- <- <-. reflexivity. }
    destruct (negb (scsi_transient_error _ =? 0)).
    2:{ injection E as <- <- <- <-. reflexivity. }
    change (@sleep _ (DevFs.sgio_on h ind fd) (DevFs.put w path d1) 3)
      with (DevFs.on_device fd (DevFs.put w path d1)
              (fun d => @sleep _ devhost d 3)).
    unfold DevFs.on_device, DevFs.device_of, DevFs.with_device.
    cbn [DevFs.put DevFs.fds DevFs.fs DevFs.next_fd DevFs.err].
    rewrite Hfd, lookup_insert_eq.
    rewrite put_put.
    rewrite (IH (DevFs.put w path (@sleep _ devhost d1 3)) _ _ _ _ _ _ _ _ _ _ _ _
               Hfd (lookup_insert_eq _ _ _) E).
    rewrite put_put. reflexivity.
Qed.

Lemma detect_on_fd fd path w d :
  DevFs.fds w !! fd = Some path ->
  DevFs.fs w !! path = Some (DevFs.Device d) ->
  @kvss905c_detect _ (DevFs.sgio_on h ind fd) w
  = ((@kvss905c_detect _ devhost d).1, DevFs.put w path (@kvss905c_detect _ devhost d).2).
Proof.
  intros Hfd Hfs. unfold kvss905c_detect, scsi_command.
  change (@alloca _ (DevFs.sgio_on h ind fd)) with (@alloca _ devhost).
  destruct (@scsi_command_loop _ devhost 5 d SG_DXFER_FROM_DEV [18; 0; 0; 0; 96; 0] 6
              (Some (memset (@alloca _ devhost 96) 0 0 96)) 96
              (@alloca _ devhost REQUEST_SENSE_SIZE) 0)
    as [[[r data'] rs'] d'] eqn:E.
  rewrite (scsi_loop_on_fd fd path 5 w d _ _ _ _ _ _ _ _ _ _ _ Hfd Hfs E).
  destruct (negb (r =? 0)); reflexivity.
Qed.

End DevFsDetect.

Section DevFsOpen.
Import KVSS905C.
Variables (h : endianness) (ind : nat -> list Z).

Local Abbreviation devhost := (ScriptedSg.sgio h ind).
Local Abbreviation nodeshost := (DevFs.nodes h ind).

(** One turn of the search. *)
Lemma open_turn fuel (w : DevFs.world) i :
  @kvss905c_open_from _ nodeshost (S fuel) w i
  = let '(fd, w) := DevFs.do_open w (devicename i) O_RDWR in
    if fd <? 0 then
      if DevFs.err w =? ENOENT then Some (-1, w)
      else @kvss905c_open_from _ nodeshost fuel w (u32 (i + 1))
    else
      let '(r, w) := @kvss905c_detect _ (DevFs.sgio_on h ind fd) w in
      if r =? 0 then Some (fd, w)
      else @kvss905c_open_from _ nodeshost fuel (DevFs.do_close w fd) (u32 (i + 1)).
Proof. reflexivity. Qed.

(** A node that is passed over: the search goes on at the next number,
    with no descriptor left open and the other nodes as they were. *)
Lemma open_passes_over (w : DevFs.world) i fuel :
  0 <= i < 2147483647 -> DevFs.fds w = ∅ -> 0 <= DevFs.next_fd w ->
  DevFs.passed_over h ind (DevFs.fs w !! devicename i) ->
  exists w1,
    @kvss905c_open_from _ nodeshost (S fuel) w i
    = @kvss905c_open_from _ nodeshost fuel w1 (i + 1) /\
    DevFs.fds w1 = ∅ /\ 0 <= DevFs.next_fd w1 /\
    (forall p, p <> devicename i -> DevFs.fs w1 !! p = DevFs.fs w !! p).
Proof.
  intros Hi Hfds Hnext Hpass.
  rewrite open_turn. unfold DevFs.do_open.
  rewrite (u32_small (i + 1)) by lia.
  destruct (DevFs.fs w !! devicename i) as [[e|d]|] eqn:E; cbn [DevFs.passed_over] in Hpass;
    [| |contradiction].
  - change (-1 <? 0) with true. cbv iota. cbn [DevFs.err].
    destruct (Z.eqb_spec e ENOENT) as [|_]; [contradiction|].
    eexists. split; [reflexivity|]. cbn. repeat split; assumption || reflexivity.
  - destruct (Z.ltb_spec (DevFs.next_fd w) 0) as [|_]; [lia|].
    rewrite (detect_on_fd h ind (DevFs.next_fd w) (devicename i) _ d);
      [| cbn; apply lookup_insert_eq | cbn; exact E].
    destruct (Z.eqb_spec (@kvss905c_detect _ devhost d).1 0) as [|_]; [contradiction|].
    eexists. split; [reflexivity|].
    cbn [DevFs.do_close DevFs.put DevFs.fds DevFs.fs DevFs.next_fd DevFs.err].
    split; [|split].
    + rewrite Hfds. apply delete_insert_id. apply lookup_empty.
    + lia.
    + intros p Hp. apply lookup_insert_ne. congruence.
Qed.

(** The search reaches the scanner behind nodes that are passed over. *)
Lemma open_from_finds (k : Z) (d : ScriptedSg.dev) :
  0 <= k < 2147483647 -> (@kvss905c_detect _ devhost d).1 = 0 ->
  forall (n : nat) (i : Z) (w : DevFs.world) fuel,
    i = k - Z.of_nat n -> 0 <= i ->
    DevFs.fds w = ∅ -> 0 <= DevFs.next_fd w ->
    (forall j, i <= j < k -> DevFs.passed_over h ind (DevFs.fs w !! devicename j)) ->
    DevFs.fs w !! devicename k = Some (DevFs.Device d) ->
    (n < fuel)%nat ->
    exists fd w',
      @kvss905c_open_from _ nodeshost fuel w i = Some (fd, w') /\
      0 <= fd /\ DevFs.fds w' = {[fd := devicename k]} /\
      DevFs.fs w' !! devicename k
      = Some (DevFs.Device (@kvss905c_detect _ devhost d).2).
Proof.
  intros Hk Hd.
  induction n as [|n IH]; intros i w fuel Hi Hi0 Hfds Hnext Hpass Hdev Hfuel.
  - replace i with k by lia.
    destruct fuel as [|fuel]; [lia|].
    rewrite open_turn. unfold DevFs.do_open. rewrite Hdev.
    destruct (Z.ltb_spec (DevFs.next_fd w) 0) as [|_]; [lia|].
    rewrite (detect_on_fd h ind (DevFs.next_fd w) (devicename k) _ d);
      [| cbn; apply lookup_insert_eq | cbn; exact Hdev].
    rewrite Hd. change (0 =? 0) with true. cbv iota.
    eexists _, _. split; [reflexivity|].
    cbn [DevFs.put DevFs.fds DevFs.fs DevFs.next_fd DevFs.err].
    split; [exact Hnext|]. split.
    + rewrite Hfds. reflexivity.
    + apply lookup_insert_eq.
  - destruct fuel as [|fuel]; [lia|].
    destruct (open_passes_over w i fuel) as (w1 & -> & Hfds1 & Hnext1 & Hsame);
      [lia | exact Hfds | exact Hnext | apply Hpass; lia |].
    apply IH; [lia | lia | exact Hfds1 | exact Hnext1 | | | lia].
    + intros j Hj. rewrite Hsame; [apply Hpass; lia|].
      intros Ej. apply devicename_inj in Ej; lia.
    + rewrite Hsame; [exact Hdev|].
      intros Ej. apply devicename_inj in Ej; lia.
Qed.

(** The search ends at the first number that names no node. *)
Lemma open_from_gives_up (k : Z) :
  0 <= k < 2147483647 ->
  forall (n : nat) (i : Z) (w : DevFs.world) fuel,
    i = k - Z.of_nat n -> 0 <= i ->
    DevFs.fds w = ∅ -> 0 <= DevFs.next_fd w ->
    (forall j, i <= j < k -> DevFs.passed_over h ind (DevFs.fs w !! devicename j)) ->
    DevFs.fs w !! devicename k = None ->
    (n < fuel)%nat ->
    exists w',
      @kvss905c_open_from _ nodeshost fuel w i = Some (-1, w') /\ DevFs.fds w' = ∅.
Proof.
  intros Hk.
  induction n as [|n IH]; intros i w fuel Hi Hi0 Hfds Hnext Hpass Hdev Hfuel.
  - replace i with k by lia.
    destruct fuel as [|fuel]; [lia|].
    rewrite open_turn. unfold DevFs.do_open. rewrite Hdev.
    change (-1 <? 0) with true. cbv iota. cbn [DevFs.err].
    change (ENOENT =? ENOENT) with true. cbv iota.
    eexists. split; [reflexivity | exact Hfds].
  - destruct fuel as [|fuel]; [lia|].
    destruct (open_passes_over w i fuel) as (w1 & -> & Hfds1 & Hnext1 & Hsame);
      [lia | exact Hfds | exact Hnext | apply Hpass; lia |].
    apply IH; [lia | lia | exact Hfds1 | exact Hnext1 | | | lia].
    + intros j Hj. rewrite Hsame; [apply Hpass; lia|].
      intros Ej. apply devicename_inj in Ej; lia.
    + rewrite Hsame; [exact Hdev|].
      intros Ej. apply devicename_inj in Ej; lia.
Qed.

End DevFsOpen.

(** X16: finding the scanner.  [kvss905c_open] tries /dev/sg0, /dev/sg1,
    ... in this order.  It passes over the nodes that cannot be opened for
    another reason than ENOENT and the devices that [kvss905c_detect] does
    not take for the scanner, and it closes the descriptor of every device
    it passes over.  It returns the descriptor of the first device that
    detection accepts, which is then the only descriptor open, and -1 at
    the first number that names no node, whatever sits at higher
    numbers. *)
Theorem open_finds_first_scanner (h : endianness) (ind : nat -> list Z)
    (w : DevFs.world) (k : nat) (fuel : nat) :
  Z.of_nat k < 2147483647 -> DevFs.fds w = ∅ -> 0 <= DevFs.next_fd w ->
  (forall j, (j < k)%nat ->
     DevFs.passed_over h ind (DevFs.fs w !! KVSS905C.devicename (Z.of_nat j))) ->
  (k < fuel)%nat ->
  (forall d,
      DevFs.fs w !! KVSS905C.devicename (Z.of_nat k) = Some (DevFs.Device d) ->
      (@KVSS905C.kvss905c_detect _ (ScriptedSg.sgio h ind) d).1 = 0 ->
      exists fd w',
        @KVSS905C.kvss905c_open _ (DevFs.nodes h ind) fuel w = Some (fd, w') /\
        0 <= fd /\
        DevFs.fds w' = {[fd := KVSS905C.devicename (Z.of_nat k)]} /\
        DevFs.fs w' !! KVSS905C.devicename (Z.of_nat k)
        = Some (DevFs.Device (@KVSS905C.kvss905c_detect _ (ScriptedSg.sgio h ind) d).2)) /\
  (DevFs.fs w !! KVSS905C.devicename (Z.of_nat k) = None ->
   exists w',
     @KVSS905C.kvss905c_open _ (DevFs.nodes h ind) fuel w = Some (-1, w') /\
     DevFs.fds w' = ∅).
Proof.
  intros Hk Hfds Hnext Hpass Hfuel.
  assert (Hpass' : forall j, 0 <= j < Z.of_nat k ->
            DevFs.passed_over h ind (DevFs.fs w !! KVSS905C.devicename j)).
  { intros j Hj. rewrite <- (Z2Nat.id j) by lia. apply Hpass. lia. }
  split.
  - intros d Hdev Hd. unfold KVSS905C.kvss905c_open.
    apply (open_from_finds h ind (Z.of_nat k) d ltac:(lia) Hd k 0 w fuel);
      [lia | lia | exact Hfds | exact Hnext | exact Hpass' | exact Hdev | exact Hfuel].
  - intros Hnone. unfold KVSS905C.kvss905c_open.
    apply (open_from_gives_up h ind (Z.of_nat k) ltac:(lia) k 0 w fuel);
      [lia | lia | exact Hfds | exact Hnext | exact Hpass' | exact Hnone | exact Hfuel].
Qed.

Lemma open_finds_first_scanner_witness :
  exists w',
    @KVSS905C.kvss905c_open _ (DevFs.nodes LittleEndian (fun _ => [])) 3 three_nodes
    = Some (4, w') /\
    DevFs.fds w' = {[4 := "/dev/sg2"%string]}.
Proof.
  destruct (open_finds_first_scanner LittleEndian (fun _ => []) three_nodes 2 3)
    as [Hfound _].
  - lia.
  - reflexivity.
  - simpl. lia.
  - intros j Hj. destruct j as [|[|j]]; [| |lia].
    + vm_compute. discriminate.
    + vm_compute. discriminate.
  - lia.
  - destruct (Hfound (ScriptedSg.Dev [inquiry_of [0x4b; 0x56; 0x2d; 0x53]] []))
      as (fd & w' & E & Hfd & Hfds & _).
    + vm_compute. reflexivity.
    + vm_compute. reflexivity.
    + exists w'. rewrite E.
      assert (Efd : fd = 4).
      { revert E. vm_compute. intros E. injection E as <-. reflexivity. }
      subst fd. split; [reflexivity | exact Hfds].
Defined.
